(** * Bone utilities of the CC/iC Blender tools: a shallow embedding of
    [bones.py] and the properties of its name resolver, bone tree copier,
    accessory classifier and data-path helpers. *)

From Stdlib Require Import String Ascii ZArith List Bool Lia.
From stdpp Require Import base list.

Set Default Proof Using "Type".
Set Warnings "-register-all".

(** ** Python strings *)

Module PyStr.

(** [s[n:]] for [0 <= n]. *)
Fixpoint drop (n : nat) (s : string) : string :=
  match n, s with
  | O, _ => s
  | S n', String _ s' => drop n' s'
  | S _, EmptyString => EmptyString
  end.

(** [s.startswith(p)]. *)
Definition startswith (s p : string) : bool := String.prefix p s.

(** Truthiness of a string: [if name:]. *)
Definition truthy (s : string) : bool :=
  match s with EmptyString => false | String _ _ => true end.

(** Normalisation of one slice bound against a string of length [len]. *)
Definition bound (len i : Z) : Z :=
  if (i <? 0)%Z then Z.max 0 (len + i) else Z.min i len.

(** [s[i:j]] with Python's treatment of negative and oversized bounds. *)
Definition slice (s : string) (i j : Z) : string :=
  let len := Z.of_nat (String.length s) in
  let lo := bound len i in
  let hi := bound len j in
  String.substring (Z.to_nat lo) (Z.to_nat (hi - lo)) s.

(** The double-quote character, and the one-character string holding it. *)
Definition dquote : ascii := ascii_of_nat 34.
Definition quote : string := String dquote EmptyString.

Definition chars (s : string) : list ascii := list_ascii_of_string s.

End PyStr.

(** ** The host: exceptions, the log, collections addressed by name *)

Inductive exn := KeyError | AttributeError | IndexError | ZeroDivisionError.

Inductive outcome (A : Type) :=
| Returns (a : A)
| Raises (e : exn).
Arguments Returns {A} a.
Arguments Raises {A} e.

Inductive level := INFO | WARN | ERROR.

(** One call of [utils.log_info], [utils.log_warn] or [utils.log_error]. *)
Definition log_entry : Type := level * string.

Class Named (A : Type) := name_of : A -> string.

(** A list of names is a collection of its own. *)
#[export] Instance string_named : Named string := fun s => s.

(** A name argument of the plain lookups is a string or a list of
    candidate names ([type(name) is list]). *)
Inductive name_arg :=
| NameStr (s : string)
| NameList (l : list string).

Section Collection.
Context {A : Type} `{Named A}.

(** Position of the first item stored under [name]; the items of a
    collection are referred to by their position. *)
Fixpoint find_name (coll : list A) (name : string) : option nat :=
  match coll with
  | [] => None
  | b :: rest =>
      if String.eqb (name_of b) name then Some 0
      else S <$> find_name rest name
  end.

(** [name in coll] *)
Definition contains (coll : list A) (name : string) : bool :=
  match find_name coll name with Some _ => true | None => false end.

(** [coll[name]], which raises [KeyError] for an absent name. *)
Definition getitem (coll : list A) (name : string) : outcome nat :=
  match find_name coll name with
  | Some i => Returns i
  | None => Raises KeyError
  end.

(** The shared body of [get_rl_edit_bone], [get_rl_bone] and
    [get_rl_pose_bone], over the collection each of them reads. *)
Definition get_rl_in (coll : list A) (name : string) : option nat :=
  if PyStr.truthy name then
    if contains coll name then find_name coll name
    else
      let stripped := PyStr.startswith name "CC_Base_" in
      let name := if stripped then PyStr.drop 8 name else name in
      if stripped && contains coll name then find_name coll name
      else
        let stripped := PyStr.startswith name "RL_" in
        let name := if stripped then PyStr.drop 3 name else name in
        if stripped && contains coll name then find_name coll name
        else None
  else None.

(** The loop of the list branch of [get_edit_bone], [get_bone] and
    [get_pose_bone]. *)
Fixpoint first_present (coll : list A) (names : list string) : option nat :=
  match names with
  | [] => None
  | n :: rest =>
      if contains coll n then find_name coll n else first_present coll rest
  end.

(** The shared body of [get_edit_bone], [get_bone] and [get_pose_bone]. *)
Definition get_in (coll : list A) (name : name_arg) : option nat :=
  match name with
  | NameList [] => None
  | NameList names => first_present coll names
  | NameStr s =>
      if PyStr.truthy s then
        if contains coll s then find_name coll s else None
      else None
  end.

End Collection.

(** ** Geometry of the host, kept abstract: [mathutils] vectors and
    matrices over floats. *)

Class Geometry := {
  Vec : Type;
  Mat : Type;
  Real : Type;
  (** [matrix @ vector] *)
  transform : Mat -> Vec -> Vec;
  (** [mathutils.Vector((0,0,0))] and the scalar 0 *)
  vzero : Vec;
  rzero : Real;
  vadd : Vec -> Vec -> Vec;
  vsub : Vec -> Vec -> Vec;
  vscale : Vec -> Real -> Vec;
  normalized : Vec -> Vec;
  (** [vector / n] for a non-zero count [n] *)
  vdiv : Vec -> Z -> Vec
}.

(** ** Rigs *)

(** An armature object as the functions below read it.  The three bone
    collections are [rig.data.edit_bones], [rig.data.bones] and
    [rig.pose.bones]; [animation_data] is [None] or holds the drivers;
    [edit_mode_ok] and [object_mode_ok] are the answers of the host to
    [utils.edit_mode_to(rig)] and, with this rig active, to
    [utils.set_mode("OBJECT")]. *)
Record Rig `{Geometry} (E B P : Type) := mkRig {
  edit_bones : list E;
  bones : list B;
  pose_bones : list P;
  matrix_world : Mat;
  animation_data : option (list string);
  edit_mode_ok : bool;
  object_mode_ok : bool
}.
Arguments mkRig {_ E B P}.
Arguments edit_bones {_ E B P}.
Arguments bones {_ E B P}.
Arguments pose_bones {_ E B P}.
Arguments matrix_world {_ E B P}.
Arguments animation_data {_ E B P}.
Arguments edit_mode_ok {_ E B P}.
Arguments object_mode_ok {_ E B P}.

Definition set_edit_bones `{Geometry} {E E' B P} (rig : Rig E B P) (ebs : list E') : Rig E' B P :=
  mkRig ebs (bones rig) (pose_bones rig) (matrix_world rig)
        (animation_data rig) (edit_mode_ok rig) (object_mode_ok rig).

Definition set_bones `{Geometry} {E B B' P} (rig : Rig E B P) (bs : list B') : Rig E B' P :=
  mkRig (edit_bones rig) bs (pose_bones rig) (matrix_world rig)
        (animation_data rig) (edit_mode_ok rig) (object_mode_ok rig).

Definition set_animation_data `{Geometry} {E B P} (rig : Rig E B P) (a : option (list string)) : Rig E B P :=
  mkRig (edit_bones rig) (bones rig) (pose_bones rig) (matrix_world rig)
        a (edit_mode_ok rig) (object_mode_ok rig).

(** ** Name resolver *)

(** def cmp_rl_bone_names(name, bone_name) *)
Definition cmp_rl_bone_names (name bone_name : string) : bool :=
  let bone_name :=
    if PyStr.startswith bone_name "RL_" then PyStr.drop 3 bone_name
    else if PyStr.startswith bone_name "CC_Base_" then PyStr.drop 8 bone_name
    else bone_name in
  let name :=
    if PyStr.startswith name "RL_" then PyStr.drop 3 name
    else if PyStr.startswith name "CC_Base_" then PyStr.drop 8 name
    else name in
  String.eqb name bone_name.

(** The stripped form of a name: the name with its single leading prefix
    removed, "RL_" tried before "CC_Base_". *)
Definition stripped_form (n : string) : string :=
  if PyStr.startswith n "RL_" then PyStr.drop 3 n
  else if PyStr.startswith n "CC_Base_" then PyStr.drop 8 n
  else n.

Definition has_rl_prefix (n : string) : bool :=
  PyStr.startswith n "RL_" || PyStr.startswith n "CC_Base_".

Section Lookups.
Context `{Geometry} {E B P : Type} `{Named E, Named B, Named P}.

(** def get_rl_edit_bone(rig, name) *)
Definition get_rl_edit_bone (rig : Rig E B P) (name : string) : option nat :=
  get_rl_in (edit_bones rig) name.

(** def get_rl_bone(rig, name) *)
Definition get_rl_bone (rig : Rig E B P) (name : string) : option nat :=
  get_rl_in (bones rig) name.

(** def get_rl_pose_bone(rig, name) *)
Definition get_rl_pose_bone (rig : Rig E B P) (name : string) : option nat :=
  get_rl_in (pose_bones rig) name.

(** def get_edit_bone(rig, name) *)
Definition get_edit_bone (rig : Rig E B P) (name : name_arg) : option nat :=
  get_in (edit_bones rig) name.

(** def get_bone(rig, name) *)
Definition get_bone (rig : Rig E B P) (name : name_arg) : option nat :=
  get_in (bones rig) name.

(** def get_pose_bone(rig, name) *)
Definition get_pose_bone (rig : Rig E B P) (name : name_arg) : option nat :=
  get_in (pose_bones rig) name.

End Lookups.

(** ** Data paths *)

(** def get_data_path_pose_bone_property(pose_bone_name, variable_name) *)
Definition get_data_path_pose_bone_property (pose_bone_name variable_name : string) : string :=
  ("pose.bones[" ++ PyStr.quote ++ pose_bone_name ++ PyStr.quote ++ "]["
     ++ PyStr.quote ++ variable_name ++ PyStr.quote ++ "]")%string.

(** Modelled from the spec: [utils.safe_index_of(text, search, start)]
    is not among the sources, and the spec gives only the pattern of the
    data path that it is used on.  It is taken to be
    [text.index(search, start)], with -1 in place of the [ValueError]
    of an absent [search]. *)
Definition safe_index_of (text search : string) (start : Z) : Z :=
  let len := Z.of_nat (String.length text) in
  match String.index (Z.to_nat (PyStr.bound len start)) search text with
  | Some i => Z.of_nat i
  | None => (-1)%Z
  end.

(** def get_bone_name_from_data_path(data_path) *)
Definition get_bone_name_from_data_path (data_path : string) : option string :=
  if PyStr.startswith data_path ("pose.bones[" ++ PyStr.quote)%string then
    let start := (safe_index_of data_path PyStr.quote 0 + 1)%Z in
    let end_ := safe_index_of data_path PyStr.quote start in
    Some (PyStr.slice data_path start end_)
  else None.

(** ** Edit bones *)

(** An edit bone of a rig under construction.  [parent] refers to
    another bone of the same collection by its position; [layers] is the
    array of 32 layer flags. *)
Record EditBone `{Geometry} := mkEditBone {
  eb_name : string;
  head : Vec;
  tail : Vec;
  head_radius : Real;
  tail_radius : Real;
  roll : Real;
  parent : option nat;
  layers : list bool
}.
Arguments mkEditBone {_}.

#[export] Instance EditBone_named `{Geometry} : Named EditBone := eb_name.

(** A bone of [rig.data.bones] as the layer code reads it. *)
Record DataBone := mkDataBone {
  db_name : string;
  db_layers : list bool
}.

#[export] Instance DataBone_named : Named DataBone := db_name.

(** [for l in range(0, 32): flags[l] = l == layer] *)
Definition assign_layer (flags : list bool) (layer : Z) : list bool :=
  foldl (fun fl l => <[l := (Z.of_nat l =? layer)%Z]> fl) flags (seq 0 32).

(** The flags with the one at index [layer] set and the others clear. *)
Definition layer_flags (layer : Z) : list bool :=
  map (fun l => (Z.of_nat l =? layer)%Z) (seq 0 32).


Section EditBoneOps.
Context `{Geometry}.

Definition with_name (b : EditBone) (n : string) : EditBone :=
  mkEditBone n (head b) (tail b) (head_radius b) (tail_radius b) (roll b)
             (parent b) (layers b).

Definition with_head_tail (b : EditBone) (h t : Vec) : EditBone :=
  mkEditBone (eb_name b) h t (head_radius b) (tail_radius b) (roll b)
             (parent b) (layers b).

Definition with_parent (b : EditBone) (p : nat) : EditBone :=
  mkEditBone (eb_name b) (head b) (tail b) (head_radius b) (tail_radius b)
             (roll b) (Some p) (layers b).

Definition with_layers (b : EditBone) (ls : list bool) : EditBone :=
  mkEditBone (eb_name b) (head b) (tail b) (head_radius b) (tail_radius b)
             (roll b) (parent b) ls.

Definition with_db_layers (b : DataBone) (ls : list bool) : DataBone :=
  mkDataBone (db_name b) ls.

Context {B P : Type}.

(** def rename_bone(rig, from_name, to_name) *)
Definition rename_bone (rig : Rig EditBone B P) (from_name to_name : string)
  : Rig EditBone B P * list log_entry :=
  if edit_mode_ok rig then
    match get_edit_bone rig (NameStr from_name) with
    | Some i =>
        if negb (contains (edit_bones rig) to_name) then
          (set_edit_bones rig
             (alter (fun b => with_name b to_name) i (edit_bones rig)), [])
        else
          (rig, [(ERROR, ("Bone " ++ from_name ++ " cannot be renamed as "
                            ++ to_name ++ " already exists in rig!")%string)])
    | None =>
        (rig, [(ERROR, ("Bone " ++ from_name ++ " cannot be renamed as "
                          ++ to_name ++ " already exists in rig!")%string)])
    end
  else (rig, []).

(** The loop of [copy_position]: the sums of the shifted heads and
    tails of the bones of [copy_bones] that exist, and their number. *)
Fixpoint sum_positions (ebs : list EditBone) (copy_bones : list string)
         (offset : Real) (acc : Vec * Vec * Z) : Vec * Vec * Z :=
  match copy_bones with
  | [] => acc
  | copy_name :: rest =>
      let '(head_position, tail_position, num) := acc in
      match (if contains ebs copy_name then find_name ebs copy_name ≫= (ebs !!.) else None) with
      | Some copy_bone =>
          let dir := normalized (vsub (tail copy_bone) (head copy_bone)) in
          sum_positions ebs rest offset
            (vadd head_position (vadd (head copy_bone) (vscale dir offset)),
             vadd tail_position (vadd (tail copy_bone) (vscale dir offset)),
             (num + 1)%Z)
      | None => sum_positions ebs rest offset acc
      end
  end.

(** def copy_position(rig, bone, copy_bones, offset); dividing a vector
    by the number 0 raises [ZeroDivisionError]. *)
Definition copy_position (rig : Rig EditBone B P) (bone : string)
           (copy_bones : list string) (offset : Real)
  : outcome (option nat) * Rig EditBone B P * list log_entry :=
  if edit_mode_ok rig then
    if contains (edit_bones rig) bone then
      match find_name (edit_bones rig) bone with
      | Some edit_bone =>
          let '(head_position, tail_position, num) :=
            sum_positions (edit_bones rig) copy_bones offset (vzero, vzero, 0%Z) in
          if (num =? 0)%Z then (Raises ZeroDivisionError, rig, [])
          else
            let head_position := vdiv head_position num in
            let tail_position := vdiv tail_position num in
            (Returns (Some edit_bone),
             set_edit_bones rig
               (alter (fun b => with_head_tail b head_position tail_position)
                      edit_bone (edit_bones rig)),
             [])
      | None => (Raises KeyError, rig, [])
      end
    else
      (Returns None, rig,
       [(ERROR, ("Cannot find bone " ++ bone ++ " in rig!")%string)])
  else (Returns None, rig, []).

(** def set_edit_bone_layer(rig, bone_name, layer) *)
Definition set_edit_bone_layer (rig : Rig EditBone B P) (bone_name : string) (layer : Z)
  : outcome unit * Rig EditBone B P * list log_entry :=
  match getitem (edit_bones rig) bone_name with
  | Returns edit_bone =>
      (Returns tt,
       set_edit_bones rig
         (alter (fun b => with_layers b (assign_layer (layers b) layer))
                edit_bone (edit_bones rig)),
       [])
  | Raises e => (Raises e, rig, [])
  end.

End EditBoneOps.


(** def clear_drivers(rig); [rig.animation_data] is [None] for a rig
    without animation data, and reading [.drivers] of it raises
    [AttributeError]. *)
Definition clear_drivers `{Geometry} {E B P} (rig : Rig E B P)
  : outcome unit * Rig E B P * list log_entry :=
  match animation_data rig with
  | None => (Raises AttributeError, rig, [])
  | Some drivers =>
      match drivers with
      | [] => (Returns tt, rig, [])
      | _ :: _ =>
          let fcurves := drivers in
          (Returns tt,
           set_animation_data rig
             (Some (foldl (fun ds fc => remove string_dec fc ds) drivers fcurves)),
           [])
      end
  end.

(** ** Accessory bone classifier *)

(** A bone of [rig.data.bones] as the classifier reads it: its name and,
    through [bone.parent], the chain of its ancestors. *)
Inductive Bone := mkBone {
  bone_name : string;
  bone_parent : option Bone
}.

#[export] Instance Bone_named : Named Bone := bone_name.

(** A row of the bone mapping table; the classifier reads its entry 1. *)
Definition bone_mapping : Type := string * string.

(** def bone_mapping_contains_bone(bone_mappings, bone_name) *)
Fixpoint bone_mapping_contains_bone (bone_mappings : list bone_mapping) (bone_name : string) : bool :=
  match bone_mappings with
  | [] => false
  | bone_mapping :: rest =>
      if cmp_rl_bone_names (snd bone_mapping) bone_name then true
      else bone_mapping_contains_bone rest bone_name
  end.

(** The [while bone.parent:] loop of [get_accessory_root_bone]. *)
Fixpoint accessory_root_walk (bone_mappings : list bone_mapping) (bone : Bone)
         (root : option Bone) : option Bone :=
  match bone with
  | mkBone _ (Some p) =>
      let root :=
        if negb (bone_mapping_contains_bone bone_mappings (bone_name p))
        then Some p else root in
      accessory_root_walk bone_mappings p root
  | mkBone _ None => root
  end.

(** def get_accessory_root_bone(bone_mappings, bone) *)
Definition get_accessory_root_bone (bone_mappings : list bone_mapping) (bone : Bone) : option Bone :=
  let root := None in
  if negb (bone_mapping_contains_bone bone_mappings (bone_name bone))
  then accessory_root_walk bone_mappings bone root
  else root.

(** The [while bone.parent:] loop of [bone_parent_in_list]. *)
Fixpoint parent_in_list_walk (bone_list : list string) (bone : Bone) : bool :=
  match bone with
  | mkBone _ (Some p) =>
      if existsb (String.eqb (bone_name p)) bone_list then true
      else parent_in_list_walk bone_list p
  | mkBone _ None => false
  end.

(** def bone_parent_in_list(bone_list, bone) *)
Definition bone_parent_in_list (bone_list : list string) (bone : option Bone) : bool :=
  match bone with
  | Some bone => parent_in_list_walk bone_list bone
  | None => false
  end.

(** The body of the loop of [find_accessory_bones], for one bone. *)
Definition accessory_step (bone_mappings : list bone_mapping)
           (acc : list string * list log_entry) (bone : Bone)
  : list string * list log_entry :=
  let '(accessory_bones, log) := acc in
  let bone_name := bone_name bone in
  if negb (bone_mapping_contains_bone bone_mappings bone_name) then
    if negb (existsb (String.eqb bone_name) accessory_bones)
       && negb (bone_parent_in_list accessory_bones (Some bone))
    then (accessory_bones ++ [bone_name],
          log ++ [(INFO, ("Accessory Bone: " ++ bone_name)%string)])
    else acc
  else acc.

(** def find_accessory_bones(bone_mappings, rig): the list returned and
    the lines logged. *)
Definition find_accessory_bones `{Geometry} {E P} (bone_mappings : list bone_mapping)
           (rig : Rig E Bone P) : list string * list log_entry :=
  foldl (accessory_step bone_mappings) ([], []) (bones rig).

(** The proper ancestors of a bone, nearest first. *)
Fixpoint ancestors (bone : Bone) : list Bone :=
  match bone with
  | mkBone _ (Some p) => p :: ancestors p
  | mkBone _ None => []
  end.

(** A bone is mapped when the mapping table holds its name, up to the
    prefixes. *)
Definition mapped (bone_mappings : list bone_mapping) (bone : Bone) : bool :=
  bone_mapping_contains_bone bone_mappings (bone_name bone).

(** What one turn of the walk of [get_accessory_root_bone] leaves in
    [root]. *)
Definition keep_unmapped (bone_mappings : list bone_mapping)
           (root : option Bone) (p : Bone) : option Bone :=
  if negb (mapped bone_mappings p) then Some p else root.

(** ** Bone tree copier *)

(** The naming of the host: [edit_bones.new(name)] gives the new bone a
    name that no bone of the collection carries yet, which is [name]
    itself or a variation of it. *)
Class Naming := {
  unique_name : list string -> string -> string;
  unique_name_fresh : forall names n, ~ In (unique_name names n) names
}.

(** An edit bone of the source rig as the subtree walk reads it: its own
    attributes, the name of [bone.parent] ([None] for a bone without
    parent) and the bones of [bone.children]. *)
Inductive EditBoneNode `{Geometry} := mkNode {
  node_name : string;
  node_head : Vec;
  node_tail : Vec;
  node_head_radius : Real;
  node_tail_radius : Real;
  node_roll : Real;
  node_parent : option string;
  node_children : list EditBoneNode
}.
Arguments mkNode {_}.

#[export] Instance EditBoneNode_named `{Geometry} : Named EditBoneNode := node_name.

(** One record of the serialized subtree: the seven entries written by
    [get_edit_bone_subtree_defs], and the entry appended by the copy
    (the name of the bone created from the record). *)
Record BoneDef `{Geometry} := mkDef {
  def_name : string;
  def_head : Vec;
  def_tail : Vec;
  def_head_radius : Real;
  def_tail_radius : Real;
  def_roll : Real;
  def_parent_name : string;
  def_created : option string
}.
Arguments mkDef {_}.

Section TreeCopier.
Context `{G : Geometry} `{N : Naming}.

(** [bone_def.append(name)] *)
Definition def_append (d : BoneDef) (name : string) : BoneDef :=
  mkDef (def_name d) (def_head d) (def_tail d) (def_head_radius d)
        (def_tail_radius d) (def_roll d) (def_parent_name d)
        (match def_created d with Some n => Some n | None => Some name end).

(** def get_edit_bone_subtree_defs(rig, bone, tree), for a bone that
    is not [None]; [tree] is the list that the calls share. *)
Fixpoint get_edit_bone_subtree_defs {B P} (rig : Rig EditBoneNode B P)
         (bone : EditBoneNode) (tree : list BoneDef) : list BoneDef :=
  match bone with
  | mkNode name head tail head_radius tail_radius roll parent children =>
      match (if edit_mode_ok rig then parent else None) with
      | Some parent_name =>
          let bone_data :=
            mkDef name
                  (transform (matrix_world rig) head)
                  (transform (matrix_world rig) tail)
                  head_radius tail_radius roll parent_name None in
          let tree := tree ++ [bone_data] in
          fold_left (fun tree child_bone =>
                       get_edit_bone_subtree_defs rig child_bone tree)
                    children tree
      | None => tree
      end
  end.

(** [edit_bones.new(name)]: a bone without parent on the first layer,
    appended to the collection under a name that is new to it. *)
Definition new_bone (ebs : list EditBone) (name : string) : EditBone :=
  mkEditBone (unique_name (map name_of ebs) name)
             vzero vzero rzero rzero rzero None
             (true :: replicate 31 false).

(** The body of the first loop of [copy_rl_edit_bone_subtree], for one
    record: the collection and the record afterwards. *)
Definition create_bone (ebs : list EditBone) (cc3_name dst_name : string)
           (layer : Z) (bone_def : BoneDef) : list EditBone * BoneDef :=
  let name := def_name bone_def in
  let name := if String.eqb name cc3_name then dst_name else name in
  let parent_name := def_parent_name bone_def in
  let bone := length ebs in
  let created := new_bone ebs name in
  let created :=
    mkEditBone (eb_name created) (def_head bone_def) (def_tail bone_def)
               (def_head_radius bone_def) (def_tail_radius bone_def)
               (def_roll bone_def) (parent created) (layers created) in
  let ebs := ebs ++ [created] in
  let bone_def := def_append bone_def (eb_name created) in
  let ebs := alter (fun b => with_layers b (assign_layer (layers b) layer)) bone ebs in
  let ebs :=
    match get_in ebs (NameStr parent_name) with
    | Some parent_bone => alter (fun b => with_parent b parent_bone) bone ebs
    | None => ebs
    end in
  (ebs, bone_def).

(** The name asked of the host for the bone of a record. *)
Definition requested_name (cc3_name dst_name : string) (bone_def : BoneDef) : string :=
  if String.eqb (def_name bone_def) cc3_name then dst_name else def_name bone_def.

(** The bone that [create_bone] leaves at the end of the collection. *)
Definition created_bone (ebs : list EditBone) (cc3_name dst_name : string)
           (layer : Z) (bone_def : BoneDef) : EditBone :=
  let name := unique_name (map name_of ebs) (requested_name cc3_name dst_name bone_def) in
  mkEditBone name (def_head bone_def) (def_tail bone_def)
             (def_head_radius bone_def) (def_tail_radius bone_def)
             (def_roll bone_def)
             (get_in (map name_of ebs ++ [name]) (NameStr (def_parent_name bone_def)))
             (layer_flags layer).

(** The first loop of [copy_rl_edit_bone_subtree]. *)
Fixpoint create_bones (ebs : list EditBone) (cc3_name dst_name : string)
         (layer : Z) (src_bone_defs : list BoneDef) : list EditBone * list BoneDef :=
  match src_bone_defs with
  | [] => (ebs, [])
  | bone_def :: rest =>
      let '(ebs, bone_def) := create_bone ebs cc3_name dst_name layer bone_def in
      let '(ebs, rest) := create_bones ebs cc3_name dst_name layer rest in
      (ebs, bone_def :: rest)
  end.

(** "set the tree parent" *)
Definition set_tree_parent (ebs : list EditBone) (dst_name dst_parent_name : string)
  : list EditBone :=
  match get_in ebs (NameStr dst_name), get_in ebs (NameStr dst_parent_name) with
  | Some dst_bone, Some dst_parent_bone =>
      alter (fun b => with_parent b dst_parent_bone) dst_bone ebs
  | _, _ => ebs
  end.

(** Leaving edit mode, the host writes the edit bones back to the
    bones of the armature. *)
Definition to_data_bone (b : EditBone) : DataBone :=
  mkDataBone (eb_name b) (layers b).

(** The second loop of [copy_rl_edit_bone_subtree]. *)
Fixpoint set_pose_layers (bs : list DataBone) (layer : Z)
         (src_bone_defs : list BoneDef) : outcome unit * list DataBone :=
  match src_bone_defs with
  | [] => (Returns tt, bs)
  | bone_def :: rest =>
      match def_created bone_def with
      | None => (Raises IndexError, bs)
      | Some name =>
          match getitem bs name with
          | Raises e => (Raises e, bs)
          | Returns pose_bone =>
              set_pose_layers
                (alter (fun b => with_db_layers b (assign_layer (db_layers b) layer))
                       pose_bone bs)
                layer rest
          end
      end
  end.

(** def copy_rl_edit_bone_subtree(cc3_rig, dst_rig, cc3_name, dst_name,
    dst_parent_name, layer): what the call returns or raises, and the
    destination rig afterwards.  The two rigs are distinct objects. *)
Definition copy_rl_edit_bone_subtree {B P P'}
           (cc3_rig : Rig EditBoneNode B P) (dst_rig : Rig EditBone DataBone P')
           (cc3_name dst_name dst_parent_name : string) (layer : Z)
  : outcome (option (list BoneDef)) * Rig EditBone DataBone P' :=
  if edit_mode_ok cc3_rig then
    match get_edit_bone cc3_rig (NameStr cc3_name) ≫= (edit_bones cc3_rig !!.) with
    | None => (Raises AttributeError, dst_rig)
    | Some cc3_bone =>
        let src_bone_defs := get_edit_bone_subtree_defs cc3_rig cc3_bone [] in
        if edit_mode_ok dst_rig then
          let '(ebs, src_bone_defs) :=
            create_bones (edit_bones dst_rig) cc3_name dst_name layer src_bone_defs in
          let ebs := set_tree_parent ebs dst_name dst_parent_name in
          let dst_rig := set_edit_bones dst_rig ebs in
          if object_mode_ok dst_rig then
            let dst_rig := set_bones dst_rig (map to_data_bone ebs) in
            match set_pose_layers (bones dst_rig) layer src_bone_defs with
            | (Returns _, bs) => (Returns (Some src_bone_defs), set_bones dst_rig bs)
            | (Raises e, bs) => (Raises e, set_bones dst_rig bs)
            end
          else (Returns (Some src_bone_defs), dst_rig)
        else (Returns (Some src_bone_defs), dst_rig)
    end
  else (Returns None, dst_rig).

End TreeCopier.

(** ** Further operations of the name resolver and the data paths *)

(** The names that [get_rl_edit_bone], [get_rl_bone] and
    [get_rl_pose_bone] try, in their order: the name itself, the name
    without a leading "CC_Base_", and what is left, after that, without
    a leading "RL_". *)
Definition rl_candidates (name : string) : list string :=
  let name1 := if PyStr.startswith name "CC_Base_" then PyStr.drop 8 name else name in
  [name]
    ++ (if PyStr.startswith name "CC_Base_" then [name1] else [])
    ++ (if PyStr.startswith name1 "RL_" then [PyStr.drop 3 name1] else []).

(** def get_data_rigify_limb_property(limb_id, variable_name) *)
Definition get_data_rigify_limb_property (limb_id variable_name : string) : string :=
  if String.eqb limb_id "LEFT_LEG" then
    get_data_path_pose_bone_property "thigh_parent.L" variable_name
  else if String.eqb limb_id "RIGHT_LEFT" then
    get_data_path_pose_bone_property "thigh_parent.R" variable_name
  else if String.eqb limb_id "LEFT_ARM" then
    get_data_path_pose_bone_property "upper_arm_parent.L" variable_name
  else if String.eqb limb_id "RIGHT_ARM" then
    get_data_path_pose_bone_property "upper_arm_parent.R" variable_name
  else if String.eqb limb_id "TORSO" then
    get_data_path_pose_bone_property "torso" variable_name
  else if String.eqb limb_id "JAW" then
    get_data_path_pose_bone_property "jaw_master" variable_name
  else if String.eqb limb_id "EYES" then
    get_data_path_pose_bone_property "eyes" variable_name
  else "".

(** The limb identifiers that [get_data_rigify_limb_property] knows, each
    with the pose bone that carries the limb's properties. *)
Definition limb_bones : list (string * string) :=
  [("LEFT_LEG", "thigh_parent.L"); ("RIGHT_LEFT", "thigh_parent.R");
   ("LEFT_ARM", "upper_arm_parent.L"); ("RIGHT_ARM", "upper_arm_parent.R");
   ("TORSO", "torso"); ("JAW", "jaw_master"); ("EYES", "eyes")]%string.

(** [i] is the position of the first name of [names] that the collection
    holds, and of a bone of that name. *)
Definition first_named {A : Type} `{Named A} (coll : list A) (names : list string)
           (i : nat) : Prop :=
  exists pre n post b,
    names = pre ++ n :: post /\
    (forall m, In m pre -> contains coll m = false) /\
    find_name coll n = Some i /\
    coll !! i = Some b /\ name_of b = n.

(** How the data path of a pose bone property opens. *)
Definition path_opening : string := ("pose.bones[" ++ PyStr.quote)%string.

(** The text of the error that [rename_bone] logs. *)
Definition rename_error (from_name to_name : string) : log_entry :=
  (ERROR, ("Bone " ++ from_name ++ " cannot be renamed as "
             ++ to_name ++ " already exists in rig!")%string).

(** The line that [find_accessory_bones] logs for a name. *)
Definition accessory_line (bone_name : string) : log_entry :=
  (INFO, ("Accessory Bone: " ++ bone_name)%string).

(** ** The shape of a source subtree *)

Section TreeShape.
Context `{G : Geometry}.

(** The bones of a subtree, each bone before the bones below it and the
    children in their order. *)
Fixpoint preorder (bone : EditBoneNode) : list EditBoneNode :=
  match bone with
  | mkNode _ _ _ _ _ _ _ children => bone :: List.flat_map preorder children
  end.

(** Below [bone], every bone has the bone above it as [bone.parent]. *)
Fixpoint well_linked (bone : EditBoneNode) : Prop :=
  match bone with
  | mkNode name _ _ _ _ _ _ children =>
      fold_right (fun child rest =>
                    node_parent child = Some name /\ well_linked child /\ rest)
                 True children
  end.

(** The record that [get_edit_bone_subtree_defs] writes for a bone that
    has a parent. *)
Definition record_of {B P} (rig : Rig EditBoneNode B P) (bone : EditBoneNode) : BoneDef :=
  mkDef (node_name bone)
        (transform (matrix_world rig) (node_head bone))
        (transform (matrix_world rig) (node_tail bone))
        (node_head_radius bone) (node_tail_radius bone) (node_roll bone)
        (match node_parent bone with Some parent_name => parent_name | None => "" end)
        None.

End TreeShape.

(** ** Further operations on edit bones *)

(** The rig with other pose bones. *)
Definition set_pose_bones `{Geometry} {E B P P'} (rig : Rig E B P) (ps : list P') : Rig E B P' :=
  mkRig (edit_bones rig) (bones rig) ps (matrix_world rig)
        (animation_data rig) (edit_mode_ok rig) (object_mode_ok rig).

(** The bone at position [j] and the bones above it, through at most
    [fuel] parent links. *)
Fixpoint parent_chain `{Geometry} (ebs : list EditBone) (fuel j : nat) : list nat :=
  match fuel with
  | O => [j]
  | S fuel =>
      j :: match ebs !! j ≫= parent with
           | Some p => parent_chain ebs fuel p
           | None => []
           end
  end.

(** Making [p] the parent of [bone] closes no loop of parents: [bone] is
    not [p] and not above it. *)
Definition loop_free `{Geometry} (ebs : list EditBone) (bone p : nat) : Prop :=
  ~ In bone (parent_chain ebs (length ebs) p).

Section MoreEditBoneOps.
Context `{G : Geometry} `{N : Naming} {B P : Type} `{Named B, Named P}.

(** def reparent_edit_bone(rig, bone_name, parent_name): the bone is
    looked for in [rig.data.bones] and taken from
    [rig.data.edit_bones].  An assignment to [bone.parent] is taken as
    made. *)
Definition reparent_edit_bone (rig : Rig EditBone B P) (bone_name parent_name : string)
  : outcome (option nat) * Rig EditBone B P * list log_entry :=
  if edit_mode_ok rig then
    if contains (bones rig) bone_name then
      match getitem (edit_bones rig) bone_name with
      | Returns bone =>
          if negb (String.eqb parent_name "") then
            match get_edit_bone rig (NameStr parent_name) with
            | Some parent_bone =>
                (Returns (Some bone),
                 set_edit_bones rig
                   (alter (fun b => with_parent b parent_bone) bone (edit_bones rig)),
                 [])
            | None =>
                (Returns None, rig,
                 [(ERROR, ("Could not find parent bone: " ++ parent_name
                             ++ " in Rig!")%string)])
            end
          else (Returns None, rig, [])
      | Raises e => (Raises e, rig, [])
      end
    else
      (Returns None, rig,
       [(ERROR, ("Could not find target bone: " ++ bone_name ++ " in Rig!")%string)])
  else (Returns None, rig, [(ERROR, "Unable to edit rig!"%string)]).

(** [src_bone.head + (src_bone.tail - src_bone.head) * scale] *)
Definition scaled_tail (head_pos tail_pos : Vec) (scale : Real) : Vec :=
  vadd head_pos (vscale (vsub tail_pos head_pos) scale).

(** def copy_edit_bone(rig, src_name, dst_name, parent_name, scale) *)
Definition copy_edit_bone (rig : Rig EditBone B P)
           (src_name dst_name parent_name : string) (scale : Real)
  : outcome (option nat) * Rig EditBone B P * list log_entry :=
  if edit_mode_ok rig then
    let ebs := edit_bones rig in
    match get_edit_bone rig (NameStr src_name) ≫= (ebs !!.),
          negb (contains ebs dst_name) with
    | Some src_bone, true =>
        let dst_bone := length ebs in
        let created := new_bone ebs dst_name in
        let created :=
          mkEditBone (eb_name created) (head src_bone)
                     (scaled_tail (head src_bone) (tail src_bone) scale)
                     (head_radius created) (tail_radius created)
                     (roll src_bone) (parent created) (layers created) in
        let ebs := ebs ++ [created] in
        if negb (String.eqb parent_name "") then
          if contains ebs parent_name then
            match getitem ebs parent_name with
            | Returns parent_bone =>
                (Returns (Some dst_bone),
                 set_edit_bones rig
                   (alter (fun b => with_parent b parent_bone) dst_bone ebs),
                 [])
            | Raises e => (Raises e, set_edit_bones rig ebs, [])
            end
          else
            (Returns (Some dst_bone), set_edit_bones rig ebs,
             [(ERROR, ("Unable to find parent bone " ++ parent_name
                         ++ " in rig!")%string)])
        else (Returns (Some dst_bone), set_edit_bones rig ebs, [])
    | _, _ =>
        (Returns None, rig,
         (if negb (contains ebs src_name)
          then [(ERROR, ("Unable to find source bone " ++ src_name
                           ++ " in rig!")%string)]
          else [])
         ++
         (if contains ebs dst_name
          then [(WARN, ("Destination bone " ++ dst_name
                          ++ " already exists in rig!")%string)]
          else []))
    end
  else (Returns None, rig, [(ERROR, "Unable to edit rig!"%string)]).


End MoreEditBoneOps.


(** A pose bone as [clear_constraints] reads it: its name and its
    constraints. *)
Record PoseBone (C : Type) := mkPoseBone {
  pb_name : string;
  constraints : list C
}.
Arguments mkPoseBone {C}.
Arguments pb_name {C}.
Arguments constraints {C}.

#[export] Instance PoseBone_named {C} : Named (PoseBone C) := pb_name.

(** def clear_constraints(rig, pose_bone_name) *)
Definition clear_constraints `{Geometry} {E B C} `{EqDecision C}
           (rig : Rig E B (PoseBone C)) (pose_bone_name : string)
  : outcome unit * Rig E B (PoseBone C) :=
  if PyStr.truthy pose_bone_name then
    if object_mode_ok rig then
      if contains (pose_bones rig) pose_bone_name then
        match getitem (pose_bones rig) pose_bone_name with
        | Returns pose_bone =>
            (Returns tt,
             set_pose_bones rig
               (alter (fun b =>
                         let constraints_ := constraints b in
                         mkPoseBone (pb_name b)
                           (foldl (fun cs con => remove (decide_rel eq) con cs)
                                  (constraints b) constraints_))
                      pose_bone (pose_bones rig)))
        | Raises e => (Raises e, rig)
        end
      else (Returns tt, rig)
    else (Returns tt, rig)
  else (Returns tt, rig).

(** * Properties *)

(** ** Strings *)

Section StringFacts.
Local Open Scope string_scope.

Lemma length_drop n s : String.length (PyStr.drop n s) = String.length s - n.
Proof.
  revert s; induction n as [|n IH]; intros [|c s]; simpl; auto with arith.
Qed.

Lemma prefix_length p s :
  String.prefix p s = true -> String.length p <= String.length s.
Proof.
  revert p; induction s as [|c s IH]; intros [|d p]; simpl; try lia; try discriminate.
  destruct (ascii_dec d c); [|discriminate].
  intros Hp; apply IH in Hp; lia.
Qed.

Lemma eqb_length_neq s t :
  String.length s <> String.length t -> String.eqb s t = false.
Proof.
  intros Hl. apply String.eqb_neq. intros ->. now apply Hl.
Qed.

Lemma substring_prefix p s :
  String.substring 0 (String.length p) (p ++ s) = p.
Proof.
  induction p as [|c p IH]; simpl; [destruct s; reflexivity | now rewrite IH].
Qed.

Lemma substring_skip p n s :
  String.substring (String.length p) n (p ++ s) = String.substring 0 n s.
Proof. induction p as [|c p IH]; simpl; auto. Qed.

Lemma length_append p s :
  String.length (p ++ s) = String.length p + String.length s.
Proof. induction p as [|c p IH]; simpl; auto. Qed.

(** Searching from inside a known prefix skips that prefix. *)
Lemma index_skip p n q s :
  String.index (String.length p + n) q (p ++ s)
  = (fun i => String.length p + i) <$> String.index n q s.
Proof.
  induction p as [|c p IH]; simpl.
  - now destruct (String.index n q s).
  - rewrite IH. now destruct (String.index n q s).
Qed.

(** The first quote after a quote-free run is right behind the run. *)
Lemma index_quote_run b s :
  ~ In PyStr.dquote (PyStr.chars b) ->
  String.index 0 PyStr.quote (b ++ String PyStr.dquote s) = Some (String.length b).
Proof.
  induction b as [|c b IH]; intros Hq.
  - simpl. destruct (ascii_dec PyStr.dquote PyStr.dquote) as [_|Hn]; [|congruence].
    now destruct s.
  - cbn [PyStr.chars list_ascii_of_string In] in Hq.
    change ((String c b) ++ String PyStr.dquote s)
      with (String c (b ++ String PyStr.dquote s)).
    cbn [String.index String.prefix PyStr.quote].
    destruct (ascii_dec PyStr.dquote c) as [Hc|Hc].
    { exfalso. apply Hq. left. now symmetry. }
    rewrite IH; [reflexivity|]. intros Hb. apply Hq. now right.
Qed.

Lemma prefix_append p s : String.prefix p (p ++ s) = true.
Proof.
  induction p as [|c p IH]; simpl.
  - now destruct s.
  - destruct (ascii_dec c c); [exact IH | congruence].
Qed.

Lemma bound_in_range len i :
  i <= len -> PyStr.bound (Z.of_nat len) (Z.of_nat i) = Z.of_nat i.
Proof.
  intros Hi. unfold PyStr.bound.
  destruct (Z.ltb_spec (Z.of_nat i) 0); lia.
Qed.

Lemma safe_index_of_found text q start i :
  start <= String.length text ->
  String.index start q text = Some i ->
  safe_index_of text q (Z.of_nat start) = Z.of_nat i.
Proof.
  intros Hs Hi. unfold safe_index_of.
  now rewrite bound_in_range, Nat2Z.id, Hi.
Qed.

Lemma slice_in_range s i n :
  i + n <= String.length s ->
  PyStr.slice s (Z.of_nat i) (Z.of_nat (i + n)) = String.substring i n s.
Proof.
  intros Hs. unfold PyStr.slice.
  rewrite !bound_in_range by lia.
  rewrite Nat2Z.id. f_equal. lia.
Qed.

End StringFacts.

(** ** Name resolver *)

Lemma cmp_rl_bone_names_strips name bone_name :
  cmp_rl_bone_names name bone_name
  = String.eqb (stripped_form name) (stripped_form bone_name).
Proof. reflexivity. Qed.

Lemma stripped_form_shorter s :
  has_rl_prefix s = true ->
  String.length (stripped_form s) < String.length s.
Proof.
  unfold has_rl_prefix, stripped_form, PyStr.startswith.
  destruct (String.prefix "RL_" s) eqn:E1.
  - intros _. apply prefix_length in E1. rewrite length_drop.
    change (String.length "RL_") with 3 in E1. lia.
  - rewrite orb_false_l. intros E2. rewrite E2. apply prefix_length in E2.
    rewrite length_drop. change (String.length "CC_Base_") with 8 in E2. lia.
Qed.

Lemma stripped_form_plain s :
  has_rl_prefix s = false -> stripped_form s = s.
Proof.
  unfold has_rl_prefix, stripped_form.
  destruct (PyStr.startswith s "RL_"); simpl; [discriminate|].
  now intros ->.
Qed.

(** C2, as amended: for a name [n] that starts with "RL_" or "CC_Base_",
    [cmp_rl_bone_names] holds between [n] and its stripped form exactly
    when the stripped form does not itself start with one of the two
    prefixes (each side loses one prefix at most). *)
Theorem cmp_rl_bone_names_stripped n :
  has_rl_prefix n = true ->
  cmp_rl_bone_names n (stripped_form n) = negb (has_rl_prefix (stripped_form n)).
Proof.
  intros _. rewrite cmp_rl_bone_names_strips.
  destruct (has_rl_prefix (stripped_form n)) eqn:E; simpl.
  - apply eqb_length_neq. apply stripped_form_shorter in E. lia.
  - rewrite (stripped_form_plain _ E). apply String.eqb_refl.
Qed.

Section CollectionFacts.
Context {A : Type} `{Named A}.

Lemma find_name_Some (coll : list A) name i :
  find_name coll name = Some i ->
  exists b, coll !! i = Some b /\ name_of b = name
            /\ forall j b', j < i -> coll !! j = Some b' -> name_of b' <> name.
Proof.
  revert i; induction coll as [|b coll IH]; intros i; simpl; [discriminate|].
  destruct (String.eqb (name_of b) name) eqn:E.
  - intros [= <-]. exists b. apply String.eqb_eq in E.
    repeat split; auto. intros j b' Hj; lia.
  - destruct (find_name coll name) as [k|] eqn:F; simpl; [|discriminate].
    intros [= <-]. destruct (IH k eq_refl) as (b0 & Hb0 & Hn & Hfirst).
    exists b0. repeat split; auto.
    intros [|j] b' Hj; simpl.
    + intros [= <-]. now apply String.eqb_neq.
    + apply Hfirst. lia.
Qed.

Lemma find_name_None (coll : list A) name :
  find_name coll name = None <-> forall b, In b coll -> name_of b <> name.
Proof.
  induction coll as [|b coll IH]; simpl.
  - split; [intros _ b [] | reflexivity].
  - destruct (String.eqb (name_of b) name) eqn:E.
    + apply String.eqb_eq in E. split; [discriminate|].
      intros Hall. exfalso. apply (Hall b); auto.
    + apply String.eqb_neq in E.
      destruct (find_name coll name) as [k|] eqn:F; simpl.
      * split; [discriminate|]. intros Hall.
        assert (Some k = @None nat) as Hk; [|discriminate Hk].
        apply IH. intros b' Hb'. apply Hall. now right.
      * split; [|reflexivity]. intros _ b' [<-|Hb']; [assumption|].
        now apply IH.
Qed.


Lemma contains_find_name (coll : list A) name i :
  find_name coll name = Some i -> contains coll name = true.
Proof. unfold contains. now intros ->. Qed.


Lemma get_rl_in_empty (coll : list A) : get_rl_in coll "" = None.
Proof. reflexivity. Qed.


Lemma get_in_str (coll : list A) name :
  get_in coll (NameStr name)
  = if PyStr.truthy name then find_name coll name else None.
Proof.
  unfold get_in, contains.
  destruct (PyStr.truthy name); [|reflexivity].
  now destruct (find_name coll name).
Qed.

End CollectionFacts.

Section LookupFacts.
Context `{Geometry} {E B P : Type} `{Named E, Named B, Named P}.


End LookupFacts.

(** ** Data paths *)

(** C10: the bone name read back from the data path built for a bone
    name without double quote is that bone name. *)
Theorem data_path_bone_name_roundtrip (b p : string) :
  ~ In PyStr.dquote (PyStr.chars b) ->
  get_bone_name_from_data_path (get_data_path_pose_bone_property b p) = Some b.
Proof.
  intros Hq.
  set (rest := ("]["%string ++ PyStr.quote ++ p ++ PyStr.quote ++ "]")%string).
  assert (get_data_path_pose_bone_property b p
          = ("pose.bones[" ++ PyStr.quote ++ (b ++ String PyStr.dquote rest))%string)
    as ->.
  { unfold get_data_path_pose_bone_property, rest. reflexivity. }
  set (body := (b ++ String PyStr.dquote rest)%string).
  set (opening := ("pose.bones[" ++ PyStr.quote)%string).
  assert (String.length (opening ++ body)
          = 12 + (String.length b + S (String.length rest))) as Hlen.
  { rewrite length_append. unfold body. rewrite length_append. reflexivity. }
  assert (safe_index_of (opening ++ body) PyStr.quote 0 = 11%Z) as Hstart.
  { apply (safe_index_of_found _ _ 0 11); [lia|].
    apply (index_quote_run "pose.bones[" body).
    vm_compute. intuition discriminate. }
  assert (safe_index_of (opening ++ body) PyStr.quote 12
          = Z.of_nat (12 + String.length b)) as Hend.
  { apply (safe_index_of_found _ _ 12); [lia|].
    change 12 with (String.length opening + 0) at 1.
    rewrite index_skip. unfold body. now rewrite index_quote_run. }
  unfold get_bone_name_from_data_path.
  change ("pose.bones[" ++ PyStr.quote ++ body)%string with (opening ++ body)%string.
  unfold PyStr.startswith. rewrite prefix_append.
  rewrite Hstart. change (11 + 1)%Z with 12%Z. rewrite Hend.
  change 12%Z with (Z.of_nat 12).
  rewrite slice_in_range by lia.
  change 12 with (String.length opening) at 1.
  rewrite substring_skip. unfold body. now rewrite substring_prefix.
Qed.

(** ** Renaming *)

Section RenameFacts.
Context `{Geometry} {B P : Type}.

(** C9, as amended: when a bone named [to_name] exists already,
    [rename_bone] leaves every bone as it was, and logs an error
    whenever the rig could be put into edit mode. *)
Theorem rename_bone_existing_name (rig : Rig EditBone B P) (from_name to_name : string) :
  contains (edit_bones rig) to_name = true ->
  fst (rename_bone rig from_name to_name) = rig /\
  (edit_mode_ok rig = true ->
   exists msg, snd (rename_bone rig from_name to_name) = [(ERROR, msg)]).
Proof.
  intros Hto. unfold rename_bone. rewrite Hto.
  destruct (edit_mode_ok rig); [|split; [reflexivity | discriminate]].
  destruct (get_edit_bone rig (NameStr from_name)); simpl; eauto.
Qed.

(** ** Averaging positions *)

Lemma sum_positions_absent (ebs : list EditBone) copy_bones offset acc :
  (forall n, In n copy_bones -> contains ebs n = false) ->
  sum_positions ebs copy_bones offset acc = acc.
Proof.
  induction copy_bones as [|n rest IH]; intros Habs; [reflexivity|].
  destruct acc as [[hp tp] num]. cbn [sum_positions].
  rewrite (Habs n) by now left.
  apply IH. intros m Hm. apply Habs. now right.
Qed.

(** C4, on the code: with the target bone present and edit mode
    acquired, a [copy_bones] list that is empty, or names no bone of
    the rig, makes [copy_position] divide by zero; the exception
    leaves the function. *)
Theorem copy_position_divides_by_zero (rig : Rig EditBone B P) bone copy_bones offset :
  edit_mode_ok rig = true ->
  contains (edit_bones rig) bone = true ->
  (forall n, In n copy_bones -> contains (edit_bones rig) n = false) ->
  copy_position rig bone copy_bones offset = (Raises ZeroDivisionError, rig, []).
Proof.
  intros Hmode Hbone Habs. unfold copy_position.
  rewrite Hmode, Hbone.
  unfold contains in Hbone.
  destruct (find_name (edit_bones rig) bone); [|discriminate].
  now rewrite sum_positions_absent.
Qed.

(** C5, on the code: [set_edit_bone_layer] lets the [KeyError] of an
    absent bone escape, and [clear_drivers] the [AttributeError] of a
    rig without animation data; neither logs anything. *)
Theorem exceptions_escape (rig : Rig EditBone B P) bone_name layer :
  (contains (edit_bones rig) bone_name = false ->
   set_edit_bone_layer rig bone_name layer = (Raises KeyError, rig, [])) /\
  (animation_data rig = None ->
   clear_drivers rig = (Raises AttributeError, rig, [])).
Proof.
  split.
  - unfold contains, set_edit_bone_layer, getitem.
    now destruct (find_name (edit_bones rig) bone_name).
  - unfold clear_drivers. now intros ->.
Qed.

End RenameFacts.

(** ** Accessory bone classifier *)

(** Induction along the parent chain of a bone. *)
Lemma Bone_chain_ind (Q : Bone -> Prop) :
  (forall n, Q (mkBone n None)) ->
  (forall n p, Q p -> Q (mkBone n (Some p))) ->
  forall b, Q b.
Proof.
  intros Hroot Hstep. fix IH 1.
  intros [n [p|]]; [apply Hstep, IH | apply Hroot].
Qed.

Section AccessoryFacts.
Variable bone_mappings : list bone_mapping.

Abbreviation is_mapped := (mapped bone_mappings).

Abbreviation keep_unmapped := (keep_unmapped bone_mappings).

Lemma accessory_root_walk_fold bone root :
  accessory_root_walk bone_mappings bone root
  = fold_left keep_unmapped (ancestors bone) root.
Proof.
  revert root. induction bone as [n|n p IH] using Bone_chain_ind; intros root.
  - reflexivity.
  - cbn [accessory_root_walk ancestors fold_left]. now rewrite IH.
Qed.

Lemma fold_keep_all_mapped l root :
  Forall (fun a => is_mapped a = true) l ->
  fold_left keep_unmapped l root = root.
Proof.
  intros Hall. revert root. induction Hall as [|a l Ha _ IH]; intros root.
  - reflexivity.
  - cbn [fold_left]. unfold keep_unmapped at 2. rewrite Ha. apply IH.
Qed.

Lemma fold_keep_split l root :
  (Forall (fun a => is_mapped a = true) l /\ fold_left keep_unmapped l root = root)
  \/ exists below r above,
      l = below ++ r :: above /\ is_mapped r = false /\
      Forall (fun a => is_mapped a = true) above /\
      fold_left keep_unmapped l root = Some r.
Proof.
  revert root. induction l as [|a l IH]; intros root.
  - left. split; [constructor | reflexivity].
  - cbn [fold_left].
    destruct (IH (keep_unmapped root a)) as [[Hall Hf]|(below & r & above & -> & Hr & Hab & Hf)].
    + rewrite Hf. unfold keep_unmapped.
      destruct (is_mapped a) eqn:Ha; simpl.
      * left. split; [now constructor | reflexivity].
      * right. exists [], a, l. repeat split; auto.
    + right. exists (a :: below), r, above. repeat split; auto.
Qed.

Lemma ancestors_suffix bone below r above :
  ancestors bone = below ++ r :: above -> ancestors r = above.
Proof.
  revert bone. induction below as [|x below IH]; intros bone.
  - destruct bone as [n [p|]]; simpl; [|discriminate]. now intros [= -> <-].
  - destruct bone as [n [p|]]; simpl; [|discriminate].
    intros [= -> Hrest]. now apply IH in Hrest.
Qed.

(** C3, as amended: [get_accessory_root_bone] returns the highest
    proper ancestor of the bone that is itself unmapped, so that every
    bone above it, its parent first, if it has any, is mapped; it
    returns none exactly when the bone itself is mapped or all its
    proper ancestors are. *)
Theorem get_accessory_root_bone_highest_unmapped bone :
  (forall r,
      get_accessory_root_bone bone_mappings bone = Some r <->
      is_mapped bone = false /\
      exists below, ancestors bone = below ++ r :: ancestors r /\
                    is_mapped r = false /\
                    Forall (fun a => is_mapped a = true) (ancestors r)) /\
  (get_accessory_root_bone bone_mappings bone = None <->
   is_mapped bone = true \/
   Forall (fun a => is_mapped a = true) (ancestors bone)) /\
  (forall r p,
      get_accessory_root_bone bone_mappings bone = Some r ->
      bone_parent r = Some p -> is_mapped p = true).
Proof.
  unfold get_accessory_root_bone. fold (is_mapped bone).
  rewrite accessory_root_walk_fold.
  assert (forall r : Bone,
             (exists below, ancestors bone = below ++ r :: ancestors r /\
                            is_mapped r = false /\
                            Forall (fun a => is_mapped a = true) (ancestors r)) ->
             fold_left keep_unmapped (ancestors bone) None = Some r) as Hfound.
  { intros r (below & Heq & Hr & Hab). rewrite Heq, fold_left_app.
    cbn [fold_left]. rewrite fold_keep_all_mapped by assumption.
    unfold keep_unmapped. now rewrite Hr. }
  destruct (is_mapped bone) eqn:Hb; simpl.
  - split; [|split].
    + intros r. split; [discriminate | intros [? _]; discriminate].
    + split; auto.
    + discriminate.
  - destruct (fold_keep_split (ancestors bone) None)
      as [[Hall Hf]|(below & r0 & above & Heq & Hr0 & Hab & Hf)].
    + rewrite Hf. split; [|split].
      * intros r. split; [discriminate|].
        intros (_ & Hex). apply Hfound in Hex. congruence.
      * split; auto.
      * discriminate.
    + rewrite Hf. pose proof (ancestors_suffix _ _ _ _ Heq) as Hanc. subst above.
      split; [|split].
      * intros r. split.
        -- intros [= <-]. split; [reflexivity|]. exists below. auto.
        -- intros (_ & Hex). apply Hfound in Hex. congruence.
      * split; [discriminate|].
        intros [Hm|Hall]; [discriminate|].
        rewrite Heq in Hall. apply Forall_app in Hall as [_ Hall].
        apply Forall_cons in Hall as [Hm _]. congruence.
      * intros r p [= <-] Hp.
        destruct r0 as [n [q|]]; simpl in Hp; [|discriminate].
        injection Hp as ->. simpl in Hab. now apply Forall_cons in Hab as [Hq _].
Qed.

End AccessoryFacts.

Section ClassifierFacts.
Context `{Geometry} {E P : Type}.
Variable bone_mappings : list bone_mapping.

Abbreviation scan := (foldl (accessory_step bone_mappings)).

Lemma existsb_eqb_In (n : string) (names : list string) :
  existsb (String.eqb n) names = true <-> In n names.
Proof.
  rewrite existsb_exists. split.
  - intros (x & Hx & Heq). apply String.eqb_eq in Heq. now subst.
  - intros Hn. exists n. split; [assumption | apply String.eqb_refl].
Qed.

Lemma parent_in_list_walk_spec names bone :
  parent_in_list_walk names bone = true <->
  exists a, In a (ancestors bone) /\ In (bone_name a) names.
Proof.
  induction bone as [n|n p IH] using Bone_chain_ind.
  - simpl. split; [discriminate | intros (a & [] & _)].
  - cbn [parent_in_list_walk ancestors].
    destruct (existsb (String.eqb (bone_name p)) names) eqn:Ex.
    + apply existsb_eqb_In in Ex. split; [|reflexivity].
      intros _. exists p. split; [now left | assumption].
    + rewrite IH. split.
      * intros (a & Ha & Hn). exists a. split; [now right | assumption].
      * intros (a & [<-|Ha] & Hn); [|now exists a].
        apply existsb_eqb_In in Hn. congruence.
Qed.

(** What one turn of the loop does to the list. *)
Lemma accessory_step_fst acc bone :
  fst (accessory_step bone_mappings acc bone)
  = if negb (mapped bone_mappings bone)
       && negb (existsb (String.eqb (bone_name bone)) (fst acc))
       && negb (parent_in_list_walk (fst acc) bone)
    then fst acc ++ [bone_name bone] else fst acc.
Proof.
  destruct acc as [names log]. unfold accessory_step, mapped. simpl.
  destruct (bone_mapping_contains_bone bone_mappings (bone_name bone)); simpl;
    [reflexivity|].
  destruct (existsb (String.eqb (bone_name bone)) names); simpl; [reflexivity|].
  now destruct (parent_in_list_walk names bone).
Qed.

Lemma accessory_step_skip acc bone :
  parent_in_list_walk (fst acc) bone = true ->
  accessory_step bone_mappings acc bone = acc.
Proof.
  destruct acc as [names log]. unfold accessory_step. simpl. intros ->.
  rewrite andb_false_r. now destruct (negb _).
Qed.

Lemma scan_grows l acc :
  exists sub,
    fst (scan acc l) = fst acc ++ sub /\
    sub `sublist_of` map bone_name l /\
    forall n, In n sub -> bone_mapping_contains_bone bone_mappings n = false.
Proof.
  revert acc. induction l as [|b l IH]; intros acc.
  - exists []. simpl. rewrite app_nil_r. repeat split; [constructor | intros n []].
  - cbn [foldl]. destruct (IH (accessory_step bone_mappings acc b))
      as (sub & Heq & Hsub & Hun).
    rewrite accessory_step_fst in Heq.
    destruct (negb (mapped bone_mappings b)) eqn:Hm; simpl in Heq.
    2:{ exists sub. repeat split; auto. cbn [map]. now apply sublist_cons. }
    destruct (negb (existsb (String.eqb (bone_name b)) (fst acc))
              && negb (parent_in_list_walk (fst acc) b)).
    + exists (bone_name b :: sub). rewrite Heq, <- app_assoc. repeat split.
      * cbn [map]. now apply sublist_skip.
      * intros n [<-|Hn]; [|now apply Hun].
        apply negb_true_iff in Hm. exact Hm.
    + exists sub. repeat split; auto. cbn [map]. now apply sublist_cons.
Qed.

(** C6: no name recorded by [find_accessory_bones] matches the mapping
    table; a bone that has an ancestor in the list recorded so far is
    not recorded at its turn, so that with distinct bone names its
    name is not in the result; the list only grows at its end as the
    bones are enumerated, and the result keeps the order in which the
    rig enumerates its bones. *)
Theorem find_accessory_bones_roots (rig : Rig E Bone P) :
  let result := fst (find_accessory_bones bone_mappings rig) in
  (forall n, In n result -> bone_mapping_contains_bone bone_mappings n = false) /\
  (forall b, In b (bones rig) -> mapped bone_mappings b = true ->
             ~ In (bone_name b) result) /\
  (forall pre b post,
      bones rig = pre ++ b :: post ->
      let recorded := fst (find_accessory_bones bone_mappings (set_bones rig pre)) in
      (exists a, In a (ancestors b) /\ In (bone_name a) recorded) ->
      fst (find_accessory_bones bone_mappings (set_bones rig (pre ++ [b]))) = recorded /\
      (NoDup (map bone_name (bones rig)) -> ~ In (bone_name b) result)) /\
  (forall pre post,
      bones rig = pre ++ post ->
      fst (find_accessory_bones bone_mappings (set_bones rig pre)) `prefix_of` result) /\
  result `sublist_of` map bone_name (bones rig).
Proof.
  unfold find_accessory_bones. cbn zeta.
  destruct (scan_grows (bones rig) ([], [])) as (sub & Heq & Hsub & Hun).
  simpl in Heq.
  split; [|split; [|split; [|split]]].
  - rewrite Heq. exact Hun.
  - intros b _ Hb Hin. rewrite Heq in Hin. apply Hun in Hin.
    unfold mapped in Hb. congruence.
  - intros pre b post Hbones Hanc. simpl in Hanc |- *.
    apply parent_in_list_walk_spec in Hanc.
    pose proof (accessory_step_skip _ _ Hanc) as Hskip.
    split; [now rewrite foldl_app; cbn [foldl]; rewrite Hskip|].
    intros Hnodup Hin.
    rewrite Hbones in Hin, Hnodup.
    rewrite foldl_app in Hin. cbn [foldl] in Hin. rewrite Hskip in Hin.
    destruct (scan_grows pre ([], [])) as (s1 & Hs1 & Hsub1 & _).
    destruct (scan_grows post (scan ([], []) pre)) as (s2 & Hs2 & Hsub2 & _).
    rewrite Hs2, Hs1 in Hin. simpl in Hin.
    rewrite map_app in Hnodup. cbn [map] in Hnodup.
    apply NoDup_app in Hnodup as (_ & Hdisj & Hnd).
    apply NoDup_cons in Hnd as [Hnb _].
    apply in_app_or in Hin as [Hin|Hin].
    + apply (Hdisj (bone_name b)).
      * eapply elem_of_sublist; [|exact Hsub1]. now apply list_elem_of_In.
      * left.
    + apply Hnb. eapply elem_of_sublist; [|exact Hsub2]. now apply list_elem_of_In.
  - intros pre post Hbones. simpl. rewrite Hbones, foldl_app.
    destruct (scan_grows post (scan ([], []) pre)) as (s2 & -> & _).
    now exists s2.
  - now rewrite Heq.
Qed.

End ClassifierFacts.

(** ** Layers *)

Lemma assign_layer_flags (flags : list bool) (layer : Z) :
  length flags = 32 -> assign_layer flags layer = layer_flags layer.
Proof.
  intros Hlen.
  do 32 (destruct flags as [|? flags]; [discriminate Hlen|]).
  destruct flags; [reflexivity | discriminate Hlen].
Qed.

Lemma length_layer_flags layer : length (layer_flags layer) = 32.
Proof. reflexivity. Qed.


(** ** Collections and their names *)

Section NameFacts.
Context {A : Type} `{Named A}.

Lemma find_name_names (coll : list A) name :
  find_name coll name = find_name (map name_of coll) name.
Proof.
  induction coll as [|b coll IH]; [reflexivity|].
  cbn [find_name map]. now rewrite IH.
Qed.

Lemma contains_names (coll : list A) name :
  contains coll name = contains (map name_of coll) name.
Proof. unfold contains. now rewrite find_name_names. Qed.

Lemma get_in_names (coll : list A) name :
  get_in coll name = get_in (map name_of coll) name.
Proof.
  destruct name as [s|names].
  - rewrite !get_in_str. now rewrite find_name_names.
  - destruct names as [|n names]; [reflexivity|].
    unfold get_in. generalize (n :: names). intros l.
    induction l as [|x l IH]; [reflexivity|].
    cbn [first_present]. now rewrite <- contains_names, <- find_name_names, IH.
Qed.

Lemma find_name_lt (coll : list A) name i :
  find_name coll name = Some i -> i < length coll.
Proof.
  intros Hf. apply find_name_Some in Hf as (b & Hb & _).
  now apply lookup_lt_Some in Hb.
Qed.

(** A name met at position [i] and not before is found there. *)
Lemma find_name_first (coll : list A) name i b :
  coll !! i = Some b -> name_of b = name ->
  (forall j b', j < i -> coll !! j = Some b' -> name_of b' <> name) ->
  find_name coll name = Some i.
Proof.
  revert i. induction coll as [|c coll IH]; intros i Hi Hn Hfirst; [discriminate|].
  cbn [find_name]. destruct i as [|i]; simpl in Hi.
  - injection Hi as ->. apply String.eqb_eq in Hn. now rewrite Hn.
  - assert (name_of c <> name) as Hc by (apply (Hfirst 0 c); [lia | reflexivity]).
    apply String.eqb_neq in Hc. rewrite Hc.
    rewrite (IH i Hi Hn); [reflexivity|].
    intros j b' Hj Hb'. apply (Hfirst (S j) b'); [lia | exact Hb'].
Qed.

Lemma find_name_app_l (coll more : list A) name i :
  find_name coll name = Some i -> find_name (coll ++ more) name = Some i.
Proof.
  intros Hf. destruct (find_name_Some _ _ _ Hf) as (b & Hb & Hn & Hfirst).
  apply (find_name_first _ _ _ b); auto.
  - now apply lookup_app_l_Some.
  - intros j b' Hj Hb'. apply (Hfirst j b' Hj).
    rewrite lookup_app_l in Hb'; [exact Hb'|].
    apply lookup_lt_Some in Hb. lia.
Qed.

End NameFacts.

(** ** Bone tree copier *)

Section TreeCopierFacts.
Context `{G : Geometry} `{N : Naming}.

Lemma create_bone_eq ebs cc3_name dst_name layer d :
  create_bone ebs cc3_name dst_name layer d
  = (ebs ++ [created_bone ebs cc3_name dst_name layer d],
     def_append d (eb_name (created_bone ebs cc3_name dst_name layer d))).
Proof.
  unfold create_bone, created_bone, new_bone, requested_name. cbn zeta.
  cbn [eb_name parent layers].
  rewrite alter_app_r_alt by lia. rewrite Nat.sub_diag.
  cbn [alter list_alter]. unfold with_layers at 1.
  cbn [eb_name head tail head_radius tail_radius roll parent layers].
  rewrite (assign_layer_flags (true :: replicate 31 false)) by reflexivity.
  rewrite get_in_names, map_app. cbn [map]. unfold name_of at 2. unfold EditBone_named.
  cbn [eb_name].
  match goal with |- context [get_in ?l ?n] => destruct (get_in l n) as [p|] end.
  - rewrite alter_app_r_alt by lia. rewrite Nat.sub_diag. reflexivity.
  - reflexivity.
Qed.

(** The first loop appends one bone for each record, in order. *)
Lemma create_bones_spec cc3_name dst_name layer defs : forall ebs,
  exists news defs',
    create_bones ebs cc3_name dst_name layer defs = (ebs ++ news, defs') /\
    length news = length defs /\
    length defs' = length defs /\
    forall k d, defs !! k = Some d ->
      let eb := created_bone (ebs ++ take k news) cc3_name dst_name layer d in
      news !! k = Some eb /\ defs' !! k = Some (def_append d (eb_name eb)).
Proof.
  induction defs as [|d0 defs IH]; intros ebs.
  - exists [], []. rewrite app_nil_r. do 3 (split; [reflexivity|]).
    intros k d Hlook. now rewrite lookup_nil in Hlook.
  - cbn [create_bones]. rewrite create_bone_eq.
    set (eb0 := created_bone ebs cc3_name dst_name layer d0).
    destruct (IH (ebs ++ [eb0])) as (news & defs' & Heq & Hn & Hd & Hk).
    rewrite Heq. exists (eb0 :: news), (def_append d0 (eb_name eb0) :: defs').
    rewrite <- app_assoc. cbn [app length].
    split; [reflexivity|]. split; [now rewrite Hn|]. split; [now rewrite Hd|].
    intros [|k] d Hlook; cbn [lookup list_lookup take] in *.
    + injection Hlook as <-. rewrite app_nil_r. now split.
    + apply Hk in Hlook. cbn zeta in Hlook.
      rewrite <- app_assoc in Hlook. exact Hlook.
Qed.

(** Setting the tree parent changes the parent of one bone at most,
    the first one called [dst_name]. *)
Lemma set_tree_parent_cases ebs dst_name dst_parent_name :
  set_tree_parent ebs dst_name dst_parent_name = ebs \/
  exists r p,
    PyStr.truthy dst_name = true /\
    find_name ebs dst_name = Some r /\
    get_in ebs (NameStr dst_parent_name) = Some p /\
    set_tree_parent ebs dst_name dst_parent_name
    = alter (fun b => with_parent b p) r ebs.
Proof.
  unfold set_tree_parent. rewrite (get_in_str ebs dst_name).
  destruct (PyStr.truthy dst_name); [|now left].
  destruct (find_name ebs dst_name) as [r|]; [|now left].
  destruct (get_in ebs (NameStr dst_parent_name)) as [p|]; [|now left].
  right. exists r, p. auto.
Qed.

Lemma set_tree_parent_lookup ebs dst_name dst_parent_name i eb :
  ebs !! i = Some eb ->
  exists eb',
    set_tree_parent ebs dst_name dst_parent_name !! i = Some eb' /\
    eb_name eb' = eb_name eb /\ layers eb' = layers eb /\
    (eb_name eb <> dst_name -> eb' = eb).
Proof.
  intros Hi.
  destruct (set_tree_parent_cases ebs dst_name dst_parent_name)
    as [->|(r & p & _ & Hr & _ & ->)]; [now exists eb|].
  destruct (decide (r = i)) as [->|Hne].
  - exists (with_parent eb p). rewrite list_lookup_alter_eq, Hi.
    repeat split. intros Hn. exfalso. apply Hn.
    apply find_name_Some in Hr as (b & Hb & Hname & _).
    rewrite Hi in Hb. injection Hb as <-. exact Hname.
  - exists eb. now rewrite list_lookup_alter_ne.
Qed.

Lemma set_tree_parent_names ebs dst_name dst_parent_name :
  map name_of (set_tree_parent ebs dst_name dst_parent_name) = map name_of ebs.
Proof.
  destruct (set_tree_parent_cases ebs dst_name dst_parent_name)
    as [->|(r & p & _ & _ & _ & ->)]; [reflexivity|].
  apply list_eq. intros i. rewrite !list_lookup_fmap.
  destruct (decide (r = i)) as [->|Hne].
  - rewrite list_lookup_alter_eq. now destruct (ebs !! i).
  - now rewrite list_lookup_alter_ne.
Qed.

(** The second loop keeps the names, and keeps the flags of a bone
    that carries those of [layer] already. *)
Lemma set_pose_layers_spec layer defs : forall bs,
  exists o bs',
    set_pose_layers bs layer defs = (o, bs') /\
    map name_of bs' = map name_of bs /\
    (forall i db, bs !! i = Some db -> db_layers db = layer_flags layer ->
       exists db', bs' !! i = Some db' /\ db_name db' = db_name db /\
                   db_layers db' = layer_flags layer) /\
    ((forall d, In d defs ->
        exists n, def_created d = Some n /\ contains bs n = true) ->
     o = Returns tt).
Proof.
  induction defs as [|d defs IH]; intros bs.
  - exists (Returns tt), bs. repeat split; eauto.
  - cbn [set_pose_layers].
    destruct (def_created d) as [name|] eqn:Hc.
    2:{ exists (Raises IndexError), bs. repeat split; eauto.
        intros Hall. destruct (Hall d) as (n & Hn & _); [now left | congruence]. }
    unfold getitem. destruct (find_name bs name) as [j|] eqn:Hj.
    2:{ exists (Raises KeyError), bs. repeat split; eauto.
        intros Hall. destruct (Hall d) as (n & Hn & Hin); [now left|].
        unfold contains in Hin. rewrite Hc in Hn. injection Hn as <-.
        now rewrite Hj in Hin. }
    set (bs1 := alter (fun b => with_db_layers b (assign_layer (db_layers b) layer)) j bs).
    assert (map name_of bs1 = map name_of bs) as Hnames.
    { apply list_eq. intros i. unfold bs1. rewrite !list_lookup_fmap.
      destruct (decide (j = i)) as [->|Hne].
      - rewrite list_lookup_alter_eq. now destruct (bs !! i).
      - now rewrite list_lookup_alter_ne. }
    destruct (IH bs1) as (o & bs' & Heq & Hn' & Hkeep & Hok).
    exists o, bs'. split; [exact Heq|]. split; [congruence|]. split.
    + intros i db Hi Hl.
      assert (exists db1, bs1 !! i = Some db1 /\ db_name db1 = db_name db /\
                          db_layers db1 = layer_flags layer) as (db1 & H1 & Hn1 & Hl1).
      { unfold bs1. destruct (decide (j = i)) as [->|Hne].
        - rewrite list_lookup_alter_eq, Hi. eexists. split; [reflexivity|].
          split; [reflexivity|]. cbn [with_db_layers db_layers]. rewrite Hl.
          now apply assign_layer_flags. 
        - rewrite list_lookup_alter_ne by assumption. eauto. }
      destruct (Hkeep i db1 H1 Hl1) as (db' & H' & Hn2 & Hl2).
      exists db'. repeat split; auto. congruence.
    + intros Hall. apply Hok. intros d' Hd'.
      destruct (Hall d') as (n & Hcn & Hin); [now right|].
      exists n. split; [exact Hcn|].
      now rewrite contains_names, Hnames, <- contains_names.
Qed.


(** Induction on a bone and the bones below it. *)
Lemma EditBoneNode_tree_ind (Q : EditBoneNode -> Prop) :
  (forall n h t hr tr r p cs,
      Forall Q cs -> Q (mkNode n h t hr tr r p cs)) ->
  forall b, Q b.
Proof.
  intros Hnode. fix IH 1. intros [n h t hr tr r p cs]. apply Hnode.
  induction cs as [|c cs IHcs]; constructor; [apply IH | exact IHcs].
Qed.

(** The walk adds records behind those of [tree], none of them with a
    created name yet, the record of the bone itself first. *)
Lemma get_edit_bone_subtree_defs_extends {B P} (rig : Rig EditBoneNode B P) bone :
  forall tree, exists more,
    get_edit_bone_subtree_defs rig bone tree = tree ++ more /\
    Forall (fun d => def_created d = None) more /\
    (edit_mode_ok rig = true ->
     forall parent_name, node_parent bone = Some parent_name ->
       exists d rest, more = d :: rest /\ def_name d = node_name bone /\
                      def_parent_name d = parent_name).
Proof.
  induction bone as [n h t hr tr r p cs IH] using EditBoneNode_tree_ind.
  intros tree. cbn [get_edit_bone_subtree_defs node_parent node_name].
  destruct (edit_mode_ok rig); cbn iota.
  2:{ exists []. rewrite app_nil_r. repeat split; [constructor | discriminate]. }
  destruct p as [pn|].
  2:{ exists []. rewrite app_nil_r. repeat split; [constructor | discriminate]. }
  set (d := mkDef n (transform (matrix_world rig) h) (transform (matrix_world rig) t)
                  hr tr r pn None).
  assert (forall t0, exists more,
             fold_left (fun tree child_bone =>
                          get_edit_bone_subtree_defs rig child_bone tree) cs t0
             = t0 ++ more /\ Forall (fun d => def_created d = None) more) as Hfold.
  { induction IH as [|c cs Hc _ IHcs]; intros t0.
    - exists []. rewrite app_nil_r. split; [reflexivity | constructor].
    - cbn [fold_left]. destruct (Hc t0) as (m1 & -> & Hm1 & _).
      destruct (IHcs (t0 ++ m1)) as (m2 & -> & Hm2).
      exists (m1 ++ m2). rewrite app_assoc. split; [reflexivity|].
      now apply Forall_app. }
  destruct (Hfold (tree ++ [d])) as (more & -> & Hmore).
  exists (d :: more). rewrite <- app_assoc. split; [reflexivity|].
  split; [now constructor|].
  intros _ parent_name [= <-]. now exists d, more.
Qed.

Lemma map_take {X Y} (f : X -> Y) n (l : list X) :
  map f (take n l) = take n (map f l).
Proof. symmetry. apply firstn_map. Qed.

Lemma created_bone_fresh ebs cc3_name dst_name layer d b :
  b ∈ ebs -> eb_name b <> eb_name (created_bone ebs cc3_name dst_name layer d).
Proof.
  intros Hb Heq. cbn [created_bone eb_name] in Heq.
  apply (unique_name_fresh (map name_of ebs) (requested_name cc3_name dst_name d)).
  rewrite <- Heq. apply in_map_iff. exists b. split; [reflexivity|].
  now apply list_elem_of_In.
Qed.

(** In the collection left by the first loop, the bone of record [k]
    is the first to carry its name. *)
Lemma created_bone_found cc3_name dst_name layer (defs : list BoneDef)
      (ebs news : list EditBone) m k d :
  (forall k d, defs !! k = Some d ->
     news !! k = Some (created_bone (ebs ++ take k news) cc3_name dst_name layer d)) ->
  defs !! k = Some d ->
  length ebs + k < m ->
  find_name (take m (ebs ++ news))
            (eb_name (created_bone (ebs ++ take k news) cc3_name dst_name layer d))
  = Some (length ebs + k).
Proof.
  intros Hk Hd Hm.
  set (eb := created_bone (ebs ++ take k news) cc3_name dst_name layer d).
  assert ((ebs ++ news) !! (length ebs + k) = Some eb) as Hat.
  { rewrite lookup_app_r, Nat.add_comm, Nat.add_sub by lia. now apply Hk. }
  apply (find_name_first _ _ _ eb); [|reflexivity|].
  - now rewrite lookup_take_lt.
  - intros j b Hj Hb. rewrite lookup_take_lt in Hb by lia.
    apply created_bone_fresh. rewrite <- take_app_add.
    apply elem_of_take. eauto.
Qed.

Lemma created_bone_found_all cc3_name dst_name layer (defs : list BoneDef)
      (ebs news : list EditBone) k d :
  (forall k d, defs !! k = Some d ->
     news !! k = Some (created_bone (ebs ++ take k news) cc3_name dst_name layer d)) ->
  defs !! k = Some d ->
  find_name (ebs ++ news)
            (eb_name (created_bone (ebs ++ take k news) cc3_name dst_name layer d))
  = Some (length ebs + k).
Proof.
  intros Hk Hd.
  pose proof (Hk k d Hd) as Hlt. apply lookup_lt_Some in Hlt.
  pose proof (created_bone_found cc3_name dst_name layer defs ebs news
                (length (ebs ++ news)) k d Hk Hd) as Hfound.
  rewrite take_ge in Hfound by lia. apply Hfound.
  rewrite length_app. lia.
Qed.

(** What a copy leaves of the parents: when the source root exists and
    has a parent and both rigs go to edit mode, the call returns the
    records, one new
    edit bone stands behind the old ones for each record, the root's
    first.  A created bone other than the one named [dst_name] has as
    parent the bone that the collection held under the record's
    source-parent name when the bone was created (itself included),
    and none if there was no such bone; so it has the copy of its
    source parent as parent when that copy was created under the
    recorded source-parent name.  When the host kept the name
    [dst_name] for the copy of the root, no other copy carries that
    name, and the root's parent is the bone named [dst_parent_name]
    whenever there is one. *)
Theorem copy_subtree_parents {B P P'}
        (cc3_rig : Rig EditBoneNode B P) (dst_rig : Rig EditBone DataBone P')
        (cc3_name dst_name dst_parent_name : string) (layer : Z)
        (i : nat) (root : EditBoneNode) (root_parent : string) :
  edit_mode_ok cc3_rig = true ->
  edit_mode_ok dst_rig = true ->
  get_edit_bone cc3_rig (NameStr cc3_name) = Some i ->
  edit_bones cc3_rig !! i = Some root ->
  node_parent root = Some root_parent ->
  let src_bone_defs := get_edit_bone_subtree_defs cc3_rig root [] in
  let n0 := length (edit_bones dst_rig) in
  exists defs dst_rig',
    copy_rl_edit_bone_subtree cc3_rig dst_rig cc3_name dst_name dst_parent_name layer
    = (Returns (Some defs), dst_rig') /\
    length defs = length src_bone_defs /\
    length (edit_bones dst_rig') = n0 + length src_bone_defs /\
    map name_of (take n0 (edit_bones dst_rig')) = map name_of (edit_bones dst_rig) /\
    (exists d0, src_bone_defs !! 0 = Some d0 /\ def_name d0 = cc3_name) /\
    (forall k d, src_bone_defs !! k = Some d ->
       exists eb d',
         edit_bones dst_rig' !! (n0 + k) = Some eb /\
         defs !! k = Some d' /\
         def_created d' = Some (eb_name eb) /\
         (eb_name eb <> dst_name ->
          parent eb = get_in (take (n0 + k + 1) (edit_bones dst_rig'))
                             (NameStr (def_parent_name d)) /\
          forall j d_j,
            j <= k -> defs !! j = Some d_j ->
            def_created d_j = Some (def_parent_name d) ->
            PyStr.truthy (def_parent_name d) = true ->
            parent eb = Some (n0 + j))) /\
    (forall eb0,
       edit_bones dst_rig' !! n0 = Some eb0 -> eb_name eb0 = dst_name ->
       (forall k eb, 0 < k -> edit_bones dst_rig' !! (n0 + k) = Some eb ->
                     eb_name eb <> dst_name) /\
       (forall p, PyStr.truthy dst_name = true ->
                  get_in (edit_bones dst_rig') (NameStr dst_parent_name) = Some p ->
                  parent eb0 = Some p)).
Proof.
  intros Hsrc Hdst Hget Hroot Hparent src_bone_defs n0.
  destruct (get_edit_bone_subtree_defs_extends cc3_rig root [])
    as (more & Hwalk & Hfresh & Hfirst).
  destruct (Hfirst Hsrc _ Hparent) as (d0 & rest & -> & Hd0 & _).
  cbn [app] in Hwalk. fold src_bone_defs in Hwalk.
  assert (forall k d, src_bone_defs !! k = Some d -> def_created d = None) as Hnone.
  { intros k d Hd. rewrite <- Hwalk in Hfresh.
    rewrite Forall_forall in Hfresh. apply Hfresh.
    now apply list_elem_of_lookup_2 in Hd. }
  destruct (create_bones_spec cc3_name dst_name layer src_bone_defs (edit_bones dst_rig))
    as (news & defs' & Hcreate & Hnews & Hdefs & Hk).
  set (E := edit_bones dst_rig ++ news) in *.
  set (F := set_tree_parent E dst_name dst_parent_name).
  assert (map name_of F = map name_of E) as HnamesF
      by apply set_tree_parent_names.
  assert (length F = length E) as HlenF.
  { now rewrite <- (length_map name_of F), HnamesF, length_map. }
  assert (length E = n0 + length src_bone_defs) as HlenE.
  { unfold E. rewrite length_app. fold n0. lia. }
  (* the records returned carry the names of the bones created *)
  assert (forall d', In d' defs' ->
            exists n, def_created d' = Some n /\
                      contains (map to_data_bone F) n = true) as Hrecorded.
  { intros d' Hin. apply list_elem_of_In, list_elem_of_lookup in Hin as [k Hd'].
    assert (k < length src_bone_defs) as Hlt.
    { apply lookup_lt_Some in Hd'. lia. }
    apply lookup_lt_is_Some in Hlt as [d Hd].
    destruct (Hk k d Hd) as [Hnew Hdef]. rewrite Hdef in Hd'. injection Hd' as <-.
    exists (eb_name (created_bone (edit_bones dst_rig ++ take k news)
                                  cc3_name dst_name layer d)).
    split.
    - unfold def_append. cbn [def_created].
      now rewrite (Hnone k d Hd).
    - rewrite contains_names.
      assert (map name_of (map to_data_bone F) = map name_of E) as ->.
      { rewrite <- HnamesF, map_map. reflexivity. }
      rewrite <- contains_names.
      unfold contains, E.
      rewrite (created_bone_found_all cc3_name dst_name layer src_bone_defs); auto.
      intros k1 d1 Hd1. now apply Hk. }
  (* the call returns *)
  assert (exists bs',
             copy_rl_edit_bone_subtree cc3_rig dst_rig cc3_name dst_name
                                       dst_parent_name layer
             = (Returns (Some defs'), set_bones (set_edit_bones dst_rig F) bs'))
    as (bs' & Hrun).
  { unfold copy_rl_edit_bone_subtree. rewrite Hsrc, Hdst, Hget. cbn [mbind option_bind].
    rewrite Hroot. fold src_bone_defs. rewrite Hcreate. fold F.
    cbn [object_mode_ok set_edit_bones].
    destruct (object_mode_ok dst_rig); [|now exists (bones dst_rig)].
    cbn [bones set_bones].
    destruct (set_pose_layers_spec layer defs' (map to_data_bone F))
      as (o & bs' & Hpose & _ & _ & Hok).
    rewrite Hpose, (Hok Hrecorded). now exists bs'. }
  exists defs', (set_bones (set_edit_bones dst_rig F) bs').
  cbn [edit_bones set_bones set_edit_bones].
  split; [exact Hrun|]. split; [exact Hdefs|]. split; [lia|].
  split.
  { rewrite map_take, HnamesF, <- map_take. unfold E, n0.
    now rewrite take_app_length. }
  split.
  { exists d0. rewrite Hwalk. split; [reflexivity|].
    rewrite Hd0. unfold get_edit_bone in Hget. rewrite get_in_str in Hget.
    destruct (PyStr.truthy cc3_name); [|discriminate Hget].
    apply find_name_Some in Hget as (b & Hb & Hname & _).
    rewrite Hroot in Hb. injection Hb as <-. exact Hname. }
  assert (forall k d, src_bone_defs !! k = Some d ->
            E !! (n0 + k)
            = Some (created_bone (edit_bones dst_rig ++ take k news)
                                 cc3_name dst_name layer d)) as HatE.
  { intros k d Hd. unfold E, n0.
    rewrite lookup_app_r, Nat.add_comm, Nat.add_sub by lia. now apply Hk. }
  split.
  - intros k d Hd.
    set (ebk := created_bone (edit_bones dst_rig ++ take k news)
                             cc3_name dst_name layer d).
    destruct (set_tree_parent_lookup E dst_name dst_parent_name _ _ (HatE k d Hd))
      as (eb & Heb & Hname & _ & Hsame).
    fold ebk in Hname, Hsame.
    exists eb, (def_append d (eb_name ebk)).
    split; [exact Heb|]. split; [now apply Hk|]. split.
    { rewrite Hname. unfold def_append. cbn [def_created].
      now rewrite (Hnone k d Hd). }
    intros Hne. rewrite Hname in Hne. rewrite (Hsame Hne).
    assert (map name_of (take (n0 + k + 1) F)
            = map name_of (edit_bones dst_rig ++ take k news) ++ [eb_name ebk])
      as Hprefix.
    { rewrite map_take, HnamesF, <- map_take.
      replace (n0 + k + 1) with (S (n0 + k)) by lia.
      rewrite (take_S_r _ _ _ (HatE k d Hd)). fold ebk.
      unfold E, n0. rewrite take_app_add. now rewrite map_app. }
    assert (parent ebk = get_in (take (n0 + k + 1) F) (NameStr (def_parent_name d)))
      as Hpar.
    { rewrite (get_in_names (take (n0 + k + 1) F)), Hprefix. reflexivity. }
    split; [exact Hpar|].
    intros j d_j Hj Hdj Hcj Htruthy.
    assert (j < length src_bone_defs) as Hlt.
    { apply lookup_lt_Some in Hdj. lia. }
    apply lookup_lt_is_Some in Hlt as [dj Hsj].
    destruct (Hk j dj Hsj) as [_ Hdefj]. rewrite Hdefj in Hdj. injection Hdj as <-.
    unfold def_append in Hcj. cbn [def_created] in Hcj.
    rewrite (Hnone j dj Hsj) in Hcj.
    injection Hcj as Hcj.
    rewrite Hpar, get_in_str, Htruthy, find_name_names.
    rewrite map_take, HnamesF, <- map_take, <- find_name_names, <- Hcj.
    unfold E, n0.
    apply (created_bone_found cc3_name dst_name layer src_bone_defs); auto; [|lia].
    intros k1 d1 Hd1. now apply Hk.
  - intros eb0 Heb0 Hkept.
    pose proof (HatE 0 d0) as Hat0. rewrite Hwalk in Hat0. specialize (Hat0 eq_refl).
    rewrite Nat.add_0_r in Hat0. cbn [take] in Hat0. rewrite app_nil_r in Hat0.
    set (e0 := created_bone (edit_bones dst_rig) cc3_name dst_name layer d0) in *.
    assert (eb_name e0 = dst_name) as Hn0.
    { destruct (set_tree_parent_lookup E dst_name dst_parent_name _ _ Hat0)
        as (eb & Heb & Hname & _).
      fold F in Heb. rewrite Heb0 in Heb. injection Heb as <-. congruence. }
    split.
    + intros k eb Hpos Heb Hname.
      assert (k < length src_bone_defs) as Hlt.
      { apply lookup_lt_Some in Heb. lia. }
      apply lookup_lt_is_Some in Hlt as [d Hd].
      destruct (set_tree_parent_lookup E dst_name dst_parent_name _ _ (HatE k d Hd))
        as (eb' & Heb' & Hname' & _).
      fold F in Heb'. rewrite Heb in Heb'. injection Heb' as <-.
      apply (created_bone_fresh (edit_bones dst_rig ++ take k news)
                                cc3_name dst_name layer d e0); [|congruence].
      fold n0. rewrite <- take_app_add. fold E. apply elem_of_take.
      exists n0. split; [exact Hat0 | unfold n0; lia].
    + intros p Htruthy Hp.
      assert (find_name E dst_name = Some n0) as Hfind.
      { rewrite <- Hn0.
        pose proof (created_bone_found_all cc3_name dst_name layer src_bone_defs
                      (edit_bones dst_rig) news 0 d0) as Hfound.
        cbn [take] in Hfound. rewrite app_nil_r, Nat.add_0_r in Hfound.
        apply Hfound; [|now rewrite Hwalk].
        intros k1 d1 Hd1. now apply Hk. }
      assert (get_in E (NameStr dst_parent_name) = Some p) as HpE.
      { rewrite get_in_names, <- HnamesF, <- get_in_names. exact Hp. }
      assert (F = alter (fun b => with_parent b p) n0 E) as HF.
      { unfold F, set_tree_parent. rewrite (get_in_str E dst_name), Htruthy, Hfind, HpE.
        reflexivity. }
      rewrite HF, list_lookup_alter_eq, Hat0 in Heb0. injection Heb0 as <-.
      reflexivity.
Qed.

End TreeCopierFacts.

(** * Further properties *)

(** ** Name resolver *)

(** X1: [cmp_rl_bone_names] is an equivalence on names. *)
Theorem cmp_rl_bone_names_equivalence :
  (forall a, cmp_rl_bone_names a a = true) /\
  (forall a b, cmp_rl_bone_names a b = cmp_rl_bone_names b a) /\
  (forall a b c, cmp_rl_bone_names a b = true -> cmp_rl_bone_names b c = true ->
                 cmp_rl_bone_names a c = true).
Proof.
  split; [|split].
  - intros a. rewrite cmp_rl_bone_names_strips. apply String.eqb_refl.
  - intros a b. rewrite !cmp_rl_bone_names_strips. apply String.eqb_sym.
  - intros a b c. rewrite !cmp_rl_bone_names_strips.
    intros Hab Hbc. apply String.eqb_eq in Hab, Hbc. apply String.eqb_eq. congruence.
Qed.

Lemma stripped_form_RL (x : string) : stripped_form ("RL_" ++ x) = x.
Proof.
  unfold stripped_form, PyStr.startswith. now rewrite prefix_append.
Qed.

Lemma stripped_form_CC_Base (x : string) : stripped_form ("CC_Base_" ++ x) = x.
Proof.
  unfold stripped_form, PyStr.startswith. rewrite prefix_append.
  reflexivity.
Qed.

(** X2: two names that carry a prefix each compare equal exactly when
    what follows the prefixes is the same, whichever prefixes they are. *)
Theorem cmp_rl_bone_names_across_prefixes (x y : string) :
  cmp_rl_bone_names ("RL_" ++ x) ("CC_Base_" ++ y) = String.eqb x y /\
  cmp_rl_bone_names ("CC_Base_" ++ x) ("RL_" ++ y) = String.eqb x y /\
  cmp_rl_bone_names ("RL_" ++ x) ("RL_" ++ y) = String.eqb x y /\
  cmp_rl_bone_names ("CC_Base_" ++ x) ("CC_Base_" ++ y) = String.eqb x y.
Proof.
  rewrite !cmp_rl_bone_names_strips, !stripped_form_RL, !stripped_form_CC_Base.
  repeat split.
Qed.

Section ListLookupFacts.
Context {A : Type} `{Named A}.

Lemma contains_false (coll : list A) name :
  contains coll name = false <-> find_name coll name = None.
Proof. unfold contains. destruct (find_name coll name); split; congruence. Qed.

Lemma first_present_Some (coll : list A) names i :
  first_present coll names = Some i <-> first_named coll names i.
Proof.
  induction names as [|n names IH]; cbn [first_present].
  - split; [discriminate|]. intros (pre & n & post & b & Heq & _).
    now destruct pre.
  - destruct (contains coll n) eqn:Hc.
    + split.
      * intros Hf. destruct (find_name_Some _ _ _ Hf) as (b & Hb & Hn & _).
        exists [], n, names, b. repeat split; auto. intros m [].
      * intros (pre & n' & post & b & Heq & Habs & Hf & _).
        destruct pre as [|m pre]; simpl in Heq; injection Heq as -> ->; [exact Hf|].
        pose proof (Habs _ (or_introl eq_refl)) as Hm. congruence.
    + rewrite IH. split.
      * intros (pre & n' & post & b & -> & Habs & Hrest).
        exists (n :: pre), n', post, b. split; [reflexivity|].
        split; [|exact Hrest]. intros m [<-|Hm]; auto.
      * intros (pre & n' & post & b & Heq & Habs & Hf & Hrest).
        destruct pre as [|m pre]; simpl in Heq; injection Heq as -> ->.
        -- apply contains_find_name in Hf. congruence.
        -- exists pre, n', post, b. split; [reflexivity|].
           split; [|tauto]. intros m' Hm'. apply Habs. now right.
Qed.

Lemma first_present_None (coll : list A) names :
  first_present coll names = None <->
  forall n, In n names -> contains coll n = false.
Proof.
  induction names as [|n names IH]; cbn [first_present].
  - split; [intros _ n [] | reflexivity].
  - destruct (contains coll n) eqn:Hc.
    + split.
      * intros Hf. apply contains_false in Hf. congruence.
      * intros Habs. rewrite (Habs n) in Hc by now left. discriminate.
    + rewrite IH. split.
      * intros Habs m [<-|Hm]; auto.
      * intros Habs m Hm. apply Habs. now right.
Qed.

Lemma get_in_list (coll : list A) names :
  get_in coll (NameList names) = first_present coll names.
Proof. now destruct names. Qed.

(** The lookups with prefixes are the plain lookup of the list of the
    names they try. *)
Lemma get_rl_in_candidates (coll : list A) name :
  get_rl_in coll name
  = if PyStr.truthy name then get_in coll (NameList (rl_candidates name)) else None.
Proof.
  unfold get_rl_in. destruct (PyStr.truthy name); [|reflexivity].
  rewrite get_in_list. unfold rl_candidates. cbn [app first_present].
  destruct (contains coll name); [reflexivity|].
  destruct (PyStr.startswith name "CC_Base_"); cbn [andb app first_present].
  - destruct (contains coll (PyStr.drop 8 name)); [reflexivity|].
    destruct (PyStr.startswith (PyStr.drop 8 name) "RL_"); cbn [andb first_present];
      [|reflexivity].
    now destruct (contains coll (PyStr.drop 3 (PyStr.drop 8 name))).
  - destruct (PyStr.startswith name "RL_"); cbn [andb first_present]; [|reflexivity].
    now destruct (contains coll (PyStr.drop 3 name)).
Qed.

End ListLookupFacts.

Section MoreLookupFacts.
Context `{Geometry} {E B P : Type} `{Named E, Named B, Named P}.

(** X3: given a list of names, [get_edit_bone], [get_bone] and
    [get_pose_bone] return the bone of the first name of the list that
    their collection holds, and none exactly when it holds none of the
    names. *)
Theorem get_bone_of_name_list (rig : Rig E B P) (names : list string) :
  (forall i, get_edit_bone rig (NameList names) = Some i <->
             first_named (edit_bones rig) names i) /\
  (forall i, get_bone rig (NameList names) = Some i <->
             first_named (bones rig) names i) /\
  (forall i, get_pose_bone rig (NameList names) = Some i <->
             first_named (pose_bones rig) names i) /\
  (get_edit_bone rig (NameList names) = None <->
   forall n, In n names -> contains (edit_bones rig) n = false) /\
  (get_bone rig (NameList names) = None <->
   forall n, In n names -> contains (bones rig) n = false) /\
  (get_pose_bone rig (NameList names) = None <->
   forall n, In n names -> contains (pose_bones rig) n = false).
Proof.
  unfold get_edit_bone, get_bone, get_pose_bone. rewrite !get_in_list.
  repeat split; try apply first_present_Some; try apply first_present_None.
Qed.

(** X4: for a name that is not empty, [get_rl_edit_bone], [get_rl_bone]
    and [get_rl_pose_bone] return what [get_edit_bone], [get_bone] and
    [get_pose_bone] return for the list of the name, the name without a
    leading "CC_Base_" and what is then left without a leading "RL_";
    for the empty name they return none. *)
Theorem get_rl_as_name_list (rig : Rig E B P) (name : string) :
  (PyStr.truthy name = true ->
   get_rl_edit_bone rig name = get_edit_bone rig (NameList (rl_candidates name)) /\
   get_rl_bone rig name = get_bone rig (NameList (rl_candidates name)) /\
   get_rl_pose_bone rig name = get_pose_bone rig (NameList (rl_candidates name))) /\
  (PyStr.truthy name = false ->
   get_rl_edit_bone rig name = None /\
   get_rl_bone rig name = None /\
   get_rl_pose_bone rig name = None).
Proof.
  unfold get_rl_edit_bone, get_rl_bone, get_rl_pose_bone,
    get_edit_bone, get_bone, get_pose_bone.
  rewrite !get_rl_in_candidates. split; intros ->; repeat split.
Qed.

End MoreLookupFacts.

(** ** Mapping table *)

Lemma bone_mapping_contains_bone_exists bone_mappings bone_name :
  bone_mapping_contains_bone bone_mappings bone_name = true <->
  exists row, In row bone_mappings /\
              stripped_form (snd row) = stripped_form bone_name.
Proof.
  induction bone_mappings as [|row rows IH]; cbn [bone_mapping_contains_bone].
  - split; [discriminate | intros (r & [] & _)].
  - rewrite cmp_rl_bone_names_strips.
    destruct (String.eqb (stripped_form (snd row)) (stripped_form bone_name)) eqn:E.
    + apply String.eqb_eq in E. split; [|reflexivity].
      intros _. exists row. split; [now left | exact E].
    + apply String.eqb_neq in E. rewrite IH. split.
      * intros (r & Hr & Heq). exists r. split; [now right | exact Heq].
      * intros (r & [<-|Hr] & Heq); [contradiction|]. now exists r.
Qed.

(** X5: whether the mapping table holds a bone depends on the name of
    the bone without its prefix only: two names that
    [cmp_rl_bone_names] takes for equal are both in the table or both
    out of it, and a name is in the table exactly when the entry 1 of
    some row is equal to it up to the prefixes. *)
Theorem bone_mapping_contains_bone_up_to_prefix bone_mappings (a b : string) :
  (bone_mapping_contains_bone bone_mappings a = true <->
   exists row, In row bone_mappings /\ cmp_rl_bone_names (snd row) a = true) /\
  (cmp_rl_bone_names a b = true ->
   bone_mapping_contains_bone bone_mappings a
   = bone_mapping_contains_bone bone_mappings b).
Proof.
  split.
  - rewrite bone_mapping_contains_bone_exists. split.
    + intros (row & Hr & Heq). exists row. split; [exact Hr|].
      rewrite cmp_rl_bone_names_strips. now apply String.eqb_eq.
    + intros (row & Hr & Heq). exists row. split; [exact Hr|].
      rewrite cmp_rl_bone_names_strips in Heq. now apply String.eqb_eq in Heq.
  - rewrite cmp_rl_bone_names_strips. intros Hab. apply String.eqb_eq in Hab.
    destruct (bone_mapping_contains_bone bone_mappings b) eqn:Hb.
    + apply bone_mapping_contains_bone_exists in Hb as (row & Hr & Heq).
      apply bone_mapping_contains_bone_exists. exists row. split; congruence.
    + destruct (bone_mapping_contains_bone bone_mappings a) eqn:Ha; [|reflexivity].
      apply bone_mapping_contains_bone_exists in Ha as (row & Hr & Heq).
      assert (bone_mapping_contains_bone bone_mappings b = true) as Hb'; [|congruence].
      apply bone_mapping_contains_bone_exists. exists row. split; congruence.
Qed.

(** ** Data paths *)

Section DataPathFacts.
Local Open Scope string_scope.

Lemma append_assoc' (a b c : string) : (a ++ b) ++ c = a ++ (b ++ c).
Proof. induction a as [|x a IH]; simpl; [reflexivity | now rewrite IH]. Qed.

Lemma index_quote_absent b :
  ~ In PyStr.dquote (PyStr.chars b) -> String.index 0 PyStr.quote b = None.
Proof.
  induction b as [|c b IH]; intros Hq; [reflexivity|].
  cbn [PyStr.chars list_ascii_of_string In] in Hq.
  cbn [String.index String.prefix PyStr.quote].
  destruct (ascii_dec PyStr.dquote c) as [Hc|Hc].
  { exfalso. apply Hq. left. now symmetry. }
  rewrite IH; [reflexivity|]. intros Hb. apply Hq. now right.
Qed.

Lemma path_opening_first_quote body :
  safe_index_of (path_opening ++ body) PyStr.quote 0 = 11%Z.
Proof.
  apply (safe_index_of_found _ _ 0 11); [lia|].
  apply (index_quote_run "pose.bones[" body).
  vm_compute. intuition discriminate.
Qed.

(** The name read from a path is what stands between the opening and the
    next double quote. *)
Lemma bone_name_up_to_quote (b rest : string) :
  ~ In PyStr.dquote (PyStr.chars b) ->
  get_bone_name_from_data_path (path_opening ++ b ++ String PyStr.dquote rest) = Some b.
Proof.
  intros Hq. set (body := b ++ String PyStr.dquote rest).
  assert (String.length (path_opening ++ body)
          = 12 + (String.length b + S (String.length rest))) as Hlen.
  { rewrite length_append. unfold body. rewrite length_append. reflexivity. }
  assert (safe_index_of (path_opening ++ body) PyStr.quote 12
          = Z.of_nat (12 + String.length b)) as Hend.
  { apply (safe_index_of_found _ _ 12); [lia|].
    change 12 with (String.length path_opening + 0) at 1.
    rewrite index_skip. unfold body. now rewrite index_quote_run. }
  unfold get_bone_name_from_data_path.
  change ("pose.bones[" ++ PyStr.quote) with path_opening.
  unfold PyStr.startswith. rewrite prefix_append, path_opening_first_quote.
  change (11 + 1)%Z with 12%Z. rewrite Hend.
  change 12%Z with (Z.of_nat 12).
  rewrite slice_in_range by lia.
  change 12 with (String.length path_opening) at 1.
  rewrite substring_skip. unfold body. now rewrite substring_prefix.
Qed.

Lemma data_path_shape (b p : string) :
  get_data_path_pose_bone_property b p
  = path_opening ++ b ++ String PyStr.dquote ("][" ++ PyStr.quote ++ p ++ PyStr.quote ++ "]").
Proof. reflexivity. Qed.

(** X6: the bone name read back from a data path stops at the first
    double quote of the bone name that the path was built from. *)
Theorem data_path_bone_name_cut_at_quote (b1 b2 p : string) :
  ~ In PyStr.dquote (PyStr.chars b1) ->
  get_bone_name_from_data_path
    (get_data_path_pose_bone_property (b1 ++ PyStr.quote ++ b2) p)
  = Some b1.
Proof.
  intros Hq. rewrite data_path_shape, !append_assoc'.
  now apply bone_name_up_to_quote.
Qed.

(** X7: a path that opens like a pose bone path and has no further
    double quote gives what follows the opening without its last
    character; a path that does not open like one gives none. *)
Theorem bone_name_of_unclosed_path (b other : string) :
  (~ In PyStr.dquote (PyStr.chars b) ->
   get_bone_name_from_data_path (path_opening ++ b)
   = Some (String.substring 0 (String.length b - 1) b)) /\
  (PyStr.startswith other path_opening = false ->
   get_bone_name_from_data_path other = None).
Proof.
  split.
  - intros Hq.
    assert (String.length (path_opening ++ b) = 12 + String.length b) as Hlen.
    { now rewrite length_append. }
    assert (safe_index_of (path_opening ++ b) PyStr.quote 12 = (-1)%Z) as Hend.
    { unfold safe_index_of. change 12%Z with (Z.of_nat 12).
      rewrite bound_in_range, Nat2Z.id by lia.
      change 12 with (String.length path_opening + 0) at 1.
      now rewrite index_skip, index_quote_absent. }
    unfold get_bone_name_from_data_path.
    change ("pose.bones[" ++ PyStr.quote) with path_opening.
    unfold PyStr.startswith. rewrite prefix_append, path_opening_first_quote.
    change (11 + 1)%Z with 12%Z. rewrite Hend.
    unfold PyStr.slice. rewrite Hlen. unfold PyStr.bound.
    replace (12 <? 0)%Z with false by reflexivity.
    replace (-1 <? 0)%Z with true by reflexivity.
    replace (Z.to_nat (12 `min` Z.of_nat (12 + String.length b))) with 12 by lia.
    replace (Z.to_nat (0 `max` (Z.of_nat (12 + String.length b) + -1)
                       - 12 `min` Z.of_nat (12 + String.length b)))
      with (String.length b - 1) by lia.
    change 12 with (String.length path_opening) at 1.
    now rewrite substring_skip.
  - unfold get_bone_name_from_data_path. fold path_opening. now intros ->.
Qed.

(** X8: for each of the seven limb identifiers that it knows,
    [get_data_rigify_limb_property] gives the data path of the property
    on the limb's pose bone, from which the name of that bone reads
    back; for every other identifier, "RIGHT_LEG" and the "LEFT_LEFT" of
    its documentation among them, it gives the empty string. *)
Theorem limb_property_paths (limb_id variable_name : string) :
  (forall bone, In (limb_id, bone) limb_bones ->
     get_data_rigify_limb_property limb_id variable_name
     = get_data_path_pose_bone_property bone variable_name /\
     get_bone_name_from_data_path
       (get_data_rigify_limb_property limb_id variable_name) = Some bone) /\
  ((forall bone, ~ In (limb_id, bone) limb_bones) ->
   get_data_rigify_limb_property limb_id variable_name = "") /\
  get_data_rigify_limb_property "RIGHT_LEG" variable_name = "" /\
  get_data_rigify_limb_property "LEFT_LEFT" variable_name = "".
Proof.
  assert (forall bone, In bone (map snd limb_bones) ->
            get_bone_name_from_data_path
              (get_data_path_pose_bone_property bone variable_name) = Some bone)
    as Hback.
  { intros bone Hb. rewrite data_path_shape. apply bone_name_up_to_quote.
    cbn in Hb.
    repeat (destruct Hb as [<-|Hb]; [vm_compute; intuition discriminate|]).
    destruct Hb. }
  split; [|split; [|split; reflexivity]].
  - intros bone Hin. cbn in Hin.
    repeat (destruct Hin as [Hin|Hin];
            [injection Hin as <- <-; split; [reflexivity|];
             apply Hback; cbn; tauto|]).
    destruct Hin.
  - intros Hnone. unfold get_data_rigify_limb_property.
    repeat match goal with
    | |- context [String.eqb limb_id ?s] =>
        destruct (String.eqb_spec limb_id s) as [->|_];
        [exfalso; eapply Hnone; cbn; eauto 10|]
    end.
    reflexivity.
Qed.

End DataPathFacts.

(** ** Renaming, averaging and clearing *)

Section MoreEditFacts.
Context `{Geometry} {B P : Type}.

Lemma with_name_names (ebs : list EditBone) i to :
  map name_of (alter (fun b => with_name b to) i ebs)
  = alter (fun _ => to) i (map name_of ebs).
Proof.
  apply list_eq. intros j. change (map name_of ?l) with (name_of <$> l).
  rewrite list_lookup_fmap.
  destruct (decide (i = j)) as [->|Hne].
  - rewrite !list_lookup_alter_eq, list_lookup_fmap. now destruct (ebs !! j).
  - rewrite !list_lookup_alter_ne, list_lookup_fmap by assumption. reflexivity.
Qed.

(** X9: with edit mode granted, a bone called [from_name] and no bone
    called [to_name], [rename_bone] gives the bone the new name and
    changes nothing else: the bone is found under the new name at its
    old place, the other bones, the armature bones and the pose bones
    are as before, and nothing is logged.  With edit mode granted and no
    bone called [from_name], the rig stays as it is and the error logged
    says that [to_name] exists already, whether it does or not. *)
Theorem rename_bone_renames (rig : Rig EditBone B P) (from_name to_name : string) :
  edit_mode_ok rig = true ->
  (forall i,
      get_edit_bone rig (NameStr from_name) = Some i ->
      contains (edit_bones rig) to_name = false ->
      exists rig',
        rename_bone rig from_name to_name = (rig', []) /\
        (forall b, edit_bones rig !! i = Some b ->
                   edit_bones rig' !! i = Some (with_name b to_name)) /\
        (forall j, j <> i -> edit_bones rig' !! j = edit_bones rig !! j) /\
        find_name (edit_bones rig') to_name = Some i /\
        bones rig' = bones rig /\ pose_bones rig' = pose_bones rig) /\
  (get_edit_bone rig (NameStr from_name) = None ->
   rename_bone rig from_name to_name = (rig, [rename_error from_name to_name])).
Proof.
  intros Hmode. split.
  - intros i Hget Hto. unfold rename_bone. rewrite Hmode, Hget, Hto. cbn [negb].
    eexists. split; [reflexivity|]. cbn [edit_bones bones pose_bones set_edit_bones].
    unfold get_edit_bone in Hget. rewrite get_in_str in Hget.
    destruct (PyStr.truthy from_name); [|discriminate Hget].
    destruct (find_name_Some _ _ _ Hget) as (b0 & Hb0 & Hn0 & _).
    split; [|split; [|split; [|split; reflexivity]]].
    + intros b Hb. now rewrite list_lookup_alter_eq, Hb.
    + intros j Hj. now rewrite list_lookup_alter_ne.
    + apply (find_name_first _ _ _ (with_name b0 to_name)); [|reflexivity|].
      * now rewrite list_lookup_alter_eq, Hb0.
      * intros j b' Hj Hb'. rewrite list_lookup_alter_ne in Hb' by lia.
        apply contains_false in Hto.
        apply (proj1 (find_name_None _ _) Hto).
        apply list_elem_of_In. now apply list_elem_of_lookup_2 in Hb'.
  - intros Hget. unfold rename_bone. now rewrite Hmode, Hget.
Qed.

(** X10: renaming a bone and renaming it back leaves the rig as it was,
    and logs nothing, when the names of the edit bones are distinct and
    the two names are not empty. *)
Theorem rename_bone_back (rig : Rig EditBone B P) (from_name to_name : string) :
  edit_mode_ok rig = true ->
  NoDup (map name_of (edit_bones rig)) ->
  PyStr.truthy from_name = true ->
  PyStr.truthy to_name = true ->
  contains (edit_bones rig) from_name = true ->
  contains (edit_bones rig) to_name = false ->
  rename_bone (fst (rename_bone rig from_name to_name)) to_name from_name = (rig, []) /\
  snd (rename_bone rig from_name to_name) = [].
Proof.
  intros Hmode Hnd Hfrom Hto Hin Hout.
  unfold contains in Hin.
  destruct (find_name (edit_bones rig) from_name) as [i|] eqn:Hfind; [|discriminate].
  destruct (find_name_Some _ _ _ Hfind) as (b0 & Hb0 & Hn0 & _).
  assert (get_edit_bone rig (NameStr from_name) = Some i) as Hget.
  { unfold get_edit_bone. now rewrite get_in_str, Hfrom. }
  unfold rename_bone at 2 3. rewrite Hmode, Hget, Hout. cbn [negb fst snd].
  split; [|reflexivity].
  set (ebs' := alter (fun b => with_name b to_name) i (edit_bones rig)).
  assert (find_name ebs' to_name = Some i) as Hfind'.
  { apply (find_name_first _ _ _ (with_name b0 to_name)); [|reflexivity|].
    - unfold ebs'. now rewrite list_lookup_alter_eq, Hb0.
    - intros j b' Hj Hb'. unfold ebs' in Hb'.
      rewrite list_lookup_alter_ne in Hb' by lia.
      apply contains_false in Hout.
      apply (proj1 (find_name_None _ _) Hout).
      apply list_elem_of_In. now apply list_elem_of_lookup_2 in Hb'. }
  assert (from_name <> to_name) as Hne.
  { intros ->. apply contains_false in Hout. congruence. }
  assert (find_name ebs' from_name = None) as Hgone.
  { apply find_name_None. intros b Hb Hname.
    apply list_elem_of_In, list_elem_of_lookup in Hb as [j Hj]. unfold ebs' in Hj.
    destruct (decide (i = j)) as [->|Hij].
    - rewrite list_lookup_alter_eq, Hb0 in Hj. injection Hj as <-.
      cbn in Hname. congruence.
    - rewrite list_lookup_alter_ne in Hj by assumption.
      apply Hij. apply (NoDup_lookup (map name_of (edit_bones rig)) i j from_name Hnd).
      + change (map name_of ?l) with (name_of <$> l).
        now rewrite list_lookup_fmap, Hb0, <- Hn0.
      + change (map name_of ?l) with (name_of <$> l).
        now rewrite list_lookup_fmap, Hj, <- Hname. }
  unfold rename_bone. cbn [edit_mode_ok set_edit_bones edit_bones].
  rewrite Hmode. unfold get_edit_bone. cbn [edit_bones].
  rewrite get_in_str, Hto. fold ebs'.
  change (edit_bones (set_edit_bones rig ebs')) with ebs'. rewrite Hfind'.
  unfold contains. rewrite Hgone. cbn [negb].
  assert (alter (fun b => with_name b from_name) i ebs' = edit_bones rig) as ->.
  { apply list_eq. intros j. unfold ebs'.
    destruct (decide (i = j)) as [->|Hij].
    - rewrite !list_lookup_alter_eq, Hb0. cbn. f_equal.
      destruct b0; cbn in *. unfold with_name. cbn. now rewrite <- Hn0.
    - now rewrite !list_lookup_alter_ne. }
  now destruct rig.
Qed.

Lemma sum_positions_count (ebs : list EditBone) copy_bones offset : forall acc,
  snd (sum_positions ebs copy_bones offset acc)
  = (snd acc + Z.of_nat (length (List.filter (contains ebs) copy_bones)))%Z.
Proof.
  induction copy_bones as [|n rest IH]; intros [[hp tp] num];
    cbn [sum_positions List.filter].
  - cbn. lia.
  - destruct (contains ebs n) eqn:Hc.
    + unfold contains in Hc.
      destruct (find_name ebs n) as [j|] eqn:Hj; [|discriminate Hc].
      destruct (find_name_Some _ _ _ Hj) as (b & Hb & _).
      cbn [mbind option_bind]. rewrite Hb, IH. cbn [snd length]. lia.
    + apply IH.
Qed.

(** X11: with edit mode granted and the target bone present,
    [copy_position] divides by the number of the listed names that are
    names of bones, each counted as often as it is listed: it returns
    the target bone, with nothing logged, exactly when that number is
    not zero, and then the bones keep their names, their parents and
    their layers, and every bone but the target its head and tail. *)
Theorem copy_position_averages (rig : Rig EditBone B P) bone copy_bones offset i :
  edit_mode_ok rig = true ->
  find_name (edit_bones rig) bone = Some i ->
  let num := length (List.filter (contains (edit_bones rig)) copy_bones) in
  (num = 0 ->
   copy_position rig bone copy_bones offset = (Raises ZeroDivisionError, rig, [])) /\
  (num <> 0 ->
   exists rig',
     copy_position rig bone copy_bones offset = (Returns (Some i), rig', []) /\
     length (edit_bones rig') = length (edit_bones rig) /\
     (forall j b, edit_bones rig !! j = Some b ->
        exists b', edit_bones rig' !! j = Some b' /\
                   eb_name b' = eb_name b /\ parent b' = parent b /\
                   layers b' = layers b /\ (j <> i -> b' = b))).
Proof.
  intros Hmode Hfind num.
  pose proof (sum_positions_count (edit_bones rig) copy_bones offset
                (vzero, vzero, 0%Z)) as Hcount.
  cbn [snd] in Hcount. fold num in Hcount.
  unfold copy_position. rewrite Hmode, (contains_find_name _ _ _ Hfind), Hfind.
  destruct (sum_positions (edit_bones rig) copy_bones offset (vzero, vzero, 0%Z))
    as [[hp tp] n]. cbn [snd] in Hcount. subst n.
  split.
  - intros ->. reflexivity.
  - intros Hnum. destruct (Z.eqb_spec (0 + Z.of_nat num) 0) as [Hz|_]; [lia|].
    eexists. split; [reflexivity|]. cbn [edit_bones set_edit_bones].
    split; [apply length_alter|].
    intros j b Hb. destruct (decide (i = j)) as [->|Hij].
    + rewrite list_lookup_alter_eq, Hb. eexists. split; [reflexivity|].
      repeat split. intros Hj. now contradiction Hj.
    + rewrite list_lookup_alter_ne, Hb by assumption. now exists b.
Qed.

Lemma remove_all_drivers (drivers : list string) : forall ds,
  (forall d, In d ds -> In d drivers) ->
  foldl (fun ds fc => remove string_dec fc ds) ds drivers = [].
Proof.
  induction drivers as [|fc drivers IH]; intros ds Hsub; cbn [foldl].
  - destruct ds as [|d ds]; [reflexivity|]. destruct (Hsub d). now left.
  - apply IH. intros d Hd. apply in_remove in Hd as [Hd Hne].
    destruct (Hsub d Hd) as [Heq|Hin]; [congruence | exact Hin].
Qed.

(** X12: [clear_drivers] on a rig that has animation data returns
    without logging and leaves the rig without any driver; its bones are
    not touched. *)
Theorem clear_drivers_removes_all (rig : Rig EditBone B P) (drivers : list string) :
  animation_data rig = Some drivers ->
  exists rig',
    clear_drivers rig = (Returns tt, rig', []) /\
    animation_data rig' = Some [] /\
    edit_bones rig' = edit_bones rig /\
    bones rig' = bones rig /\
    pose_bones rig' = pose_bones rig.
Proof.
  intros Hdata. unfold clear_drivers. rewrite Hdata.
  destruct drivers as [|fc drivers].
  - exists rig. repeat split. exact Hdata.
  - eexists. split; [reflexivity|]. cbn [animation_data set_animation_data].
    split; [|repeat split].
    f_equal. now apply remove_all_drivers.
Qed.

End MoreEditFacts.

(** ** Accessory bone classifier *)

Section MoreClassifierFacts.
Context `{Geometry} {E P : Type}.
Variable bone_mappings : list bone_mapping.

Abbreviation scan_from := (foldl (accessory_step bone_mappings)).

Lemma scan_invariant l : forall acc,
  NoDup (fst acc) -> snd acc = map accessory_line (fst acc) ->
  NoDup (fst (scan_from acc l)) /\
  snd (scan_from acc l) = map accessory_line (fst (scan_from acc l)).
Proof.
  induction l as [|b l IH]; intros acc Hnd Hlog; [now split|].
  cbn [foldl]. apply IH.
  - rewrite accessory_step_fst.
    destruct (negb (mapped bone_mappings b)); [|exact Hnd].
    destruct (existsb (String.eqb (bone_name b)) (fst acc)) eqn:Hex; [exact Hnd|].
    cbn [negb andb]. destruct (negb (parent_in_list_walk (fst acc) b)); [|exact Hnd].
    apply NoDup_app. split; [exact Hnd|]. split; [|apply NoDup_singleton].
    intros x Hx Hx'. apply list_elem_of_singleton in Hx'. subst x.
    assert (existsb (String.eqb (bone_name b)) (fst acc) = true) as Ht; [|congruence].
    apply existsb_eqb_In. now apply list_elem_of_In.
  - destruct acc as [names log]. cbn [fst snd] in *. unfold accessory_step.
    destruct (negb (bone_mapping_contains_bone bone_mappings (bone_name b)));
      [|exact Hlog].
    destruct (negb (existsb (String.eqb (bone_name b)) names)
              && negb (bone_parent_in_list names (Some b))); [|exact Hlog].
    cbn [fst snd]. rewrite map_app, Hlog. reflexivity.
Qed.

(** X13: [find_accessory_bones] records no name twice, and logs one line
    for each name that it records, in the same order, and nothing
    else. *)
Theorem find_accessory_bones_log (rig : Rig E Bone P) :
  NoDup (fst (find_accessory_bones bone_mappings rig)) /\
  snd (find_accessory_bones bone_mappings rig)
  = map accessory_line (fst (find_accessory_bones bone_mappings rig)).
Proof.
  unfold find_accessory_bones. apply scan_invariant; [apply NoDup_nil_2 | reflexivity].
Qed.

(** X14: every bone of the rig that the mapping table does not hold is
    recorded by [find_accessory_bones], or has an ancestor that is. *)
Theorem find_accessory_bones_covers (rig : Rig E Bone P) (b : Bone) :
  In b (bones rig) ->
  mapped bone_mappings b = false ->
  let result := fst (find_accessory_bones bone_mappings rig) in
  In (bone_name b) result \/
  exists a, In a (ancestors b) /\ In (bone_name a) result.
Proof.
  intros Hb Hun result. unfold result, find_accessory_bones.
  apply in_split in Hb as (pre & post & ->).
  rewrite foldl_app. cbn [foldl].
  destruct (scan_grows bone_mappings post
              (accessory_step bone_mappings (scan_from ([], []) pre) b))
    as (s2 & -> & _).
  rewrite accessory_step_fst, Hun. cbn [negb andb].
  set (recorded := fst (scan_from ([], []) pre)).
  destruct (existsb (String.eqb (bone_name b)) recorded) eqn:Hex; cbn [negb andb].
  { left. apply in_or_app. left. now apply existsb_eqb_In. }
  destruct (parent_in_list_walk recorded b) eqn:Hwalk; cbn [negb].
  - right. apply parent_in_list_walk_spec in Hwalk as (a & Ha & Hin).
    exists a. split; [exact Ha|]. apply in_or_app. now left.
  - left. apply in_or_app. left. apply in_or_app. right. now left.
Qed.

(** X15: when the names of the bones are distinct and the rig
    enumerates every bone after its ancestors, no bone recorded by
    [find_accessory_bones] has a recorded ancestor. *)
Theorem find_accessory_bones_roots_only (rig : Rig E Bone P) :
  NoDup (map bone_name (bones rig)) ->
  (forall pre b post a,
      bones rig = pre ++ b :: post -> In a (ancestors b) ->
      In (bone_name a) (map bone_name pre)) ->
  let result := fst (find_accessory_bones bone_mappings rig) in
  forall b a,
    In b (bones rig) -> In (bone_name b) result ->
    In a (ancestors b) -> ~ In (bone_name a) result.
Proof.
  intros Hnd Horder result b a Hb Hrec Ha Hreca.
  apply in_split in Hb as (pre & post & Hbones).
  pose proof (Horder pre b post a Hbones Ha) as Hpre.
  unfold result, find_accessory_bones in Hrec, Hreca.
  rewrite Hbones in Hrec, Hreca, Hnd.
  rewrite foldl_app in Hrec, Hreca. cbn [foldl] in Hrec, Hreca.
  destruct (scan_grows bone_mappings pre ([], [])) as (s1 & Hs1 & Hsub1 & _).
  cbn [fst app] in Hs1.
  destruct (scan_grows bone_mappings post
              (accessory_step bone_mappings (scan_from ([], []) pre) b))
    as (s2 & Hs2 & Hsub2 & _).
  rewrite Hs2 in Hrec, Hreca. rewrite accessory_step_fst in Hrec, Hreca.
  rewrite map_app in Hnd. cbn [map] in Hnd.
  apply NoDup_app in Hnd as (_ & Hdisj & Hnd).
  apply NoDup_cons in Hnd as [Hnb _].
  assert (forall x, In x s2 -> bone_name b <> x /\ ~ In x (map bone_name pre)) as Hs2out.
  { intros x Hx. apply list_elem_of_In in Hx.
    pose proof (elem_of_sublist _ _ _ Hx Hsub2) as Hpost. split.
    - intros <-. now apply Hnb.
    - intros Hxpre. apply (Hdisj x); [now apply list_elem_of_In|]. now right. }
  assert (~ In (bone_name b) (map bone_name pre)) as Hbpre.
  { intros Hin. apply (Hdisj (bone_name b)); [now apply list_elem_of_In | left]. }
  assert (forall x, In x (fst (scan_from ([], []) pre)) -> In x (map bone_name pre))
    as Hs1in.
  { intros x Hx. rewrite Hs1 in Hx. apply list_elem_of_In.
    eapply elem_of_sublist; [|exact Hsub1]. now apply list_elem_of_In. }
  destruct (negb (mapped bone_mappings b)
            && negb (existsb (String.eqb (bone_name b)) (fst (scan_from ([], []) pre)))
            && negb (parent_in_list_walk (fst (scan_from ([], []) pre)) b)) eqn:Hturn.
  - apply andb_prop in Hturn as [_ Hwalk]. apply negb_true_iff in Hwalk.
    assert (parent_in_list_walk (fst (scan_from ([], []) pre)) b = true) as Ht;
      [|congruence].
    apply parent_in_list_walk_spec. exists a. split; [exact Ha|].
    apply in_app_or in Hreca as [Hin|Hin].
    + apply in_app_or in Hin as [Hin|[Heq|[]]]; [exact Hin|].
      exfalso. apply Hbpre. now rewrite Heq.
    + exfalso. now apply (Hs2out _ Hin).
  - apply in_app_or in Hrec as [Hin|Hin].
    + apply Hbpre. now apply Hs1in.
    + destruct (Hs2out _ Hin) as [Hne _]. now apply Hne.
Qed.

End MoreClassifierFacts.

(** ** Subtree records *)

Section SubtreeFacts.
Context `{G : Geometry} `{N : Naming}.

Lemma well_linked_children name h t hr tr r p cs child :
  well_linked (mkNode name h t hr tr r p cs) -> In child cs ->
  node_parent child = Some name /\ well_linked child.
Proof.
  cbn [well_linked]. induction cs as [|c cs IH]; [intros _ []|].
  cbn [fold_right]. intros (Hp & Hw & Hrest) [<-|Hin]; [now split | now apply IH].
Qed.

Lemma lookup_flat_map {X Y} (f : X -> list Y) (l : list X) k y :
  List.flat_map f l !! k = Some y ->
  exists l1 x l2 o,
    l = l1 ++ x :: l2 /\ f x !! o = Some y /\
    k = length (List.flat_map f l1) + o.
Proof.
  revert k. induction l as [|x l IH]; intros k; cbn [List.flat_map].
  - now rewrite lookup_nil.
  - intros Hk. apply lookup_app_Some in Hk as [Hk|[Hge Hk]].
    + exists [], x, l, k. repeat split. exact Hk.
    + destruct (IH _ Hk) as (l1 & x' & l2 & o & -> & Ho & Heq).
      exists (x :: l1), x', l2, o. split; [reflexivity|]. split; [exact Ho|].
      cbn [List.flat_map]. rewrite length_app. lia.
Qed.

(** The records that the walk adds to the list. *)
Lemma subtree_defs_walk {B P}
        (rig : Rig EditBoneNode B P) (bone : EditBoneNode) (tree : list BoneDef) :
  (edit_mode_ok rig = true ->
   Forall (fun b => is_Some (node_parent b)) (preorder bone) ->
   get_edit_bone_subtree_defs rig bone tree
   = tree ++ map (record_of rig) (preorder bone)) /\
  (edit_mode_ok rig = false \/ node_parent bone = None ->
   get_edit_bone_subtree_defs rig bone tree = tree).
Proof.
  split.
  - intros Hmode. revert tree.
    induction bone as [n h t hr tr r p cs IH] using EditBoneNode_tree_ind.
    intros tree Hall. cbn [preorder] in Hall. apply Forall_cons in Hall as [Hp Hall].
    cbn [get_edit_bone_subtree_defs preorder map]. rewrite Hmode.
    destruct p as [pn|]; [|now destruct Hp].
    change (mkDef n (transform (matrix_world rig) h) (transform (matrix_world rig) t)
                  hr tr r pn None)
      with (record_of rig (mkNode n h t hr tr r (Some pn) cs)).
    set (d := record_of rig (mkNode n h t hr tr r (Some pn) cs)).
    assert (forall t0,
               fold_left (fun tree child_bone =>
                            get_edit_bone_subtree_defs rig child_bone tree) cs t0
               = t0 ++ map (record_of rig) (List.flat_map preorder cs)) as Hfold.
    { clear Hp d. induction IH as [|c cs Hc _ IHcs]; intros t0.
      - cbn. now rewrite app_nil_r.
      - cbn [List.flat_map fold_left] in *. apply Forall_app in Hall as [Hc1 Hc2].
        rewrite (Hc t0 Hc1), (IHcs Hc2), map_app, app_assoc. reflexivity. }
    rewrite Hfold, <- app_assoc. reflexivity.
  - intros Hcase. destruct bone as [n h t hr tr r p cs].
    cbn [get_edit_bone_subtree_defs node_parent] in *.
    destruct Hcase as [->| ->]; [reflexivity|].
    now destruct (edit_mode_ok rig).
Qed.

(** X16: with edit mode granted and a parent for every bone of the
    subtree, [get_edit_bone_subtree_defs] adds to the list one record
    for each bone of the subtree, in depth-first order, parents before
    children; for a bone without parent, or without edit mode, it adds
    nothing, whatever is below the bone. *)
Theorem get_edit_bone_subtree_defs_preorder {B P}
        (rig : Rig EditBoneNode B P) (bone : EditBoneNode) (tree : list BoneDef) :
  (edit_mode_ok rig = true ->
   Forall (fun b => is_Some (node_parent b)) (preorder bone) ->
   get_edit_bone_subtree_defs rig bone tree
   = tree ++ map (record_of rig) (preorder bone)) /\
  (edit_mode_ok rig = false \/ node_parent bone = None ->
   get_edit_bone_subtree_defs rig bone tree = tree).
Proof. exact (subtree_defs_walk rig bone tree). Qed.

(** In the depth-first listing of a subtree whose bones are linked to
    their parents, every bone but the first comes after its parent. *)
Lemma preorder_parent_earlier (bone : EditBoneNode) :
  well_linked bone ->
  forall k c, 0 < k -> preorder bone !! k = Some c ->
    exists j p, j < k /\ preorder bone !! j = Some p /\
                node_parent c = Some (node_name p).
Proof.
  induction bone as [n h t hr tr r p cs IH] using EditBoneNode_tree_ind.
  intros Hw k c Hk Hc. cbn [preorder] in *.
  destruct k as [|k]; [lia|].
  change (List.flat_map preorder cs !! k = Some c) in Hc.
  destruct (lookup_flat_map _ _ _ _ Hc) as (l1 & x & l2 & o & Hcs & Ho & Hkeq).
  assert (In x cs) as Hx by (rewrite Hcs; apply in_elt).
  destruct (well_linked_children _ _ _ _ _ _ _ _ _ Hw Hx) as [Hxp Hxw].
  destruct o as [|o].
  - exists 0, (mkNode n h t hr tr r p cs). split; [lia|]. split; [reflexivity|].
    destruct x; cbn [preorder] in Ho. injection Ho as <-. exact Hxp.
  - rewrite Forall_forall in IH.
    destruct (IH x (proj2 (list_elem_of_In _ _) Hx) Hxw (S o) c) as (j & q & Hj & Hq & Hpar);
      [lia | exact Ho |].
    exists (S (length (List.flat_map preorder l1) + j)), q.
    split; [lia|]. split; [|exact Hpar].
    change (List.flat_map preorder cs !! (length (List.flat_map preorder l1) + j)
            = Some q).
    rewrite Hcs, flat_map_app. cbn [List.flat_map].
    rewrite lookup_app_r by lia.
    replace (length (List.flat_map preorder l1) + j - length (List.flat_map preorder l1))
      with j by lia.
    now apply lookup_app_l_Some.
Qed.

End SubtreeFacts.

(** ** Bone tree copier *)

Section MoreTreeCopierFacts.
Context `{G : Geometry} `{N : Naming}.

Lemma set_tree_parent_only_parent ebs dst_name dst_parent_name i eb :
  ebs !! i = Some eb ->
  exists eb',
    set_tree_parent ebs dst_name dst_parent_name !! i = Some eb' /\
    eb_name eb' = eb_name eb /\ head eb' = head eb /\ tail eb' = tail eb /\
    head_radius eb' = head_radius eb /\ tail_radius eb' = tail_radius eb /\
    roll eb' = roll eb /\ layers eb' = layers eb /\
    (eb_name eb <> dst_name -> eb' = eb).
Proof.
  intros Hi.
  destruct (set_tree_parent_cases ebs dst_name dst_parent_name)
    as [->|(r & p & _ & Hr & _ & ->)]; [exists eb; repeat split; auto|].
  destruct (decide (r = i)) as [->|Hne].
  - exists (with_parent eb p). rewrite list_lookup_alter_eq, Hi.
    repeat split. intros Hn. exfalso. apply Hn.
    apply find_name_Some in Hr as (b & Hb & Hname & _).
    rewrite Hi in Hb. injection Hb as <-. exact Hname.
  - exists eb. rewrite list_lookup_alter_ne by assumption. repeat split; auto.
Qed.

(** What a call leaves when both rigs go to edit mode and the source
    bone is found. *)
Lemma copy_subtree_result {B P P'}
      (cc3_rig : Rig EditBoneNode B P) (dst_rig : Rig EditBone DataBone P')
      (cc3_name dst_name dst_parent_name : string) (layer : Z)
      (i : nat) (root : EditBoneNode) :
  edit_mode_ok cc3_rig = true ->
  edit_mode_ok dst_rig = true ->
  get_edit_bone cc3_rig (NameStr cc3_name) = Some i ->
  edit_bones cc3_rig !! i = Some root ->
  let src := get_edit_bone_subtree_defs cc3_rig root [] in
  exists news defs' bs',
    length news = length src /\ length defs' = length src /\
    (forall k d, src !! k = Some d ->
       let eb := created_bone (edit_bones dst_rig ++ take k news)
                              cc3_name dst_name layer d in
       news !! k = Some eb /\
       defs' !! k = Some (def_append d (eb_name eb)) /\
       def_created d = None) /\
    (object_mode_ok dst_rig = false -> bs' = bones dst_rig) /\
    copy_rl_edit_bone_subtree cc3_rig dst_rig cc3_name dst_name dst_parent_name layer
    = (Returns (Some defs'),
       set_bones (set_edit_bones dst_rig
                    (set_tree_parent (edit_bones dst_rig ++ news)
                                     dst_name dst_parent_name)) bs').
Proof.
  intros Hsrc Hdst Hget Hroot src.
  destruct (get_edit_bone_subtree_defs_extends cc3_rig root [])
    as (more & Hwalk & Hfresh & _).
  cbn [app] in Hwalk. fold src in Hwalk.
  assert (forall k d, src !! k = Some d -> def_created d = None) as Hnone.
  { intros k d Hd. rewrite <- Hwalk in Hfresh.
    rewrite Forall_forall in Hfresh. apply Hfresh.
    now apply list_elem_of_lookup_2 in Hd. }
  destruct (create_bones_spec cc3_name dst_name layer src (edit_bones dst_rig))
    as (news & defs' & Hcreate & Hnews & Hdefs & Hk).
  set (E := edit_bones dst_rig ++ news) in *.
  set (F := set_tree_parent E dst_name dst_parent_name).
  assert (forall d', In d' defs' ->
            exists n, def_created d' = Some n /\
                      contains (map to_data_bone F) n = true) as Hrecorded.
  { intros d' Hin. apply list_elem_of_In, list_elem_of_lookup in Hin as [k Hd'].
    assert (k < length src) as Hlt by (apply lookup_lt_Some in Hd'; lia).
    apply lookup_lt_is_Some in Hlt as [d Hd].
    destruct (Hk k d Hd) as [Hnew Hdef]. rewrite Hdef in Hd'. injection Hd' as <-.
    exists (eb_name (created_bone (edit_bones dst_rig ++ take k news)
                                  cc3_name dst_name layer d)).
    split.
    - unfold def_append. cbn [def_created]. now rewrite (Hnone k d Hd).
    - rewrite contains_names.
      assert (map name_of (map to_data_bone F) = map name_of E) as ->.
      { unfold F. rewrite <- (set_tree_parent_names E dst_name dst_parent_name), map_map.
        reflexivity. }
      rewrite <- contains_names. unfold contains, E.
      rewrite (created_bone_found_all cc3_name dst_name layer src); auto.
      intros k1 d1 Hd1. now apply Hk. }
  assert (exists bs',
             (object_mode_ok dst_rig = false -> bs' = bones dst_rig) /\
             copy_rl_edit_bone_subtree cc3_rig dst_rig cc3_name dst_name
                                       dst_parent_name layer
             = (Returns (Some defs'), set_bones (set_edit_bones dst_rig F) bs'))
    as (bs' & Hbs & Hrun).
  { unfold copy_rl_edit_bone_subtree. rewrite Hsrc, Hdst, Hget. cbn [mbind option_bind].
    rewrite Hroot. fold src. rewrite Hcreate. fold F.
    cbn [object_mode_ok set_edit_bones].
    destruct (object_mode_ok dst_rig); [|now exists (bones dst_rig)].
    cbn [bones set_bones].
    destruct (set_pose_layers_spec layer defs' (map to_data_bone F))
      as (o & bs' & Hpose & _ & _ & Hok).
    rewrite Hpose, (Hok Hrecorded). exists bs'. split; [discriminate | reflexivity]. }
  exists news, defs', bs'. split; [exact Hnews|]. split; [exact Hdefs|].
  split; [|split; [exact Hbs | exact Hrun]].
  intros k d Hd. cbn zeta. destruct (Hk k d Hd) as [Hnew Hdef].
  split; [exact Hnew|]. split; [exact Hdef | now apply (Hnone k d)].
Qed.

(** X17: a call of [copy_rl_edit_bone_subtree] that does not reach its
    first loop leaves the destination rig as it is: without edit mode on
    the source rig it returns none; when no bone of the source rig is
    called [cc3_name], the [AttributeError] of reading the parent of no
    bone leaves the function; and without edit mode on the destination
    rig it returns the records of the subtree, none of them with the
    name of a created bone. *)
Theorem copy_subtree_untouched_destination {B P P'}
        (cc3_rig : Rig EditBoneNode B P) (dst_rig : Rig EditBone DataBone P')
        (cc3_name dst_name dst_parent_name : string) (layer : Z) :
  let run := copy_rl_edit_bone_subtree cc3_rig dst_rig cc3_name dst_name
                                       dst_parent_name layer in
  (edit_mode_ok cc3_rig = false -> run = (Returns None, dst_rig)) /\
  (edit_mode_ok cc3_rig = true ->
   get_edit_bone cc3_rig (NameStr cc3_name) = None ->
   run = (Raises AttributeError, dst_rig)) /\
  (forall i root,
      edit_mode_ok cc3_rig = true ->
      get_edit_bone cc3_rig (NameStr cc3_name) = Some i ->
      edit_bones cc3_rig !! i = Some root ->
      edit_mode_ok dst_rig = false ->
      run = (Returns (Some (get_edit_bone_subtree_defs cc3_rig root [])), dst_rig) /\
      Forall (fun d => def_created d = None)
             (get_edit_bone_subtree_defs cc3_rig root [])).
Proof.
  cbn zeta. unfold copy_rl_edit_bone_subtree. split; [|split].
  - now intros ->.
  - now intros -> ->.
  - intros i root -> -> Hroot ->. cbn [mbind option_bind]. rewrite Hroot.
    split; [reflexivity|].
    destruct (get_edit_bone_subtree_defs_extends cc3_rig root [])
      as (more & -> & Hfresh & _). exact Hfresh.
Qed.

(** X18: a call of [copy_rl_edit_bone_subtree] that reaches its loops
    returns, and keeps every bone that the destination rig had at its
    place, with its name, head, tail, radii, roll and layers; a bone
    that is not called [dst_name] keeps its parent too.  The pose bones
    are not touched, nor are the bones of the armature when object mode
    is refused. *)
Theorem copy_subtree_keeps_existing {B P P'}
        (cc3_rig : Rig EditBoneNode B P) (dst_rig : Rig EditBone DataBone P')
        (cc3_name dst_name dst_parent_name : string) (layer : Z)
        (i : nat) (root : EditBoneNode) :
  edit_mode_ok cc3_rig = true ->
  edit_mode_ok dst_rig = true ->
  get_edit_bone cc3_rig (NameStr cc3_name) = Some i ->
  edit_bones cc3_rig !! i = Some root ->
  exists defs dst_rig',
    copy_rl_edit_bone_subtree cc3_rig dst_rig cc3_name dst_name dst_parent_name layer
    = (Returns (Some defs), dst_rig') /\
    (forall j eb, edit_bones dst_rig !! j = Some eb ->
       exists eb',
         edit_bones dst_rig' !! j = Some eb' /\
         eb_name eb' = eb_name eb /\ head eb' = head eb /\ tail eb' = tail eb /\
         head_radius eb' = head_radius eb /\ tail_radius eb' = tail_radius eb /\
         roll eb' = roll eb /\ layers eb' = layers eb /\
         (eb_name eb <> dst_name -> eb' = eb)) /\
    pose_bones dst_rig' = pose_bones dst_rig /\
    (object_mode_ok dst_rig = false -> bones dst_rig' = bones dst_rig).
Proof.
  intros Hsrc Hdst Hget Hroot.
  destruct (copy_subtree_result cc3_rig dst_rig cc3_name dst_name dst_parent_name
              layer i root Hsrc Hdst Hget Hroot)
    as (news & defs' & bs' & _ & _ & _ & Hbs & Hrun).
  eexists. eexists. split; [exact Hrun|].
  cbn [edit_bones bones pose_bones set_bones set_edit_bones].
  split; [|split; [reflexivity | exact Hbs]].
  intros j eb Hj. apply set_tree_parent_only_parent.
  now apply lookup_app_l_Some.
Qed.

(** X19: for a source bone without parent, with edit mode on both rigs,
    nothing is copied and the list returned is empty, but the tree
    parent is set all the same: a bone that the destination rig has
    under the name [dst_name] gets the bone called [dst_parent_name] as
    its parent, when that bone is not the bone itself or below it. *)
Theorem copy_subtree_of_parentless_bone {B P P'}
        (cc3_rig : Rig EditBoneNode B P) (dst_rig : Rig EditBone DataBone P')
        (cc3_name dst_name dst_parent_name : string) (layer : Z)
        (i : nat) (root : EditBoneNode) :
  edit_mode_ok cc3_rig = true ->
  edit_mode_ok dst_rig = true ->
  get_edit_bone cc3_rig (NameStr cc3_name) = Some i ->
  edit_bones cc3_rig !! i = Some root ->
  node_parent root = None ->
  exists dst_rig',
    copy_rl_edit_bone_subtree cc3_rig dst_rig cc3_name dst_name dst_parent_name layer
    = (Returns (Some []), dst_rig') /\
    length (edit_bones dst_rig') = length (edit_bones dst_rig) /\
    forall r p eb,
      get_edit_bone dst_rig (NameStr dst_name) = Some r ->
      get_edit_bone dst_rig (NameStr dst_parent_name) = Some p ->
      edit_bones dst_rig !! r = Some eb ->
      loop_free (edit_bones dst_rig) r p ->
      edit_bones dst_rig' !! r = Some (with_parent eb p).
Proof.
  intros Hsrc Hdst Hget Hroot Hparent.
  destruct (copy_subtree_result cc3_rig dst_rig cc3_name dst_name dst_parent_name
              layer i root Hsrc Hdst Hget Hroot)
    as (news & defs' & bs' & Hnews & Hdefs & _ & _ & Hrun).
  assert (get_edit_bone_subtree_defs cc3_rig root [] = []) as Hempty.
  { apply subtree_defs_walk. now right. }
  rewrite Hempty in Hnews, Hdefs. cbn [length] in Hnews, Hdefs.
  destruct news; [|discriminate Hnews]. destruct defs'; [|discriminate Hdefs].
  rewrite app_nil_r in Hrun.
  eexists. split; [exact Hrun|]. cbn [edit_bones set_bones set_edit_bones].
  split.
  - rewrite <- (length_map name_of), set_tree_parent_names. apply length_map.
  - intros r p eb Hr Hp Heb _. unfold set_tree_parent.
    unfold get_edit_bone in Hr, Hp. rewrite Hr, Hp.
    now rewrite list_lookup_alter_eq, Heb.
Qed.

Lemma well_linked_parented (root : EditBoneNode) :
  is_Some (node_parent root) -> well_linked root ->
  Forall (fun b => is_Some (node_parent b)) (preorder root).
Proof.
  intros Hp Hw. apply Forall_lookup. intros k c Hc.
  destruct k as [|k].
  - destruct root; cbn [preorder] in Hc. injection Hc as <-. exact Hp.
  - destruct (preorder_parent_earlier root Hw (S k) c) as (j & p & _ & _ & ->);
      [lia | exact Hc | eauto].
Qed.

(** X20: when a subtree whose bones are linked to their parents is
    copied under the name of its root, with edit mode on both rigs, and
    the host gave every created bone the name of its record, none of
    them empty, then the copy of every bone but the root has the copy of
    the bone's parent as its parent: the record of the parent comes
    earlier in the list returned, and the bone created for it is the
    parent of the bone created for the record. *)
Theorem copy_subtree_keeps_topology {B P P'}
        (cc3_rig : Rig EditBoneNode B P) (dst_rig dst_rig' : Rig EditBone DataBone P')
        (name dst_parent_name : string) (layer : Z)
        (i : nat) (root : EditBoneNode) (defs : list BoneDef) :
  edit_mode_ok cc3_rig = true ->
  edit_mode_ok dst_rig = true ->
  get_edit_bone cc3_rig (NameStr name) = Some i ->
  edit_bones cc3_rig !! i = Some root ->
  is_Some (node_parent root) ->
  well_linked root ->
  copy_rl_edit_bone_subtree cc3_rig dst_rig name name dst_parent_name layer
  = (Returns (Some defs), dst_rig') ->
  Forall (fun d => def_created d = Some (def_name d) /\
                   PyStr.truthy (def_name d) = true) defs ->
  forall k d, 0 < k -> defs !! k = Some d ->
    exists j d_j eb,
      j < k /\ defs !! j = Some d_j /\ def_name d_j = def_parent_name d /\
      edit_bones dst_rig' !! (length (edit_bones dst_rig) + k) = Some eb /\
      parent eb = Some (length (edit_bones dst_rig) + j).
Proof.
  intros Hsrc Hdst Hget Hroot Hparent Hlinked Hrun Hkept k d' Hk Hd'.
  destruct (copy_subtree_result cc3_rig dst_rig name name dst_parent_name
              layer i root Hsrc Hdst Hget Hroot)
    as (news & defs' & bs' & Hnews & Hdefs & Hspec & _ & Hrun').
  rewrite Hrun' in Hrun. injection Hrun as <- <-.
  cbn [edit_bones set_bones set_edit_bones].
  set (n0 := length (edit_bones dst_rig)).
  set (E := edit_bones dst_rig ++ news).
  pose proof (proj1 (subtree_defs_walk cc3_rig root []) Hsrc
                (well_linked_parented root Hparent Hlinked)) as Hwalk.
  cbn [app] in Hwalk. rewrite Hwalk in Hspec, Hnews, Hdefs.
  rewrite Forall_lookup in Hkept.
  (* the record and the bone of a position *)
  assert (forall m c, preorder root !! m = Some c ->
            let eb := created_bone (edit_bones dst_rig ++ take m news)
                                   name name layer (record_of cc3_rig c) in
            news !! m = Some eb /\
            defs' !! m = Some (def_append (record_of cc3_rig c) (eb_name eb)) /\
            eb_name eb = node_name c /\ PyStr.truthy (node_name c) = true) as Hat.
  { intros m c Hc. cbn zeta.
    assert (map (record_of cc3_rig) (preorder root) !! m = Some (record_of cc3_rig c))
      as Hrec.
    { change (map ?f ?l) with (f <$> l). now rewrite list_lookup_fmap, Hc. }
    destruct (Hspec m _ Hrec) as (Hnew & Hdef & _).
    split; [exact Hnew|]. split; [exact Hdef|].
    destruct (Hkept m _ Hdef) as [Hcreated Htruthy].
    unfold def_append in Hcreated, Htruthy.
    cbn [def_created def_name record_of] in Hcreated, Htruthy.
    split; [congruence | exact Htruthy]. }
  assert (forall m d, map (record_of cc3_rig) (preorder root) !! m = Some d ->
            news !! m = Some (created_bone (edit_bones dst_rig ++ take m news)
                                           name name layer d)) as Hnews_at.
  { intros m dm Hm. now destruct (Hspec m dm Hm). }
  (* the bone of record k and its parent *)
  assert (k < length (preorder root)) as Hlt.
  { apply lookup_lt_Some in Hd'. rewrite length_map in Hdefs. lia. }
  apply lookup_lt_is_Some in Hlt as [c Hc].
  destruct (preorder_parent_earlier root Hlinked k c Hk Hc) as (j & p & Hj & Hp & Hcp).
  destruct (Hat k c Hc) as (Hnewk & Hdefk & Hnamek & _).
  destruct (Hat j p Hp) as (Hnewj & Hdefj & Hnamej & Htruthyj).
  rewrite Hdefk in Hd'. injection Hd' as <-.
  set (ebk := created_bone (edit_bones dst_rig ++ take k news)
                           name name layer (record_of cc3_rig c)) in *.
  set (ebj := created_bone (edit_bones dst_rig ++ take j news)
                           name name layer (record_of cc3_rig p)) in *.
  assert (E !! (n0 + k) = Some ebk) as HEk.
  { unfold E, n0. now rewrite lookup_app_r, Nat.add_comm, Nat.add_sub by lia. }
  (* bone k is not the one that the tree parent is set for *)
  assert (eb_name ebk <> name) as Hnot_root.
  { destruct (preorder root) as [|c0 rest] eqn:Hpre; [discriminate Hp|].
    assert (c0 = root) as -> by (destruct root; cbn [preorder] in Hpre; congruence).
    destruct (Hat 0 root eq_refl) as (Hnew0 & _ & Hname0 & _).
    cbn [take] in Hnew0, Hname0. rewrite app_nil_r in Hnew0, Hname0.
    assert (node_name root = name) as Hrootname.
    { unfold get_edit_bone in Hget. rewrite get_in_str in Hget.
      destruct (PyStr.truthy name); [|discriminate Hget].
      apply find_name_Some in Hget as (b & Hb & Hname & _).
      rewrite Hroot in Hb. injection Hb as <-. exact Hname. }
    rewrite <- Hrootname, <- Hname0. intros Heq. symmetry in Heq. revert Heq.
    apply created_bone_fresh.
    apply list_elem_of_In, in_or_app. right.
    apply list_elem_of_In, elem_of_take. exists 0.
    split; [exact Hnew0 | lia]. }
  destruct (set_tree_parent_only_parent E name dst_parent_name _ _ HEk)
    as (eb & Heb & _ & _ & _ & _ & _ & _ & _ & Hsame).
  rewrite (Hsame Hnot_root) in Heb. clear Hsame.
  exists j, (def_append (record_of cc3_rig p) (eb_name ebj)), ebk.
  split; [exact Hj|]. split; [exact Hdefj|]. split.
  { cbn [def_append def_name def_parent_name record_of]. now rewrite Hcp. }
  split; [exact Heb|].
  (* the parent of bone k is found by the name of bone j *)
  assert (parent ebk
          = get_in (map name_of (edit_bones dst_rig ++ take k news) ++ [eb_name ebk])
                   (NameStr (node_name p))) as ->.
  { cbn [ebk created_bone parent record_of def_parent_name]. now rewrite Hcp. }
  rewrite get_in_str, Htruthyj.
  assert (map name_of (edit_bones dst_rig ++ take k news) ++ [eb_name ebk]
          = map name_of (take (S (n0 + k)) E)) as ->.
  { rewrite (take_S_r _ _ _ HEk). unfold E, n0.
    rewrite take_app_add, (map_app _ (_ ++ _)). reflexivity. }
  rewrite <- find_name_names, <- Hnamej.
  unfold E, n0.
  apply (created_bone_found name name layer
           (map (record_of cc3_rig) (preorder root))); [exact Hnews_at | | lia].
  change (map ?f ?l) with (f <$> l). now rewrite list_lookup_fmap, Hp.
Qed.

Lemma requested_name_renamed (cc3_name dst_name : string) (d : BoneDef) :
  dst_name <> cc3_name -> requested_name cc3_name dst_name d <> cc3_name.
Proof.
  intros Hne. unfold requested_name.
  destruct (String.eqb (def_name d) cc3_name) eqn:E; [exact Hne|].
  now apply String.eqb_neq.
Qed.

(** C1: the copy does not keep the topology of the source when the root
    is copied under another name.  The source root exists and has a
    parent, both rigs go to edit mode, [dst_name] differs from
    [cc3_name], the destination rig has no bone called [cc3_name], and
    the host gave every created bone the name asked for.  Then one bone
    is created for each record, the copy of the root stands first under
    the name [dst_name], and every other record that names the root as
    its parent, as the records of the children of the root do, has a
    copy without any parent: the parent is looked for under the source
    name of the root, which no bone of the destination rig carries. *)
Theorem copy_subtree_renamed_root_orphans {B P P'}
        (cc3_rig : Rig EditBoneNode B P) (dst_rig dst_rig' : Rig EditBone DataBone P')
        (cc3_name dst_name dst_parent_name : string) (layer : Z)
        (i : nat) (root : EditBoneNode) (defs : list BoneDef) :
  edit_mode_ok cc3_rig = true ->
  edit_mode_ok dst_rig = true ->
  get_edit_bone cc3_rig (NameStr cc3_name) = Some i ->
  edit_bones cc3_rig !! i = Some root ->
  is_Some (node_parent root) ->
  dst_name <> cc3_name ->
  contains (edit_bones dst_rig) cc3_name = false ->
  copy_rl_edit_bone_subtree cc3_rig dst_rig cc3_name dst_name dst_parent_name layer
  = (Returns (Some defs), dst_rig') ->
  Forall (fun d => def_created d = Some (requested_name cc3_name dst_name d)) defs ->
  length defs = length (get_edit_bone_subtree_defs cc3_rig root []) /\
  length (edit_bones dst_rig') = length (edit_bones dst_rig) + length defs /\
  (exists d0 eb0,
     defs !! 0 = Some d0 /\ def_name d0 = cc3_name /\
     edit_bones dst_rig' !! length (edit_bones dst_rig) = Some eb0 /\
     eb_name eb0 = dst_name) /\
  forall k d, 0 < k -> defs !! k = Some d -> def_parent_name d = cc3_name ->
    exists eb,
      edit_bones dst_rig' !! (length (edit_bones dst_rig) + k) = Some eb /\
      def_created d = Some (eb_name eb) /\
      parent eb = None.
Proof.
  intros Hsrc Hdst Hget Hroot [root_parent Hparent] Hrenamed Habsent Hrun Hkept.
  destruct (copy_subtree_result cc3_rig dst_rig cc3_name dst_name dst_parent_name
              layer i root Hsrc Hdst Hget Hroot)
    as (news & defs' & bs' & Hnews & Hdefs & Hspec & _ & Hrun').
  rewrite Hrun' in Hrun. injection Hrun as <- <-.
  cbn [edit_bones set_bones set_edit_bones].
  set (src := get_edit_bone_subtree_defs cc3_rig root []) in *.
  set (n0 := length (edit_bones dst_rig)).
  set (E := edit_bones dst_rig ++ news).
  rewrite Forall_lookup in Hkept.
  (* the bone and the record of a position *)
  assert (forall m ds, src !! m = Some ds ->
            let eb := created_bone (edit_bones dst_rig ++ take m news)
                                   cc3_name dst_name layer ds in
            E !! (n0 + m) = Some eb /\
            defs' !! m = Some (def_append ds (eb_name eb)) /\
            eb_name eb = requested_name cc3_name dst_name ds) as Hat.
  { intros m ds Hm. cbn zeta. destruct (Hspec m ds Hm) as (Hnew & Hdef & Hnone).
    split.
    { unfold E, n0. now rewrite lookup_app_r, Nat.add_comm, Nat.add_sub by lia. }
    split; [exact Hdef|].
    pose proof (Hkept m _ Hdef) as Hcreated.
    unfold def_append in Hcreated. cbn [def_created] in Hcreated.
    rewrite Hnone in Hcreated. injection Hcreated as Hcreated.
    exact Hcreated. }
  (* the record of the root comes first *)
  destruct (get_edit_bone_subtree_defs_extends cc3_rig root [])
    as (more & Hwalk & _ & Hfirst).
  destruct (Hfirst Hsrc _ Hparent) as (d0 & rest & -> & Hd0 & _).
  cbn [app] in Hwalk. fold src in Hwalk.
  assert (src !! 0 = Some d0) as Hsrc0 by now rewrite Hwalk.
  assert (def_name d0 = cc3_name) as Hd0name.
  { rewrite Hd0. unfold get_edit_bone in Hget. rewrite get_in_str in Hget.
    destruct (PyStr.truthy cc3_name); [|discriminate Hget].
    apply find_name_Some in Hget as (b & Hb & Hname & _).
    rewrite Hroot in Hb. injection Hb as <-. exact Hname. }
  destruct (Hat 0 d0 Hsrc0) as (HE0 & Hdef0 & Hname0).
  cbn [take] in HE0, Hdef0, Hname0. rewrite app_nil_r in HE0, Hdef0, Hname0.
  rewrite Nat.add_0_r in HE0.
  set (eb0 := created_bone (edit_bones dst_rig) cc3_name dst_name layer d0) in *.
  assert (eb_name eb0 = dst_name) as Hroot_name.
  { rewrite Hname0. unfold requested_name. rewrite Hd0name.
    now rewrite String.eqb_refl. }
  (* no created bone but the first is called [dst_name] *)
  assert (forall m ds, 0 < m -> src !! m = Some ds ->
            eb_name (created_bone (edit_bones dst_rig ++ take m news)
                                  cc3_name dst_name layer ds) <> dst_name) as Hothers.
  { intros m ds Hm Hds Heq. rewrite <- Hroot_name in Heq. symmetry in Heq.
    revert Heq. apply created_bone_fresh.
    apply list_elem_of_In, in_or_app. right.
    apply list_elem_of_In, elem_of_take. exists 0.
    destruct (Hspec 0 d0 Hsrc0) as (Hnew0 & _).
    cbn [take] in Hnew0. rewrite app_nil_r in Hnew0.
    split; [exact Hnew0 | lia]. }
  split; [exact Hdefs|].
  split.
  { rewrite <- (length_map name_of), set_tree_parent_names, length_map.
    unfold E. rewrite length_app. fold n0. lia. }
  split.
  { destruct (set_tree_parent_only_parent E dst_name dst_parent_name _ _ HE0)
      as (eb0' & Heb0' & Hn0 & _).
    exists (def_append d0 (eb_name eb0)), eb0'.
    split; [exact Hdef0|]. split; [exact Hd0name|].
    split; [exact Heb0'|]. now rewrite Hn0. }
  intros k d Hk Hd Hpn.
  assert (k < length src) as Hlt.
  { apply lookup_lt_Some in Hd. lia. }
  apply lookup_lt_is_Some in Hlt as [ds Hds].
  destruct (Hat k ds Hds) as (HEk & Hdefk & Hnamek).
  rewrite Hdefk in Hd. injection Hd as <-.
  cbn [def_append def_parent_name] in Hpn.
  set (ebk := created_bone (edit_bones dst_rig ++ take k news)
                           cc3_name dst_name layer ds) in *.
  destruct (set_tree_parent_only_parent E dst_name dst_parent_name _ _ HEk)
    as (eb & Heb & _ & _ & _ & _ & _ & _ & _ & Hsame).
  rewrite (Hsame (Hothers k ds Hk Hds)) in Heb. clear Hsame.
  exists ebk. split; [exact Heb|].
  split.
  { destruct (Hspec k ds Hds) as (_ & _ & Hnone).
    unfold def_append. cbn [def_created]. now rewrite Hnone. }
  (* the lookup of the parent meets no bone called [cc3_name] *)
  assert (parent ebk
          = get_in (map name_of (edit_bones dst_rig ++ take k news) ++ [eb_name ebk])
                   (NameStr cc3_name)) as ->.
  { cbn [ebk created_bone parent]. now rewrite Hpn. }
  rewrite get_in_str. destruct (PyStr.truthy cc3_name); [|reflexivity].
  apply find_name_None. intros x Hx.
  change (name_of x) with x.
  apply in_app_or in Hx as [Hx|[<-|[]]].
  - rewrite map_app in Hx. apply in_app_or in Hx as [Hx|Hx].
    + apply in_map_iff in Hx as (b & <- & Hb).
      apply contains_false in Habsent.
      now apply (proj1 (find_name_None _ _) Habsent).
    + apply in_map_iff in Hx as (b & <- & Hb).
      apply list_elem_of_In, elem_of_take in Hb as (j & Hj & Hjk).
      assert (j < length src) as Hjlt.
      { apply lookup_lt_Some in Hj. lia. }
      apply lookup_lt_is_Some in Hjlt as [dj Hdj].
      destruct (Hspec j dj Hdj) as (Hnewj & _).
      destruct (Hat j dj Hdj) as (_ & _ & Hnamej).
      rewrite Hnewj in Hj. injection Hj as <-.
      change (name_of ?b) with (eb_name b). rewrite Hnamej.
      now apply requested_name_renamed.
  - rewrite Hnamek. now apply requested_name_renamed.
Qed.

End MoreTreeCopierFacts.

(** ** Further operations on edit bones *)

Lemma not_empty_truthy (s : string) :
  negb (String.eqb s "") = PyStr.truthy s.
Proof. now destruct s. Qed.


Lemma remove_all_fold {C : Type} (dec : forall x y : C, {x = y} + {x <> y})
      (l : list C) : forall cs,
  (forall c, In c cs -> In c l) ->
  foldl (fun cs con => remove dec con cs) cs l = [].
Proof.
  induction l as [|con l IH]; intros cs Hsub; cbn [foldl].
  - destruct cs as [|c cs]; [reflexivity|]. destruct (Hsub c). now left.
  - apply IH. intros c Hc. apply in_remove in Hc as [Hc Hne].
    destruct (Hsub c Hc) as [Heq|Hin]; [congruence | exact Hin].
Qed.



Section FurtherEditFacts.
Context `{G : Geometry} `{N : Naming} {B P : Type} `{Named B, Named P}.

(** Setting the parent of the bone at one position leaves the other
    bones as they are, and this bone with its other attributes. *)
Lemma alter_parent_frame (ebs : list EditBone) (i p k : nat) (eb : EditBone) :
  ebs !! k = Some eb ->
  exists eb',
    alter (fun b => with_parent b p) i ebs !! k = Some eb' /\
    eb_name eb' = eb_name eb /\ head eb' = head eb /\ tail eb' = tail eb /\
    head_radius eb' = head_radius eb /\ tail_radius eb' = tail_radius eb /\
    roll eb' = roll eb /\ layers eb' = layers eb /\
    (k <> i -> eb' = eb) /\ (k = i -> parent eb' = Some p).
Proof.
  intros Hk. destruct (decide (i = k)) as [->|Hne].
  - exists (with_parent eb p). rewrite list_lookup_alter_eq, Hk.
    repeat split. intros Hn. now contradiction Hn.
  - exists eb. rewrite list_lookup_alter_ne by assumption.
    repeat split; auto. intros ->. now contradiction Hne.
Qed.


Lemma find_name_same_names {A A' : Type} `{Named A, Named A'}
      (coll : list A) (coll' : list A') name :
  map name_of coll = map name_of coll' ->
  find_name coll name = find_name coll' name.
Proof. intros Heq. now rewrite (find_name_names coll), (find_name_names coll'), Heq. Qed.

(** X21: [reparent_edit_bone] tests for the bone in [rig.data.bones]
    and takes it from [rig.data.edit_bones].  For a name that the bones
    of the armature have and the edit bones lack, the [KeyError] of the
    subscript leaves the function, whatever the parent asked for, and
    nothing is logged or changed.  For a name that the bones of the
    armature lack, the function returns [None] and logs that the target
    bone could not be found, also when an edit bone carries the name. *)
Theorem reparent_edit_bone_missing_edit_bone (rig : Rig EditBone B P)
        (bone_name parent_name : string) :
  edit_mode_ok rig = true ->
  (contains (bones rig) bone_name = true ->
   contains (edit_bones rig) bone_name = false ->
   reparent_edit_bone rig bone_name parent_name = (Raises KeyError, rig, [])) /\
  (contains (bones rig) bone_name = false ->
   reparent_edit_bone rig bone_name parent_name
   = (Returns None, rig,
      [(ERROR, ("Could not find target bone: " ++ bone_name ++ " in Rig!")%string)])).
Proof.
  intros Hedit. unfold reparent_edit_bone, getitem. rewrite Hedit. split.
  - intros Hin Hout. rewrite Hin. apply contains_false in Hout. now rewrite Hout.
  - now intros ->.
Qed.

(** X22: whatever [reparent_edit_bone] is called with, the bones of the
    armature and the pose bones stay as they are, and every edit bone
    keeps its place, its name, its position, its roll and its layers;
    only the bone that the call returns can differ from before, and only
    in its parent.  When a bone is returned, nothing was logged, the
    bone is the first edit bone named [bone_name], and the first edit
    bone named [parent_name] is now its parent, when that bone is not
    the bone itself or below it. *)
Theorem reparent_edit_bone_only_parent (rig rig' : Rig EditBone B P)
        (bone_name parent_name : string)
        (o : outcome (option nat)) (log : list log_entry) :
  reparent_edit_bone rig bone_name parent_name = (o, rig', log) ->
  bones rig' = bones rig /\ pose_bones rig' = pose_bones rig /\
  length (edit_bones rig') = length (edit_bones rig) /\
  (forall k eb, edit_bones rig !! k = Some eb ->
     exists eb',
       edit_bones rig' !! k = Some eb' /\
       eb_name eb' = eb_name eb /\ head eb' = head eb /\ tail eb' = tail eb /\
       head_radius eb' = head_radius eb /\ tail_radius eb' = tail_radius eb /\
       roll eb' = roll eb /\ layers eb' = layers eb /\
       (o <> Returns (Some k) -> eb' = eb)) /\
  (forall i, o = Returns (Some i) ->
     log = [] /\ find_name (edit_bones rig) bone_name = Some i /\
     exists j eb',
       find_name (edit_bones rig) parent_name = Some j /\
       edit_bones rig' !! i = Some eb' /\
       (loop_free (edit_bones rig) i j -> parent eb' = Some j)).
Proof.
  assert (forall (o' : outcome (option nat)) l,
            (forall i, o' <> Returns (Some i)) ->
            (o', rig, l) = (o, rig', log) ->
            bones rig' = bones rig /\ pose_bones rig' = pose_bones rig /\
            length (edit_bones rig') = length (edit_bones rig) /\
            (forall k eb, edit_bones rig !! k = Some eb ->
               exists eb',
                 edit_bones rig' !! k = Some eb' /\
                 eb_name eb' = eb_name eb /\ head eb' = head eb /\ tail eb' = tail eb /\
                 head_radius eb' = head_radius eb /\ tail_radius eb' = tail_radius eb /\
                 roll eb' = roll eb /\ layers eb' = layers eb /\
                 (o <> Returns (Some k) -> eb' = eb)) /\
            (forall i, o = Returns (Some i) ->
               log = [] /\ find_name (edit_bones rig) bone_name = Some i /\
               exists j eb',
                 find_name (edit_bones rig) parent_name = Some j /\
                 edit_bones rig' !! i = Some eb' /\
                 (loop_free (edit_bones rig) i j -> parent eb' = Some j))) as Hsame.
  { intros o' l Hnone [= <- <- <-].
    split; [reflexivity|]. split; [reflexivity|]. split; [reflexivity|]. split.
    - intros k eb Hk. exists eb. repeat split; auto.
    - intros i Hi. now destruct (Hnone i). }
  unfold reparent_edit_bone.
  destruct (edit_mode_ok rig); [|now apply Hsame].
  destruct (contains (bones rig) bone_name); [|now apply Hsame].
  unfold getitem.
  destruct (find_name (edit_bones rig) bone_name) as [bone|] eqn:Hbone;
    [|now apply Hsame].
  rewrite not_empty_truthy. unfold get_edit_bone. rewrite get_in_str.
  destruct (PyStr.truthy parent_name); [|now apply Hsame].
  destruct (find_name (edit_bones rig) parent_name) as [parent_bone|] eqn:Hparent;
    [|now apply Hsame].
  intros [= <- <- <-]. cbn [bones pose_bones edit_bones set_edit_bones].
  split; [reflexivity|]. split; [reflexivity|].
  split; [apply length_alter|]. split.
  - intros k eb Hk.
    destruct (alter_parent_frame (edit_bones rig) bone parent_bone k eb Hk)
      as (eb' & Heb' & Hn & Hh & Ht & Hhr & Htr & Hr & Hl & Hother & _).
    exists eb'. do 8 (split; [assumption|]).
    intros Hne. apply Hother. congruence.
  - intros i [= <-]. split; [reflexivity|]. split; [reflexivity|].
    apply find_name_Some in Hbone as (eb & Heb & _).
    destruct (alter_parent_frame (edit_bones rig) bone parent_bone bone eb Heb)
      as (eb' & Heb' & _ & _ & _ & _ & _ & _ & _ & _ & Hp).
    exists parent_bone, eb'. split; [reflexivity|]. split; [exact Heb'|].
    intros _. now apply Hp.
Qed.


(** X24: no exception leaves [copy_edit_bone].  When it returns
    [None] the rig is as it was, and for a source name that is not
    empty at least one line was logged: there is no silent refusal. *)
Theorem copy_edit_bone_refusal_is_logged (rig rig' : Rig EditBone B P)
        (src_name dst_name parent_name : string) (scale : Real)
        (o : outcome (option nat)) (log : list log_entry) :
  copy_edit_bone rig src_name dst_name parent_name scale = (o, rig', log) ->
  (forall e, o <> Raises e) /\
  (o = Returns None ->
   rig' = rig /\ (PyStr.truthy src_name = true -> log <> [])).
Proof.
  unfold copy_edit_bone.
  destruct (edit_mode_ok rig).
  2:{ intros [= <- <- <-]. split; [discriminate|]. intros _. split; [reflexivity|].
      discriminate. }
  assert (forall src_bone : option EditBone,
            (src_bone = None \/ negb (contains (edit_bones rig) dst_name) = false) ->
            (src_bone = None ->
             PyStr.truthy src_name = true ->
             contains (edit_bones rig) src_name = false) ->
            (Returns None, rig,
             (if negb (contains (edit_bones rig) src_name)
              then [(ERROR, ("Unable to find source bone " ++ src_name
                               ++ " in rig!")%string)]
              else [])
             ++
             (if contains (edit_bones rig) dst_name
              then [(WARN, ("Destination bone " ++ dst_name
                              ++ " already exists in rig!")%string)]
              else [])) = (o, rig', log) ->
            (forall e, o <> Raises e) /\
            (o = Returns None ->
             rig' = rig /\ (PyStr.truthy src_name = true -> log <> []))) as Hrefused.
  { intros src_bone Hwhy Hsrc [= <- <- <-]. split; [discriminate|].
    intros _. split; [reflexivity|]. intros Htruthy.
    destruct Hwhy as [Hnone|Hexists].
    - rewrite (Hsrc Hnone Htruthy). discriminate.
    - apply negb_false_iff in Hexists. rewrite Hexists.
      destruct (negb (contains (edit_bones rig) src_name)); discriminate. }
  unfold get_edit_bone. rewrite get_in_str.
  destruct (PyStr.truthy src_name) eqn:Htruthy.
  - destruct (find_name (edit_bones rig) src_name) as [i|] eqn:Hfind; cbn [mbind option_bind].
    + destruct (edit_bones rig !! i) as [src|] eqn:Hi.
      * destruct (negb (contains (edit_bones rig) dst_name)) eqn:Hdst.
        -- destruct (negb (String.eqb parent_name "")).
           ++ unfold contains, getitem.
              destruct (find_name _ parent_name);
                intros [= <- <- <-]; split; discriminate.
           ++ intros [= <- <- <-]; split; discriminate.
        -- apply (Hrefused (Some src)); [now right | discriminate].
      * apply find_name_lt in Hfind. apply lookup_ge_None in Hi. lia.
    + destruct (negb (contains (edit_bones rig) dst_name));
        apply (Hrefused None); auto; intros _ _; now apply contains_false.
  - cbn [mbind option_bind].
    destruct (negb (contains (edit_bones rig) dst_name));
      apply (Hrefused None); auto; discriminate.
Qed.


End FurtherEditFacts.


Ltac pose_bones_kept rig :=
  exists rig; do 4 (split; [reflexivity|]);
  let k := fresh "k" in let pb := fresh "pb" in let Hk := fresh "Hk" in
  intros k pb Hk; exists pb;
  split; [exact Hk|]; split; [reflexivity|]; split; [reflexivity|];
  intros; congruence.

(** X27: [clear_constraints] returns without an exception whatever it
    is called with, also for a name that no pose bone has.  The edit
    bones and the bones of the armature are not touched; every pose
    bone keeps its place and its name; the first pose bone of the name
    is left without constraints when the name is not empty and object
    mode is reached, and every other pose bone keeps its own. *)
Theorem clear_constraints_empties `{Geometry} {E B C : Type} `{EqDecision C}
        (rig : Rig E B (PoseBone C)) (pose_bone_name : string) :
  exists rig',
    clear_constraints rig pose_bone_name = (Returns tt, rig') /\
    edit_bones rig' = edit_bones rig /\ bones rig' = bones rig /\
    length (pose_bones rig') = length (pose_bones rig) /\
    forall k pb, pose_bones rig !! k = Some pb ->
      exists pb',
        pose_bones rig' !! k = Some pb' /\ pb_name pb' = pb_name pb /\
        (find_name (pose_bones rig) pose_bone_name <> Some k -> pb' = pb) /\
        (PyStr.truthy pose_bone_name = true -> object_mode_ok rig = true ->
         find_name (pose_bones rig) pose_bone_name = Some k ->
         constraints pb' = []).
Proof.
  unfold clear_constraints, contains, getitem.
  destruct (PyStr.truthy pose_bone_name) eqn:Htruthy; [|pose_bones_kept rig].
  destruct (object_mode_ok rig) eqn:Hobject; [|pose_bones_kept rig].
  destruct (find_name (pose_bones rig) pose_bone_name) as [i|] eqn:Hfind;
    [|pose_bones_kept rig].
  eexists. split; [reflexivity|]. cbn [edit_bones bones pose_bones set_pose_bones].
  do 2 (split; [reflexivity|]). split; [apply length_alter|].
  intros k pb Hk. destruct (decide (i = k)) as [->|Hne].
  - rewrite list_lookup_alter_eq, Hk. cbn [fmap option_fmap option_map].
    eexists. split; [reflexivity|]. split; [reflexivity|].
    split; [intros Hn; now contradiction Hn|].
    intros _ _ _. cbn [constraints]. now apply remove_all_fold.
  - rewrite list_lookup_alter_ne by assumption. exists pb.
    split; [exact Hk|]. split; [reflexivity|]. split; [reflexivity|].
    intros _ _ [= Heq]. now contradiction Hne.
Qed.

(** * Examples *)

(** ** A concrete host *)

Lemma cmp_rl_bone_names_stripped_witness :
  has_rl_prefix "CC_Base_Hip" = true /\
  cmp_rl_bone_names "CC_Base_Hip" (stripped_form "CC_Base_Hip")
  = negb (has_rl_prefix (stripped_form "CC_Base_Hip")).
Proof.
  split; [reflexivity|].
  apply (cmp_rl_bone_names_stripped "CC_Base_Hip"). reflexivity.
Defined.

(** C2, as stated, fails for a name that carries two prefixes. *)
Lemma cmp_rl_bone_names_double_prefix :
  has_rl_prefix "RL_RL_Hip" = true /\
  stripped_form "RL_RL_Hip" = "RL_Hip"%string /\
  cmp_rl_bone_names "RL_RL_Hip" (stripped_form "RL_RL_Hip") = false.
Proof. repeat split. Qed.

Lemma data_path_bone_name_roundtrip_witness :
  ~ In PyStr.dquote (PyStr.chars "thigh_parent.L") /\
  get_bone_name_from_data_path
    (get_data_path_pose_bone_property "thigh_parent.L" "IK_Stretch")
  = Some "thigh_parent.L"%string.
Proof.
  assert (~ In PyStr.dquote (PyStr.chars "thigh_parent.L")) as Hq.
  { vm_compute. intuition discriminate. }
  split; [exact Hq|].
  exact (data_path_bone_name_roundtrip "thigh_parent.L" "IK_Stretch" Hq).
Defined.

(** Vectors as the terms that the operations build. *)
Inductive vexpr :=
| VLit (x y z : Z)
| VAdd (a b : vexpr)
| VSub (a b : vexpr)
| VScale (a : vexpr) (r : Z)
| VNormalized (a : vexpr)
| VDiv (a : vexpr) (n : Z)
| VTransform (m : Z) (a : vexpr).

Definition symbolic_geometry : Geometry :=
  {| Vec := vexpr; Mat := Z; Real := Z;
     transform := VTransform; vzero := VLit 0 0 0; rzero := 0%Z;
     vadd := VAdd; vsub := VSub; vscale := VScale;
     normalized := VNormalized; vdiv := VDiv |}.

(** A taken name gets a suffix longer than any name in use. *)
Definition suffixed (names : list string) (n : string) : string :=
  if existsb (String.eqb n) names
  then (n ++ "." ++ String.concat "" names)%string
  else n.

Lemma length_concat_In (x : string) (names : list string) :
  In x names -> String.length x <= String.length (String.concat "" names).
Proof.
  induction names as [|y names IH]; [intros []|].
  intros Hx. cbn [String.concat].
  destruct names as [|z names].
  - destruct Hx as [->|[]]. lia.
  - rewrite !length_append. cbn [String.length].
    destruct Hx as [->|Hx]; [lia|]. apply IH in Hx. simpl in *. lia.
Qed.

Lemma suffixed_fresh names n : ~ In (suffixed names n) names.
Proof.
  unfold suffixed. destruct (existsb (String.eqb n) names) eqn:E.
  - intros Hin. apply length_concat_In in Hin.
    rewrite !length_append in Hin. simpl in Hin. lia.
  - intros Hin. assert (existsb (String.eqb n) names = true) as Ht; [|congruence].
    apply existsb_exists. exists n. split; [assumption | apply String.eqb_refl].
Qed.

Definition suffix_naming : Naming :=
  {| unique_name := suffixed; unique_name_fresh := suffixed_fresh |}.

(** An edit bone at the origin. *)
Definition plain_edit_bone (n : string) (p : option nat) : @EditBone symbolic_geometry :=
  @mkEditBone symbolic_geometry n (VLit 0 0 0) (VLit 0 1 0) 1%Z 1%Z 0%Z p
              (true :: replicate 31 false).

Definition plain_rig {E B P} (ebs : list E) (bs : list B) (ps : list P) (ok : bool)
  : @Rig symbolic_geometry E B P :=
  @mkRig symbolic_geometry E B P ebs bs ps 1%Z None ok ok.



(** C9, as stated, fails when the host refuses edit mode: nothing is
    logged. *)
Lemma rename_bone_silent_without_edit_mode :
  let rig := plain_rig [plain_edit_bone "a" None; plain_edit_bone "b" None]
                       (@nil DataBone) (@nil DataBone) false in
  contains (edit_bones rig) "b" = true /\
  rename_bone rig "a" "b" = (rig, []).
Proof. split; reflexivity. Qed.

Lemma rename_bone_existing_name_witness :
  let rig := plain_rig [plain_edit_bone "a" None; plain_edit_bone "b" None]
                       (@nil DataBone) (@nil DataBone) true in
  contains (edit_bones rig) "b" = true /\
  fst (rename_bone rig "a" "b") = rig /\
  (edit_mode_ok rig = true ->
   exists msg, snd (rename_bone rig "a" "b") = [(ERROR, msg)]).
Proof.
  intros rig. split; [reflexivity|].
  apply (rename_bone_existing_name rig "a" "b"). reflexivity.
Defined.

Lemma copy_position_divides_by_zero_witness :
  let rig := plain_rig [plain_edit_bone "a" None; plain_edit_bone "b" None]
                       (@nil DataBone) (@nil DataBone) true in
  copy_position rig "a" [] 0%Z = (Raises ZeroDivisionError, rig, []).
Proof.
  intros rig.
  apply (copy_position_divides_by_zero rig "a" [] 0%Z); [reflexivity..|].
  intros n [].
Defined.

Lemma exceptions_escape_witness :
  let rig := plain_rig [plain_edit_bone "a" None]
                       (@nil DataBone) (@nil DataBone) true in
  set_edit_bone_layer rig "missing" 3 = (Raises KeyError, rig, []) /\
  clear_drivers rig = (Raises AttributeError, rig, []).
Proof.
  intros rig.
  destruct (exceptions_escape rig "missing" 3%Z) as [Hl Hd].
  split; [apply Hl | apply Hd]; reflexivity.
Defined.

(** Bones of a small rig: a mapped head with a neck above it, and a
    strand of hair that hangs below no mapped bone. *)
Definition neck_bone : Bone := mkBone "CC_Base_NeckTwist01" None.
Definition head_bone : Bone := mkBone "CC_Base_Head" (Some neck_bone).
Definition hat_bone : Bone := mkBone "Hat" (Some head_bone).
Definition feather_bone : Bone := mkBone "Feather" (Some hat_bone).
Definition hair1_bone : Bone := mkBone "Hair1" None.
Definition hair2_bone : Bone := mkBone "Hair2" (Some hair1_bone).
Definition head_mappings : list bone_mapping :=
  [("neck", "CC_Base_NeckTwist01"); ("head", "CC_Base_Head")]%string.

(** C3, as stated, fails for a bone whose unmapped ancestors reach the
    top of the rig: the topmost of them is returned, though it has no
    parent, mapped or not. *)
Lemma get_accessory_root_bone_without_boundary :
  mapped head_mappings hair2_bone = false /\
  Forall (fun a => mapped head_mappings a = false) (ancestors hair2_bone) /\
  get_accessory_root_bone head_mappings hair2_bone = Some hair1_bone /\
  bone_parent hair1_bone = None.
Proof. repeat split. repeat constructor. Qed.

Lemma get_accessory_root_bone_highest_unmapped_witness :
  get_accessory_root_bone head_mappings feather_bone = Some hat_bone /\
  mapped head_mappings head_bone = true.
Proof.
  destruct (get_accessory_root_bone_highest_unmapped head_mappings feather_bone)
    as (Hsome & _ & Hparent).
  assert (get_accessory_root_bone head_mappings feather_bone = Some hat_bone) as Hr.
  { apply Hsome. split; [reflexivity|]. exists []. repeat split.
    repeat constructor. }
  split; [exact Hr|].
  exact (Hparent hat_bone head_bone Hr eq_refl).
Defined.

Ltac solve_not_elem :=
  let Hin := fresh "Hin" in
  intros Hin;
  repeat (apply elem_of_cons in Hin as [Hin|Hin]; [discriminate Hin|]);
  apply elem_of_nil in Hin; exact Hin.

Ltac solve_NoDup :=
  repeat (apply NoDup_cons; split; [solve_not_elem|]); apply NoDup_nil; exact I.

Lemma find_accessory_bones_roots_witness :
  let rig := plain_rig (@nil DataBone)
                       [neck_bone; head_bone; hat_bone; feather_bone;
                        hair1_bone; hair2_bone]
                       (@nil DataBone) true in
  fst (find_accessory_bones head_mappings rig) = ["Hat"; "Hair1"]%string /\
  ~ In "Feather"%string (fst (find_accessory_bones head_mappings rig)).
Proof.
  intros rig. split; [reflexivity|].
  destruct (find_accessory_bones_roots head_mappings rig) as (_ & _ & Hturn & _).
  apply (Hturn [neck_bone; head_bone; hat_bone] feather_bone
               [hair1_bone; hair2_bone] eq_refl).
  - exists hat_bone. split; left; reflexivity.
  - cbn. solve_NoDup.
Defined.

(** A hat with a feather on the head of the source rig, and a
    destination rig that has a root and a head. *)
Definition plain_node (n : string) (p : option string)
           (cs : list (@EditBoneNode symbolic_geometry)) : @EditBoneNode symbolic_geometry :=
  @mkNode symbolic_geometry n (VLit 0 0 0) (VLit 0 1 0) 1%Z 1%Z 0%Z p cs.

Definition feather_node := plain_node "Feather" (Some "Hat"%string) [].
Definition hat_node := plain_node "Hat" (Some "Head"%string) [feather_node].
Definition head_node := plain_node "Head" None [hat_node].

Definition hat_source_rig : @Rig symbolic_geometry EditBoneNode DataBone DataBone :=
  plain_rig [head_node; hat_node; feather_node] [] [] true.

Definition hat_destination_rig : @Rig symbolic_geometry EditBone DataBone DataBone :=
  plain_rig [plain_edit_bone "root" None; plain_edit_bone "head" (Some 0)]
            [mkDataBone "root" (true :: replicate 31 false);
             mkDataBone "head" (true :: replicate 31 false)]
            [] true.

(** C1, as stated, fails when the root is copied under another name:
    the record of the feather names "Hat" as its parent, the copy of the
    hat is bone 2 under the name "DEF-hat", no bone of the destination
    rig is called "Hat", and the copy of the feather is left without
    parent. *)
Lemma copy_subtree_renamed_root :
  let run := copy_rl_edit_bone_subtree (N := suffix_naming)
               hat_source_rig hat_destination_rig "Hat" "DEF-hat" "head" 3 in
  (exists defs, fst run = Returns (Some defs) /\
                map def_name defs = ["Hat"; "Feather"]%string /\
                map def_parent_name defs = ["Head"; "Hat"]%string /\
                map def_created defs = [Some "DEF-hat"; Some "Feather"]%string) /\
  map eb_name (edit_bones (snd run)) = ["root"; "head"; "DEF-hat"; "Feather"]%string /\
  map parent (edit_bones (snd run)) = [None; Some 0; Some 1; None] /\
  get_edit_bone (snd run) (NameStr "Hat") = None.
Proof.
  cbn zeta. split; [|repeat split].
  eexists. split; [vm_compute; reflexivity|]. repeat split.
Qed.

Lemma copy_subtree_parents_witness :
  exists defs dst_rig',
    copy_rl_edit_bone_subtree (N := suffix_naming)
      hat_source_rig hat_destination_rig "Hat" "Hat" "head" 3
    = (Returns (Some defs), dst_rig') /\
    length (edit_bones dst_rig') = 2 + 2 /\
    forall eb0 p,
      edit_bones dst_rig' !! 2 = Some eb0 -> eb_name eb0 = "Hat"%string ->
      get_in (edit_bones dst_rig') (NameStr "head") = Some p ->
      parent eb0 = Some p.
Proof.
  destruct (copy_subtree_parents (N := suffix_naming)
              hat_source_rig hat_destination_rig "Hat" "Hat" "head" 3
              1 hat_node "Head" eq_refl eq_refl eq_refl eq_refl eq_refl)
    as (defs & dst_rig' & Hrun & _ & Hlen & _ & _ & _ & Hroot).
  exists defs, dst_rig'. split; [exact Hrun|]. split; [exact Hlen|].
  intros eb0 p Heb0 Hname Hp.
  destruct (Hroot eb0 Heb0 Hname) as [_ Hforce]. now apply Hforce.
Defined.


(** ** Further examples *)

(** A rig with the edit bones "a" and "b" and the same bones in the
    armature. *)
Definition two_bone_rig (ok : bool)
  : @Rig symbolic_geometry EditBone DataBone DataBone :=
  plain_rig [plain_edit_bone "a" None; plain_edit_bone "b" None]
            [mkDataBone "a" (true :: replicate 31 false);
             mkDataBone "b" (true :: replicate 31 false)]
            [] ok.

(** The bones of the armature of the head, parents first. *)
Definition head_rig : @Rig symbolic_geometry DataBone Bone DataBone :=
  plain_rig [] [neck_bone; head_bone; hat_bone; feather_bone; hair1_bone; hair2_bone]
            [] true.

Lemma get_rl_as_name_list_witness :
  let rig := plain_rig [plain_edit_bone "Hip" None]
                       [mkDataBone "Hip" []] [mkDataBone "Hip" []] true in
  PyStr.truthy "CC_Base_Hip" = true /\
  rl_candidates "CC_Base_Hip" = ["CC_Base_Hip"; "Hip"]%string /\
  get_rl_edit_bone rig "CC_Base_Hip" = get_edit_bone rig (NameList ["CC_Base_Hip"; "Hip"]%string).
Proof.
  intros rig. do 2 (split; [reflexivity|]).
  destruct (get_rl_as_name_list rig "CC_Base_Hip") as [Hsome _].
  destruct (Hsome eq_refl) as [He _]. exact He.
Defined.

Lemma bone_mapping_contains_bone_up_to_prefix_witness :
  cmp_rl_bone_names "RL_Head" "CC_Base_Head" = true /\
  bone_mapping_contains_bone head_mappings "RL_Head"
  = bone_mapping_contains_bone head_mappings "CC_Base_Head".
Proof.
  split; [reflexivity|].
  destruct (bone_mapping_contains_bone_up_to_prefix head_mappings
              "RL_Head" "CC_Base_Head") as [_ Heq].
  apply Heq. reflexivity.
Defined.

Lemma data_path_bone_name_cut_at_quote_witness :
  ~ In PyStr.dquote (PyStr.chars "arm") /\
  get_bone_name_from_data_path
    (get_data_path_pose_bone_property ("arm" ++ PyStr.quote ++ "x") "IK_Stretch")
  = Some "arm"%string.
Proof.
  assert (~ In PyStr.dquote (PyStr.chars "arm")) as Hq.
  { vm_compute. intuition discriminate. }
  split; [exact Hq|].
  exact (data_path_bone_name_cut_at_quote "arm" "x" "IK_Stretch" Hq).
Defined.

Lemma bone_name_of_unclosed_path_witness :
  ~ In PyStr.dquote (PyStr.chars "spine") /\
  get_bone_name_from_data_path (path_opening ++ "spine") = Some "spin"%string /\
  PyStr.startswith "location" path_opening = false /\
  get_bone_name_from_data_path "location" = None.
Proof.
  assert (~ In PyStr.dquote (PyStr.chars "spine")) as Hq.
  { vm_compute. intuition discriminate. }
  destruct (bone_name_of_unclosed_path "spine" "location") as [Hopen Hother].
  split; [exact Hq|]. split; [exact (Hopen Hq)|].
  split; [reflexivity|]. apply Hother. reflexivity.
Defined.

Lemma limb_property_paths_witness :
  In ("LEFT_ARM", "upper_arm_parent.L")%string limb_bones /\
  get_bone_name_from_data_path (get_data_rigify_limb_property "LEFT_ARM" "IK_FK")
  = Some "upper_arm_parent.L"%string.
Proof.
  assert (In ("LEFT_ARM", "upper_arm_parent.L")%string limb_bones) as Hin.
  { vm_compute. tauto. }
  split; [exact Hin|].
  destruct (limb_property_paths "LEFT_ARM" "IK_FK") as [Hlimb _].
  exact (proj2 (Hlimb _ Hin)).
Defined.

Lemma rename_bone_renames_witness :
  exists rig',
    rename_bone (two_bone_rig true) "a" "c" = (rig', []) /\
    find_name (edit_bones rig') "c" = Some 0 /\
    rename_bone (two_bone_rig true) "z" "c"
    = (two_bone_rig true, [rename_error "z" "c"]).
Proof.
  destruct (rename_bone_renames (two_bone_rig true) "a" "c" eq_refl) as [Hok _].
  destruct (Hok 0 eq_refl eq_refl) as (rig' & Hrun & _ & _ & Hfind & _).
  exists rig'. split; [exact Hrun|]. split; [exact Hfind|].
  destruct (rename_bone_renames (two_bone_rig true) "z" "c" eq_refl) as [_ Hnone].
  apply Hnone. reflexivity.
Defined.

Lemma rename_bone_back_witness :
  rename_bone (fst (rename_bone (two_bone_rig true) "a" "c")) "c" "a"
  = (two_bone_rig true, []) /\
  snd (rename_bone (two_bone_rig true) "a" "c") = [].
Proof.
  apply (rename_bone_back (two_bone_rig true) "a" "c");
    [reflexivity | cbn; solve_NoDup | reflexivity..].
Defined.

Lemma copy_position_averages_witness :
  (exists rig',
     copy_position (two_bone_rig true) "a" ["b"; "z"]%string 2%Z
     = (Returns (Some 0), rig', []) /\
     length (edit_bones rig') = 2) /\
  copy_position (two_bone_rig true) "a" ["z"]%string 2%Z
  = (Raises ZeroDivisionError, two_bone_rig true, []).
Proof.
  split.
  - pose proof (copy_position_averages (two_bone_rig true) "a" ["b"; "z"]%string
                  2%Z 0 eq_refl eq_refl) as Hall.
    cbv zeta in Hall. destruct Hall as [_ Hok].
    destruct Hok as (rig' & Hrun & Hlen & _); [cbn; lia|].
    exists rig'. split; [exact Hrun | exact Hlen].
  - pose proof (copy_position_averages (two_bone_rig true) "a" ["z"]%string
                  2%Z 0 eq_refl eq_refl) as Hall.
    cbv zeta in Hall. destruct Hall as [Hzero _]. apply Hzero. reflexivity.
Defined.

Lemma clear_drivers_removes_all_witness :
  let rig := set_animation_data (two_bone_rig true)
               (Some ["pose.bones.a"; "pose.bones.b"; "pose.bones.a"]%string) in
  exists rig',
    clear_drivers rig = (Returns tt, rig', []) /\
    animation_data rig' = Some [] /\
    edit_bones rig' = edit_bones rig.
Proof.
  intros rig.
  destruct (clear_drivers_removes_all rig _ eq_refl)
    as (rig' & Hrun & Hnone & Hedit & _).
  exists rig'. split; [exact Hrun|]. split; [exact Hnone | exact Hedit].
Defined.

Lemma find_accessory_bones_covers_witness :
  In feather_bone (bones head_rig) /\
  mapped head_mappings feather_bone = false /\
  (In "Feather"%string (fst (find_accessory_bones head_mappings head_rig)) \/
   exists a, In a (ancestors feather_bone) /\
             In (bone_name a) (fst (find_accessory_bones head_mappings head_rig))).
Proof.
  assert (In feather_bone (bones head_rig)) as Hin by (cbn; tauto).
  split; [exact Hin|]. split; [reflexivity|].
  exact (find_accessory_bones_covers head_mappings head_rig feather_bone Hin eq_refl).
Defined.

Lemma find_accessory_bones_roots_only_witness :
  In hat_bone (bones head_rig) /\
  In "Hat"%string (fst (find_accessory_bones head_mappings head_rig)) /\
  In head_bone (ancestors hat_bone) /\
  ~ In "CC_Base_Head"%string (fst (find_accessory_bones head_mappings head_rig)).
Proof.
  split; [cbn; tauto|]. split; [cbn; tauto|]. split; [cbn; tauto|].
  assert (NoDup (map bone_name (bones head_rig))) as Hnd by (cbn; solve_NoDup).
  assert (forall pre b post a,
            bones head_rig = pre ++ b :: post -> In a (ancestors b) ->
            In (bone_name a) (map bone_name pre)) as Hparents.
  { intros pre b post a Heq Ha. cbn in Heq.
    do 6 (destruct pre as [|? pre];
          [injection Heq as <- <-; cbn in Ha; cbn;
           intuition (subst; cbn; auto)
          |injection Heq as <- Heq]).
    destruct pre; discriminate Heq. }
  pose proof (find_accessory_bones_roots_only head_mappings head_rig Hnd Hparents)
    as Hroots.
  cbv zeta in Hroots.
  apply (Hroots hat_bone head_bone); cbn; tauto.
Defined.

Lemma get_edit_bone_subtree_defs_preorder_witness :
  Forall (fun b => is_Some (node_parent b)) (preorder hat_node) /\
  map def_name (get_edit_bone_subtree_defs hat_source_rig hat_node [])
  = map node_name (preorder hat_node) /\
  get_edit_bone_subtree_defs hat_source_rig head_node [] = [].
Proof.
  assert (Forall (fun b => is_Some (node_parent b)) (preorder hat_node)) as Hp.
  { repeat constructor; now eexists. }
  split; [exact Hp|].
  destruct (get_edit_bone_subtree_defs_preorder hat_source_rig hat_node [])
    as [Hwalk _].
  destruct (get_edit_bone_subtree_defs_preorder hat_source_rig head_node [])
    as [_ Hstop].
  split.
  - rewrite (Hwalk eq_refl Hp). reflexivity.
  - apply Hstop. right. reflexivity.
Defined.

Lemma copy_subtree_untouched_destination_witness :
  copy_rl_edit_bone_subtree (N := suffix_naming)
    hat_source_rig hat_destination_rig "Cap" "Cap" "head" 3
  = (Raises AttributeError, hat_destination_rig).
Proof.
  pose proof (copy_subtree_untouched_destination (N := suffix_naming)
                hat_source_rig hat_destination_rig "Cap" "Cap" "head" 3) as Hall.
  cbv zeta in Hall. destruct Hall as (_ & Hmissing & _).
  apply Hmissing; reflexivity.
Defined.

Lemma copy_subtree_keeps_existing_witness :
  exists defs dst_rig',
    copy_rl_edit_bone_subtree (N := suffix_naming)
      hat_source_rig hat_destination_rig "Hat" "Hat" "head" 3
    = (Returns (Some defs), dst_rig') /\
    (exists eb', edit_bones dst_rig' !! 1 = Some eb' /\
                 eb' = plain_edit_bone "head" (Some 0)) /\
    pose_bones dst_rig' = pose_bones hat_destination_rig.
Proof.
  destruct (copy_subtree_keeps_existing (N := suffix_naming)
              hat_source_rig hat_destination_rig "Hat" "Hat" "head" 3
              1 hat_node eq_refl eq_refl eq_refl eq_refl)
    as (defs & dst_rig' & Hrun & Hkept & Hpose & _).
  exists defs, dst_rig'. split; [exact Hrun|]. split; [|exact Hpose].
  destruct (Hkept 1 (plain_edit_bone "head" (Some 0)) eq_refl)
    as (eb' & Heb' & _ & _ & _ & _ & _ & _ & _ & Hsame).
  exists eb'. split; [exact Heb'|]. apply Hsame. discriminate.
Defined.

Lemma copy_subtree_of_parentless_bone_witness :
  exists dst_rig',
    copy_rl_edit_bone_subtree (N := suffix_naming)
      hat_source_rig hat_destination_rig "Head" "head" "root" 3
    = (Returns (Some []), dst_rig') /\
    length (edit_bones dst_rig') = 2 /\
    edit_bones dst_rig' !! 1
    = Some (with_parent (plain_edit_bone "head" (Some 0)) 0).
Proof.
  destruct (copy_subtree_of_parentless_bone (N := suffix_naming)
              hat_source_rig hat_destination_rig "Head" "head" "root" 3
              0 head_node eq_refl eq_refl eq_refl eq_refl eq_refl)
    as (dst_rig' & Hrun & Hlen & Hforce).
  exists dst_rig'. split; [exact Hrun|]. split; [exact Hlen|].
  apply (Hforce 1 0); [reflexivity.. | vm_compute; intuition discriminate].
Defined.

Lemma copy_subtree_keeps_topology_witness :
  exists defs dst_rig',
    copy_rl_edit_bone_subtree (N := suffix_naming)
      hat_source_rig hat_destination_rig "Hat" "Hat" "head" 3
    = (Returns (Some defs), dst_rig') /\
    map def_name defs = ["Hat"; "Feather"]%string /\
    exists j d_j eb,
      j < 1 /\ defs !! j = Some d_j /\ def_name d_j = "Hat"%string /\
      edit_bones dst_rig' !! (2 + 1) = Some eb /\ parent eb = Some (2 + j).
Proof.
  eassert (copy_rl_edit_bone_subtree (N := suffix_naming)
             hat_source_rig hat_destination_rig "Hat" "Hat" "head" 3
           = (Returns (Some _), _)) as Hrun by (vm_compute; reflexivity).
  eexists. eexists. split; [exact Hrun|]. split; [reflexivity|].
  assert (well_linked hat_node) as Hlinked by (cbn; tauto).
  match type of Hrun with
  | _ = (Returns (Some ?defs), _) =>
      assert (Forall (fun d => def_created d = Some (def_name d) /\
                               PyStr.truthy (def_name d) = true) defs) as Hkept
        by (repeat constructor)
  end.
  exact (copy_subtree_keeps_topology (N := suffix_naming)
           hat_source_rig hat_destination_rig _ "Hat" "head" 3 1 hat_node _
           eq_refl eq_refl eq_refl eq_refl (ex_intro _ _ eq_refl) Hlinked Hrun
           Hkept 1 _ (le_n 1) eq_refl).
Defined.

Lemma reparent_edit_bone_missing_edit_bone_witness :
  let rig := plain_rig [plain_edit_bone "a" None; plain_edit_bone "fresh" None]
                       [mkDataBone "a" []; mkDataBone "ghost" []]
                       (@nil DataBone) true in
  contains (bones rig) "ghost" = true /\
  reparent_edit_bone rig "ghost" "a" = (Raises KeyError, rig, []) /\
  contains (edit_bones rig) "fresh" = true /\
  exists msg, reparent_edit_bone rig "fresh" "a" = (Returns None, rig, [(ERROR, msg)]).
Proof.
  intros rig. split; [reflexivity|].
  destruct (reparent_edit_bone_missing_edit_bone rig "ghost" "a" eq_refl)
    as [Hraise _].
  destruct (reparent_edit_bone_missing_edit_bone rig "fresh" "a" eq_refl)
    as [_ Hnone].
  split; [apply Hraise; reflexivity|]. split; [reflexivity|].
  eexists. apply Hnone. reflexivity.
Defined.

Lemma reparent_edit_bone_only_parent_witness :
  exists rig' eb',
    reparent_edit_bone (two_bone_rig true) "b" "a" = (Returns (Some 1), rig', []) /\
    bones rig' = bones (two_bone_rig true) /\
    loop_free (edit_bones (two_bone_rig true)) 1 0 /\
    edit_bones rig' !! 1 = Some eb' /\ parent eb' = Some 0.
Proof.
  eassert (reparent_edit_bone (two_bone_rig true) "b" "a"
           = (Returns (Some 1), _, [])) as Hrun by (vm_compute; reflexivity).
  destruct (reparent_edit_bone_only_parent _ _ _ _ _ _ Hrun)
    as (Hbones & _ & _ & _ & Hreturned).
  destruct (Hreturned 1 eq_refl) as (_ & _ & j & eb' & Hj & Heb' & Hp).
  cbn in Hj. injection Hj as <-.
  assert (loop_free (edit_bones (two_bone_rig true)) 1 0) as Hfree.
  { vm_compute. intuition discriminate. }
  eexists. exists eb'. split; [exact Hrun|].
  split; [exact Hbones|]. split; [exact Hfree|].
  split; [exact Heb' | exact (Hp Hfree)].
Defined.


Lemma copy_edit_bone_refusal_is_logged_witness :
  exists log,
    copy_edit_bone (N := suffix_naming) (two_bone_rig true) "z" "b" "a" 2%Z
    = (Returns None, two_bone_rig true, log) /\
    log <> [].
Proof.
  eassert (copy_edit_bone (N := suffix_naming) (two_bone_rig true) "z" "b" "a" 2%Z
           = (Returns None, _, _)) as Hrun by (vm_compute; reflexivity).
  destruct (copy_edit_bone_refusal_is_logged (N := suffix_naming)
              _ _ _ _ _ _ _ _ Hrun) as [_ Hnone].
  destruct (Hnone eq_refl) as [_ Hlog].
  eexists. split; [exact Hrun|]. apply Hlog. reflexivity.
Defined.



Lemma copy_subtree_renamed_root_orphans_witness :
  exists defs dst_rig' eb,
    copy_rl_edit_bone_subtree (N := suffix_naming)
      hat_source_rig hat_destination_rig "Hat" "DEF-hat" "head" 3
    = (Returns (Some defs), dst_rig') /\
    map def_name defs = ["Hat"; "Feather"]%string /\
    map def_parent_name defs = ["Head"; "Hat"]%string /\
    length (edit_bones dst_rig') = 2 + 2 /\
    edit_bones dst_rig' !! (2 + 1) = Some eb /\
    parent eb = None.
Proof.
  eassert (copy_rl_edit_bone_subtree (N := suffix_naming)
             hat_source_rig hat_destination_rig "Hat" "DEF-hat" "head" 3
           = (Returns (Some _), _)) as Hrun by (vm_compute; reflexivity).
  match type of Hrun with
  | _ = (Returns (Some ?defs), _) =>
      assert (Forall (fun d => def_created d = Some (requested_name "Hat" "DEF-hat" d))
                     defs) as Hkept
        by (repeat constructor)
  end.
  assert ("DEF-hat"%string <> "Hat"%string) as Hrenamed by discriminate.
  destruct (copy_subtree_renamed_root_orphans (N := suffix_naming)
              hat_source_rig hat_destination_rig _ "Hat" "DEF-hat" "head" 3
              1 hat_node _ eq_refl eq_refl eq_refl eq_refl (ex_intro _ _ eq_refl)
              Hrenamed eq_refl Hrun Hkept)
    as (_ & Hlen & _ & Horphan).
  destruct (Horphan 1 _ (le_n 1) eq_refl eq_refl) as (eb & Heb & _ & Hnone).
  eexists. eexists. exists eb. split; [exact Hrun|].
  do 2 (split; [reflexivity|]). split; [exact Hlen|].
  split; [exact Heb | exact Hnone].
Defined.
